(** * sourceFile.ts: the per-file analysis state machine

    A shallow embedding of [server/src/analyzer/sourceFile.ts]: the class
    [SourceFile] becomes a record, every method a function on that record,
    and the external collaborators (file system, parser, post-parse walker,
    import resolver, semantic analyzer, type analyzer) a record of
    functions whose results say whether the call returned or threw.

    Conventions.
    - The three counters ([_diagnosticVersion], [_fileContentsVersion],
      [typeAnalysisPassNumber]) are JavaScript numbers that start at a small
      integer and only ever change by [++]; they are modelled as [Z], which
      is exact as long as a counter stays below 2^53.
    - [undefined] / [null] in an optional position is [None].
    - A method with a [try] / [catch] statement ([parse],
      [doSemanticAnalysis], [doTypeAnalysis]) yields the state the call
      leaves together with [Returns v] or [Throws e]: an exception leaves
      the method when an assertion fails (before any field is written) or
      when the [catch] block itself throws while it builds and writes its
      log line.
    - [finalizeAnalysis], which can only throw by its assertion, returns
      [None] when the assertion fails.
    - [this._console], handed to the constructor, is taken with the other
      collaborators; [timingStats] is not part of the state. *)

From Stdlib Require Import ZArith List String Ascii Bool Lia.
Import ListNotations.
Local Open Scope string_scope.
Local Open Scope list_scope.
Local Open Scope Z_scope.

(** ** Results of calls into code that may throw *)

(** A thrown value, as far as the [catch] blocks of the file look at it:
    an [Error] with its message; any other value that [JSON.stringify]
    turns into text, with that text; or a value on which [JSON.stringify]
    itself throws (a BigInt, an object with a cycle), with the message of
    the TypeError it throws. *)
Inductive Thrown : Type :=
| ThrownError (message : string)
| ThrownValue (json : string)
| ThrownUnserializable (typeError : string).

Inductive outcome (A : Type) : Type :=
| Returns (a : A)
| Throws (e : Thrown).
Arguments Returns {A} a.
Arguments Throws {A} e.

(** ** JavaScript string helpers used by the file *)

(** [s.startsWith(p)] *)
Definition startsWith (s p : string) : bool := String.prefix p s.

(** [s.endsWith(p)] *)
Definition endsWith (s p : string) : bool :=
  let n := String.length s in
  let m := String.length p in
  (m <=? n)%nat && String.eqb (String.substring (n - m) m s) p.

(** Truthiness of a string value: only the empty string is falsy. *)
Definition truthy (s : string) : bool := negb (String.eqb s "").

(** The line-feed of the ['\n'] literals. *)
Definition LF : string := String (ascii_of_nat 10) EmptyString.

(** ** Data of the collaborating modules *)

(** [AnalysisPhase], with the numeric values the enum declares. *)
Inductive AnalysisPhase : Type :=
| Parse
| SemanticAnalysis
| TypeAnalysis.

Definition phaseValue (p : AnalysisPhase) : Z :=
  match p with
  | Parse => 0
  | SemanticAnalysis => 1
  | TypeAnalysis => 2
  end.

Definition FirstAnalysisPhase : AnalysisPhase := SemanticAnalysis.
Definition LastAnalysisPhase : AnalysisPhase := TypeAnalysis.

Definition MaxImportCyclesPerFile : nat := 4.

(** Modelled from the spec: [DiagnosticCategory] of common/diagnostic.ts,
    the severity of a diagnostic record (error or warning). *)
Inductive DiagnosticCategory : Type :=
| Error
| Warning.

Definition DiagnosticCategory_eqb (a b : DiagnosticCategory) : bool :=
  match a, b with
  | Error, Error | Warning, Warning => true
  | _, _ => false
  end.

Record DiagnosticTextPosition : Type := mkPosition {
  line : Z;
  column : Z
}.

Record DocumentTextRange : Type := mkDocRange {
  range_start : DiagnosticTextPosition;
  range_end : DiagnosticTextPosition
}.

(** Modelled from the spec: the [Diagnostic] class of common/diagnostic.ts,
    built by [new Diagnostic(category, message, range?)]. *)
Record Diagnostic : Type := mkDiagnostic {
  category : DiagnosticCategory;
  message : string;
  range : option DocumentTextRange
}.

(** Modelled from the spec: [DiagnosticSink.addError(message)] on a fresh
    sink leaves one error-severity diagnostic without a range. *)
Definition addError (diagnostics : list Diagnostic) (msg : string)
  : list Diagnostic :=
  diagnostics ++ [mkDiagnostic Error msg None].

Record TextRange : Type := mkTextRange {
  tr_start : Z;
  tr_length : Z
}.

(** The parse tree is owned by the parser and the analyzers; this file only
    stores the reference.  What the file itself builds is the placeholder
    [new ModuleNode(new TextRange(0, 0))], a module without statements. *)
Inductive StatementNode : Type :=
| Statement (id : nat).

Record ModuleNode : Type := mkModuleNode {
  nodeRange : TextRange;
  statements : list StatementNode
}.

Inductive Token : Type :=
| Tok (tokenRange : TextRange).

(** [ParseResults] of parser.ts: the tree, the token collection and the
    line collection ([TextRangeCollection]s, kept as lists). *)

Record ParseResults : Type := mkParseResults {
  parseTree : ModuleNode;
  tokens : list Token;
  lines : list TextRange
}.

Record ParseOptions : Type := mkParseOptions {
  po_isStubFile : bool;
  pythonVersion : Z
}.

Record ExecutionEnvironment : Type := mkExecEnv {
  env_pythonVersion : Z
}.

(** The argument of [resolver.resolveImport]. *)
Record ImportedModuleName : Type := mkModuleName {
  leadingDots : Z;
  nameParts : list string;
  importedSymbols : option (list string)
}.

(** An entry of [walker.getImportedModules()]. *)
Record ModuleImport : Type := mkModuleImport {
  nameNode : nat;
  mi_leadingDots : Z;
  mi_nameParts : list string;
  mi_importedSymbols : option (list string)
}.

(** [ImportResult] of importResult.ts.  The file reads [resolvedPaths]
    only; [importName] stands for the rest of the record. *)
Record ImportResult : Type := mkImportResult {
  importName : string;
  resolvedPaths : list string
}.

(** Modelled from the spec: [CircularDependency] of circularDependency.ts,
    an ordered chain of paths; [isEqual] is structural equality of the
    chains. *)
Record CircularDependency : Type := mkCircularDependency {
  getPaths : list string
}.

Definition isEqual (a b : CircularDependency) : bool :=
  if list_eq_dec string_dec (getPaths a) (getPaths b) then true else false.

(** The string-valued report levels of the configuration: 'none',
    'warning', 'error'. *)
Inductive DiagnosticLevel : Type :=
| level_none
| level_warning
| level_error.

(** [findExecEnvironment] is the lookup of the execution environment for a
    path; it is called outside the [try] blocks and is taken to return. *)
Record ConfigOptions : Type := mkConfigOptions {
  reportImportCycles : DiagnosticLevel;
  reportTypeshedErrors : DiagnosticLevel;
  ignore : list string;
  internalTestMode : bool;
  findExecEnvironment : string -> ExecutionEnvironment
}.

(** ** The state of a source file *)

Record AnalysisJob : Type := mkAnalysisJob {
  fileContentsVersion : Z;
  nextPhaseToRun : AnalysisPhase;
  parseTreeNeedsCleaning : bool;
  parseResults : option ParseResults;

  parseDiagnostics : list Diagnostic;
  semanticAnalysisDiagnostics : list Diagnostic;
  typeAnalysisLastPassDiagnostics : list Diagnostic;
  typeAnalysisFinalDiagnostics : list Diagnostic;

  circularDependencies : list CircularDependency;

  typeAnalysisPassNumber : Z;
  isTypeAnalysisPassNeeded : bool;
  isTypeAnalysisFinalized : bool;

  imports : option (list ImportResult);
  builtinsImport : option ImportResult;
  typingModulePath : option string
}.

Record SourceFile : Type := mkSourceFile {
  _filePath : string;
  _isStubFile : bool;
  _isTypeshedStubFile : bool;
  _analysisJob : AnalysisJob;
  _diagnosticVersion : Z;
  _fileContentsVersion : Z;
  _clientVersion : option Z;
  _fileContents : option string
}.

(** Field updates, one per field the methods assign. *)
Definition set_analysisJob (s : SourceFile) (j : AnalysisJob) : SourceFile :=
  mkSourceFile (_filePath s) (_isStubFile s) (_isTypeshedStubFile s) j
    (_diagnosticVersion s) (_fileContentsVersion s) (_clientVersion s)
    (_fileContents s).

Definition set_diagnosticVersion (s : SourceFile) (v : Z) : SourceFile :=
  mkSourceFile (_filePath s) (_isStubFile s) (_isTypeshedStubFile s)
    (_analysisJob s) v (_fileContentsVersion s) (_clientVersion s)
    (_fileContents s).

Definition set_fileContentsVersion (s : SourceFile) (v : Z) : SourceFile :=
  mkSourceFile (_filePath s) (_isStubFile s) (_isTypeshedStubFile s)
    (_analysisJob s) (_diagnosticVersion s) v (_clientVersion s)
    (_fileContents s).

Definition set_clientVersion (s : SourceFile) (v : option Z) : SourceFile :=
  mkSourceFile (_filePath s) (_isStubFile s) (_isTypeshedStubFile s)
    (_analysisJob s) (_diagnosticVersion s) (_fileContentsVersion s) v
    (_fileContents s).

Definition set_fileContents (s : SourceFile) (c : option string)
  : SourceFile :=
  mkSourceFile (_filePath s) (_isStubFile s) (_isTypeshedStubFile s)
    (_analysisJob s) (_diagnosticVersion s) (_fileContentsVersion s)
    (_clientVersion s) c.

Definition job_fileContentsVersion (j : AnalysisJob) (v : Z) : AnalysisJob :=
  mkAnalysisJob v (nextPhaseToRun j) (parseTreeNeedsCleaning j)
    (parseResults j) (parseDiagnostics j) (semanticAnalysisDiagnostics j)
    (typeAnalysisLastPassDiagnostics j) (typeAnalysisFinalDiagnostics j)
    (circularDependencies j) (typeAnalysisPassNumber j)
    (isTypeAnalysisPassNeeded j) (isTypeAnalysisFinalized j) (imports j)
    (builtinsImport j) (typingModulePath j).

Definition job_nextPhaseToRun (j : AnalysisJob) (p : AnalysisPhase)
  : AnalysisJob :=
  mkAnalysisJob (fileContentsVersion j) p (parseTreeNeedsCleaning j)
    (parseResults j) (parseDiagnostics j) (semanticAnalysisDiagnostics j)
    (typeAnalysisLastPassDiagnostics j) (typeAnalysisFinalDiagnostics j)
    (circularDependencies j) (typeAnalysisPassNumber j)
    (isTypeAnalysisPassNeeded j) (isTypeAnalysisFinalized j) (imports j)
    (builtinsImport j) (typingModulePath j).

Definition job_parseTreeNeedsCleaning (j : AnalysisJob) (b : bool)
  : AnalysisJob :=
  mkAnalysisJob (fileContentsVersion j) (nextPhaseToRun j) b
    (parseResults j) (parseDiagnostics j) (semanticAnalysisDiagnostics j)
    (typeAnalysisLastPassDiagnostics j) (typeAnalysisFinalDiagnostics j)
    (circularDependencies j) (typeAnalysisPassNumber j)
    (isTypeAnalysisPassNeeded j) (isTypeAnalysisFinalized j) (imports j)
    (builtinsImport j) (typingModulePath j).

Definition job_parseResults (j : AnalysisJob) (r : option ParseResults)
  : AnalysisJob :=
  mkAnalysisJob (fileContentsVersion j) (nextPhaseToRun j)
    (parseTreeNeedsCleaning j) r (parseDiagnostics j)
    (semanticAnalysisDiagnostics j) (typeAnalysisLastPassDiagnostics j)
    (typeAnalysisFinalDiagnostics j) (circularDependencies j)
    (typeAnalysisPassNumber j) (isTypeAnalysisPassNeeded j)
    (isTypeAnalysisFinalized j) (imports j) (builtinsImport j)
    (typingModulePath j).

Definition job_parseDiagnostics (j : AnalysisJob) (d : list Diagnostic)
  : AnalysisJob :=
  mkAnalysisJob (fileContentsVersion j) (nextPhaseToRun j)
    (parseTreeNeedsCleaning j) (parseResults j) d
    (semanticAnalysisDiagnostics j) (typeAnalysisLastPassDiagnostics j)
    (typeAnalysisFinalDiagnostics j) (circularDependencies j)
    (typeAnalysisPassNumber j) (isTypeAnalysisPassNeeded j)
    (isTypeAnalysisFinalized j) (imports j) (builtinsImport j)
    (typingModulePath j).

Definition job_semanticAnalysisDiagnostics (j : AnalysisJob)
  (d : list Diagnostic) : AnalysisJob :=
  mkAnalysisJob (fileContentsVersion j) (nextPhaseToRun j)
    (parseTreeNeedsCleaning j) (parseResults j) (parseDiagnostics j) d
    (typeAnalysisLastPassDiagnostics j) (typeAnalysisFinalDiagnostics j)
    (circularDependencies j) (typeAnalysisPassNumber j)
    (isTypeAnalysisPassNeeded j) (isTypeAnalysisFinalized j) (imports j)
    (builtinsImport j) (typingModulePath j).

Definition job_typeAnalysisLastPassDiagnostics (j : AnalysisJob)
  (d : list Diagnostic) : AnalysisJob :=
  mkAnalysisJob (fileContentsVersion j) (nextPhaseToRun j)
    (parseTreeNeedsCleaning j) (parseResults j) (parseDiagnostics j)
    (semanticAnalysisDiagnostics j) d (typeAnalysisFinalDiagnostics j)
    (circularDependencies j) (typeAnalysisPassNumber j)
    (isTypeAnalysisPassNeeded j) (isTypeAnalysisFinalized j) (imports j)
    (builtinsImport j) (typingModulePath j).

Definition job_typeAnalysisFinalDiagnostics (j : AnalysisJob)
  (d : list Diagnostic) : AnalysisJob :=
  mkAnalysisJob (fileContentsVersion j) (nextPhaseToRun j)
    (parseTreeNeedsCleaning j) (parseResults j) (parseDiagnostics j)
    (semanticAnalysisDiagnostics j) (typeAnalysisLastPassDiagnostics j) d
    (circularDependencies j) (typeAnalysisPassNumber j)
    (isTypeAnalysisPassNeeded j) (isTypeAnalysisFinalized j) (imports j)
    (builtinsImport j) (typingModulePath j).

Definition job_circularDependencies (j : AnalysisJob)
  (c : list CircularDependency) : AnalysisJob :=
  mkAnalysisJob (fileContentsVersion j) (nextPhaseToRun j)
    (parseTreeNeedsCleaning j) (parseResults j) (parseDiagnostics j)
    (semanticAnalysisDiagnostics j) (typeAnalysisLastPassDiagnostics j)
    (typeAnalysisFinalDiagnostics j) c (typeAnalysisPassNumber j)
    (isTypeAnalysisPassNeeded j) (isTypeAnalysisFinalized j) (imports j)
    (builtinsImport j) (typingModulePath j).

Definition job_typeAnalysisPassNumber (j : AnalysisJob) (n : Z)
  : AnalysisJob :=
  mkAnalysisJob (fileContentsVersion j) (nextPhaseToRun j)
    (parseTreeNeedsCleaning j) (parseResults j) (parseDiagnostics j)
    (semanticAnalysisDiagnostics j) (typeAnalysisLastPassDiagnostics j)
    (typeAnalysisFinalDiagnostics j) (circularDependencies j) n
    (isTypeAnalysisPassNeeded j) (isTypeAnalysisFinalized j) (imports j)
    (builtinsImport j) (typingModulePath j).

Definition job_isTypeAnalysisPassNeeded (j : AnalysisJob) (b : bool)
  : AnalysisJob :=
  mkAnalysisJob (fileContentsVersion j) (nextPhaseToRun j)
    (parseTreeNeedsCleaning j) (parseResults j) (parseDiagnostics j)
    (semanticAnalysisDiagnostics j) (typeAnalysisLastPassDiagnostics j)
    (typeAnalysisFinalDiagnostics j) (circularDependencies j)
    (typeAnalysisPassNumber j) b (isTypeAnalysisFinalized j) (imports j)
    (builtinsImport j) (typingModulePath j).

Definition job_isTypeAnalysisFinalized (j : AnalysisJob) (b : bool)
  : AnalysisJob :=
  mkAnalysisJob (fileContentsVersion j) (nextPhaseToRun j)
    (parseTreeNeedsCleaning j) (parseResults j) (parseDiagnostics j)
    (semanticAnalysisDiagnostics j) (typeAnalysisLastPassDiagnostics j)
    (typeAnalysisFinalDiagnostics j) (circularDependencies j)
    (typeAnalysisPassNumber j) (isTypeAnalysisPassNeeded j) b (imports j)
    (builtinsImport j) (typingModulePath j).

Definition job_imports (j : AnalysisJob)
  (i : option (list ImportResult)) (b : option ImportResult)
  (t : option string) : AnalysisJob :=
  mkAnalysisJob (fileContentsVersion j) (nextPhaseToRun j)
    (parseTreeNeedsCleaning j) (parseResults j) (parseDiagnostics j)
    (semanticAnalysisDiagnostics j) (typeAnalysisLastPassDiagnostics j)
    (typeAnalysisFinalDiagnostics j) (circularDependencies j)
    (typeAnalysisPassNumber j) (isTypeAnalysisPassNeeded j)
    (isTypeAnalysisFinalized j) i b t.

(** [s._analysisJob.f = v] for a job update [f]. *)
Definition upd_job (s : SourceFile) (f : AnalysisJob -> AnalysisJob)
  : SourceFile :=
  set_analysisJob s (f (_analysisJob s)).

(** ** Construction *)

(** The initializer of [_analysisJob]. *)
Definition initialJob : AnalysisJob :=
  mkAnalysisJob (-1) SemanticAnalysis false None [] [] [] [] [] 1 true false
    None None None.

(** [new SourceFile(filePath, isTypeshedStubFile)].  The two special-case
    stub flags ([_isTypingStubFile], [_isBuiltInStubFile]) are functions of
    the path alone and are read by no method modelled here. *)
Definition newSourceFile (filePath : string) (isTypeshedStubFile : bool)
  : SourceFile :=
  mkSourceFile filePath (endsWith filePath ".pyi") isTypeshedStubFile
    initialJob 0 0 None None.

Definition getFilePath (s : SourceFile) : string := _filePath s.
Definition getDiagnosticVersion (s : SourceFile) : Z := _diagnosticVersion s.
Definition isStubFile (s : SourceFile) : bool := _isStubFile s.

(** ** Phase predicates *)

Definition isParseRequired (s : SourceFile) : bool :=
  negb (fileContentsVersion (_analysisJob s) =? _fileContentsVersion s).

Definition isSemanticAnalysisRequired (s : SourceFile) : bool :=
  if isParseRequired s then true
  else phaseValue (nextPhaseToRun (_analysisJob s))
       <=? phaseValue SemanticAnalysis.

Definition isTypeAnalysisRequired (s : SourceFile) : bool :=
  if isSemanticAnalysisRequired s then true
  else if (phaseValue (nextPhaseToRun (_analysisJob s))
           <? phaseValue TypeAnalysis)
          || isTypeAnalysisPassNeeded (_analysisJob s)
       then true
       else false.

Definition isAnalysisFinalized (s : SourceFile) : bool :=
  negb (isTypeAnalysisRequired s) && isTypeAnalysisFinalized (_analysisJob s).

Definition getParseResults (s : SourceFile) : option ParseResults :=
  if negb (isParseRequired s) then parseResults (_analysisJob s) else None.

Definition getImports (s : SourceFile) : list ImportResult :=
  match imports (_analysisJob s) with
  | Some l => l
  | None => []
  end.

Definition getBuiltinsImport (s : SourceFile) : option ImportResult :=
  builtinsImport (_analysisJob s).

Definition getAnalysisPassCount (s : SourceFile) : Z :=
  typeAnalysisPassNumber (_analysisJob s).

(** ** Dirtiness *)

Definition markDirty (s : SourceFile) : SourceFile :=
  let s := set_fileContentsVersion s (_fileContentsVersion s + 1) in
  let s := upd_job s (fun j => job_isTypeAnalysisFinalized j false) in
  upd_job s (fun j => job_nextPhaseToRun j SemanticAnalysis).

Definition markReanalysisRequired (s : SourceFile) : SourceFile :=
  let s := upd_job s (fun j => job_nextPhaseToRun j SemanticAnalysis) in
  let s := upd_job s (fun j => job_parseTreeNeedsCleaning j true) in
  upd_job s (fun j => job_isTypeAnalysisFinalized j false).

Definition setClientVersion (s : SourceFile) (version : option Z)
  (contents : string) : SourceFile :=
  let s := set_clientVersion s version in
  match version with
  | None => set_fileContents s None
  | Some _ =>
      let s :=
        match _fileContents s with
        | Some old => if negb (String.eqb old contents) then markDirty s else s
        | None => s
        end in
      set_fileContents s (Some contents)
  end.

Definition setTypeAnalysisPassNeeded (s : SourceFile) : SourceFile :=
  let s := upd_job s (fun j => job_isTypeAnalysisPassNeeded j true) in
  upd_job s (fun j => job_isTypeAnalysisFinalized j false).

(** ** Circular dependencies *)

Definition addCircularDependency (s : SourceFile)
  (circDependency : CircularDependency) : SourceFile :=
  let deps := circularDependencies (_analysisJob s) in
  if (List.length deps <? MaxImportCyclesPerFile)%nat then
    if negb (existsb (fun dep => isEqual dep circDependency) deps) then
      upd_job s (fun j => job_circularDependencies j (deps ++ [circDependency]))
    else s
  else s.

(** [addCircularDependency] over a sequence of reported cycles. *)
Definition addCircularDependencies (s : SourceFile)
  (cycles : list CircularDependency) : SourceFile :=
  fold_left addCircularDependency cycles s.

(** ** Diagnostics *)

(** The diagnostic [getDiagnostics] builds for one recorded cycle. *)
Definition cycleDiagnostic (category : DiagnosticCategory)
  (cirDep : CircularDependency) : Diagnostic :=
  mkDiagnostic category
    ("Cycle detected in import chain" ++ LF ++
     String.concat LF (map (fun path => "  " ++ path) (getPaths cirDep)))%string
    None.

(** The callback of the [diagList.map] that turns errors into warnings. *)
Definition errorToWarning (diag : Diagnostic) : Diagnostic :=
  match category diag with
  | Error => mkDiagnostic Warning (message diag) (range diag)
  | Warning => diag
  end.

(** [options.ignore.find(ignorePath => this._filePath.startsWith(ignorePath))]
    used as a condition: [find] yields the first matching element, and the
    [if] tests that element for truthiness. *)
Definition inIgnoreList (s : SourceFile) (options : ConfigOptions) : bool :=
  match find (fun ignorePath => startsWith (_filePath s) ignorePath)
             (ignore options) with
  | Some ignorePath => truthy ignorePath
  | None => false
  end.

(** [prevDiagnosticVersion] is optional; [None] is the omitted argument. *)
Definition getDiagnostics (s : SourceFile) (options : ConfigOptions)
  (prevDiagnosticVersion : option Z) : option (list Diagnostic) :=
  let unchanged :=
    match prevDiagnosticVersion with
    | Some prev => _diagnosticVersion s =? prev
    | None => false
    end in
  if unchanged then None
  else
    let job := _analysisJob s in
    let diagList :=
      [] ++ parseDiagnostics job ++ semanticAnalysisDiagnostics job
         ++ typeAnalysisFinalDiagnostics job in
    let diagList :=
      match reportImportCycles options with
      | level_none => diagList
      | level =>
          if (0 <? List.length (circularDependencies job))%nat then
            let category :=
              match level with
              | level_warning => Warning
              | _ => Error
              end in
            diagList ++ map (cycleDiagnostic category) (circularDependencies job)
          else diagList
      end in
    let afterStubFilter : option (list Diagnostic) :=
      if _isTypeshedStubFile s then
        match reportTypeshedErrors options with
        | level_none => None
        | level_warning => Some (map errorToWarning diagList)
        | level_error => Some diagList
        end
      else Some diagList in
    match afterStubFilter with
    | None => None
    | Some diagList =>
        if inIgnoreList s options then Some [] else Some diagList
    end.

(** Steps (1) and (2): the three reported buckets in order, then one
    diagnostic per recorded cycle unless cycle reporting is off. *)
Definition reportedDiagnostics (s : SourceFile) (options : ConfigOptions)
  : list Diagnostic :=
  let job := _analysisJob s in
  parseDiagnostics job ++ semanticAnalysisDiagnostics job
    ++ typeAnalysisFinalDiagnostics job
    ++ match reportImportCycles options with
       | level_none => []
       | level_warning =>
           map (cycleDiagnostic Warning) (circularDependencies job)
       | level_error => map (cycleDiagnostic Error) (circularDependencies job)
       end.

(** ** External collaborators *)

Inductive Scope : Type :=
| ScopeRef (id : nat).

Inductive ModuleSummary : Type :=
| SummaryRef (id : nat).

(** [ImportMap]: resolved path to the analysis output of that file. *)
Definition ImportMap : Type := list (string * ModuleSummary).

Record AnalyzerFileInfo : Type := mkFileInfo {
  fi_importMap : ImportMap;
  fi_builtinsScope : option Scope;
  fi_typingModulePath : option string;
  fi_executionEnvironment : ExecutionEnvironment;
  fi_lines : list TextRange;
  fi_filePath : string;
  fi_isStubFile : bool
}.

(** Every call the file makes into code that can throw.  Parser, walker and
    analyzers report the diagnostics they add to the sink they are given. *)
Record Collaborators : Type := mkCollaborators {
  (* fs.readFileSync(path, { encoding: 'utf8' }) *)
  readFileSync : string -> outcome string;
  (* new Parser().parseSourceFile(fileContents, parseOptions, diagSink);
     the text is whatever [fileContents!] holds at run time *)
  parseSourceFile : option string -> ParseOptions
                    -> outcome (ParseResults * list Diagnostic);
  (* new PostParseWalker(sink, tree).analyze(); getImportedModules() *)
  postParseWalk : ModuleNode -> outcome (list ModuleImport * list Diagnostic);
  (* new TestWalker().walk(tree) *)
  testWalk : ModuleNode -> outcome unit;
  (* new ImportResolver(path, options, env).resolveImport(name) *)
  resolveImport : string -> ExecutionEnvironment -> ImportedModuleName
                  -> outcome ImportResult;
  (* new ParseTreeCleanerWalker(tree).clean() *)
  cleanParseTree : ModuleNode -> outcome unit;
  (* new ModuleScopeAnalyzer(tree, fileInfo).analyze() *)
  scopeAnalyze : ModuleNode -> AnalyzerFileInfo -> outcome (list Diagnostic);
  (* new TypeAnalyzer(tree, fileInfo, passNumber) *)
  newTypeAnalyzer : ModuleNode -> AnalyzerFileInfo -> Z -> outcome unit;
  (* typeAnalyzer.analyze() *)
  typeAnalyze : ModuleNode -> AnalyzerFileInfo -> Z
                -> outcome (bool * list Diagnostic);
  (* this._console.log(text), on the console given to the constructor *)
  consoleLog : string -> outcome unit
}.

(** ** Import resolution *)

Definition builtinsModuleName : ImportedModuleName :=
  mkModuleName 0 ["builtins"] None.

Definition typingModuleName : ImportedModuleName :=
  mkModuleName 0 ["typing"] None.

Definition moduleNameOf (moduleImport : ModuleImport) : ImportedModuleName :=
  mkModuleName (mi_leadingDots moduleImport) (mi_nameParts moduleImport)
    (mi_importedSymbols moduleImport).

(** [r.resolvedPaths.length === 0 || r.resolvedPaths[0] !== filePath] *)
Definition notSelfImport (filePath : string) (r : ImportResult) : bool :=
  (List.length (resolvedPaths r) =? 0)%nat
  || match resolvedPaths r with
     | first :: _ => negb (String.eqb first filePath)
     | [] => true
     end.

(** The [for ... of moduleImports] loop; the results are pushed in order.
    [AnalyzerNodeInfo.setImportInfo] annotates the name node of the tree and
    does not touch the state of the source file. *)
Fixpoint resolveModuleImports (resolve : ImportedModuleName -> outcome ImportResult)
  (moduleImports : list ModuleImport) (acc : list ImportResult)
  : outcome (list ImportResult) :=
  match moduleImports with
  | [] => Returns acc
  | moduleImport :: rest =>
      match resolve (moduleNameOf moduleImport) with
      | Throws e => Throws e
      | Returns importResult =>
          resolveModuleImports resolve rest (acc ++ [importResult])
      end
  end.

Definition _resolveImports (c : Collaborators) (s : SourceFile)
  (moduleImports : list ModuleImport) (execEnv : ExecutionEnvironment)
  : outcome (list ImportResult * option ImportResult * option string) :=
  let resolve := resolveImport c (_filePath s) execEnv in
  let imports : list ImportResult := [] in
  match resolve builtinsModuleName with
  | Throws e => Throws e
  | Returns builtinsImportResult =>
      let '(imports, builtinsImportResult) :=
        if notSelfImport (getFilePath s) builtinsImportResult
        then (imports ++ [builtinsImportResult], Some builtinsImportResult)
        else (imports, None) in
      match resolve typingModuleName with
      | Throws e => Throws e
      | Returns typingImportResult =>
          let '(imports, typingModulePath) :=
            if notSelfImport (getFilePath s) typingImportResult
            then (imports ++ [typingImportResult],
                  hd_error (resolvedPaths typingImportResult))
            else (imports, None) in
          match resolveModuleImports resolve moduleImports imports with
          | Throws e => Throws e
          | Returns imports =>
              Returns (imports, builtinsImportResult, typingModulePath)
          end
      end
  end.

(** ** The log line of the [catch] blocks *)

(** The first statements of each [catch (e)] block:
    [message = e instanceof Error ? e.message : JSON.stringify(e)].
    [JSON.stringify] throws its TypeError from inside the [catch] block. *)
Definition errorMessage (e : Thrown) : outcome string :=
  match e with
  | ThrownError message => Returns message
  | ThrownValue json => Returns json
  | ThrownUnserializable typeError => Throws (ThrownError typeError)
  end.

(** [this._console.log(prefix + message)], which follows.  Both steps come
    before the block writes any field, and what either throws leaves the
    method. *)
Definition logInternalError (c : Collaborators) (prefix : string) (e : Thrown)
  : outcome unit :=
  match errorMessage e with
  | Throws e' => Throws e'
  | Returns message => consoleLog c (prefix ++ message)%string
  end.

(** What a failed [assert(...)] throws. *)
Definition assertionError : Thrown := ThrownError "AssertionError".

(** ** Parsing *)

(** The placeholder stored when parsing fails. *)
Definition emptyParseResults : ParseResults :=
  mkParseResults (mkModuleNode (mkTextRange 0 0) []) [] [].

Definition parseInternalError : list Diagnostic :=
  addError [] "An internal error occurred while parsing file".

(** The body of the [try] block of [parse]: the job as the block leaves it,
    or the job as it stands when an exception is raised, with the exception
    ([parseResults] is already stored when import resolution runs).
    The walker's [TextRangeDiagnosticSink] is built over the array of
    [diagSink], so its diagnostics follow the parser's in that array. *)
Definition parseTry (c : Collaborators) (s : SourceFile)
  (configOptions : ConfigOptions) (fileContents : option string)
  (parseOptions : ParseOptions) (execEnvironment : ExecutionEnvironment)
  (diagnostics : list Diagnostic) : AnalysisJob * outcome unit :=
  let job := _analysisJob s in
  match parseSourceFile c fileContents parseOptions with
  | Throws e => (job, Throws e)
  | Returns (parseResults, parserDiags) =>
      let diagnostics := diagnostics ++ parserDiags in
      match postParseWalk c (parseTree parseResults) with
      | Throws e => (job, Throws e)
      | Returns (importedModules, walkerDiags) =>
          let diagnostics := diagnostics ++ walkerDiags in
          let tested :=
            if internalTestMode configOptions
            then testWalk c (parseTree parseResults)
            else Returns tt in
          match tested with
          | Throws e => (job, Throws e)
          | Returns _ =>
              let job := job_parseResults job (Some parseResults) in
              match _resolveImports c s importedModules execEnvironment with
              | Throws e => (job, Throws e)
              | Returns (imports, builtinsImport, typingModulePath) =>
                  let job :=
                    job_imports job (Some imports) builtinsImport
                      typingModulePath in
                  (job_parseDiagnostics job diagnostics, Returns tt)
              end
          end
      end
  end.

(** The text in front of the message in the log line of [parse]. *)
Definition parseLogPrefix (s : SourceFile) : string :=
  ("An internal error occurred while parsing " ++ getFilePath s ++ ": ")%string.

(** The [catch] block of [parse], entered with the exception [e]: the log
    line first, then the placeholder, the cleared imports and the single
    diagnostic.  When the log line cannot be written the block is left by
    an exception and the job stays as the [try] block left it. *)
Definition parseCatch (c : Collaborators) (s : SourceFile) (job : AnalysisJob)
  (e : Thrown) : AnalysisJob * outcome unit :=
  match logInternalError c (parseLogPrefix s) e with
  | Throws e' => (job, Throws e')
  | Returns _ =>
      let job := job_parseResults job (Some emptyParseResults) in
      let job := job_imports job None None (typingModulePath job) in
      (job_parseDiagnostics job parseInternalError, Returns tt)
  end.

(** The source text handed to the parser and the diagnostics collected
    while obtaining it: the client's buffer when a client version is set,
    otherwise one read of the file, with a failed read replaced by the empty
    text and one error. *)
Definition readSource (c : Collaborators) (s : SourceFile)
  : option string * list Diagnostic :=
  let diagnostics : list Diagnostic := [] in
  let fileContents := _fileContents s in
  match _clientVersion s with
  | None =>
      match readFileSync c (_filePath s) with
      | Returns text => (Some text, diagnostics)
      | Throws _ =>
          (Some "", addError diagnostics "Source file could not be read")
      end
  | Some _ => (fileContents, diagnostics)
  end.

Definition parseOptionsOf (s : SourceFile) (configOptions : ConfigOptions)
  : ParseOptions :=
  let execEnvironment := findExecEnvironment configOptions (_filePath s) in
  mkParseOptions (if endsWith (_filePath s) "pyi" then true else false)
    (env_pythonVersion execEnvironment).

(** The job as the [try] / [catch] statement of [parse] leaves it, and
    whether the statement completed or was left by an exception. *)
Definition parseBody (c : Collaborators) (s : SourceFile)
  (configOptions : ConfigOptions) : AnalysisJob * outcome unit :=
  let '(fileContents, diagnostics) := readSource c s in
  let execEnvironment := findExecEnvironment configOptions (_filePath s) in
  let parseOptions := parseOptionsOf s configOptions in
  match parseTry c s configOptions fileContents parseOptions execEnvironment
          diagnostics with
  | (job, Returns _) => (job, Returns tt)
  | (job, Throws e) => parseCatch c s job e
  end.

(** The four assignments after the [try] / [catch] statement of [parse]. *)
Definition parseFinish (s : SourceFile) : SourceFile :=
  let s := upd_job s (fun j => job_fileContentsVersion j (_fileContentsVersion s)) in
  let s := upd_job s (fun j => job_nextPhaseToRun j SemanticAnalysis) in
  let s := upd_job s (fun j => job_parseTreeNeedsCleaning j false) in
  set_diagnosticVersion s (_diagnosticVersion s + 1).

(** [parse]: the state the call leaves, and the value it returns or the
    exception that leaves it. *)
Definition parse (c : Collaborators) (s : SourceFile)
  (configOptions : ConfigOptions) : SourceFile * outcome bool :=
  if negb (isParseRequired s) then (s, Returns false)
  else
    match parseBody c s configOptions with
    | (job, Throws e) => (set_analysisJob s job, Throws e)
    | (job, Returns _) => (parseFinish (set_analysisJob s job), Returns true)
    end.

(** ** Semantic analysis *)

(** [_buildFileInfo]; its own assertion on [parseResults] is the match. *)
Definition _buildFileInfo (s : SourceFile) (configOptions : ConfigOptions)
  (importMap : option ImportMap) (builtinsScope : option Scope)
  : option AnalyzerFileInfo :=
  match parseResults (_analysisJob s) with
  | None => None
  | Some results =>
      Some (mkFileInfo
              (match importMap with Some m => m | None => [] end)
              builtinsScope
              (typingModulePath (_analysisJob s))
              (findExecEnvironment configOptions (_filePath s))
              (lines results)
              (_filePath s)
              (_isStubFile s))
  end.

Definition semanticInternalError : list Diagnostic :=
  addError [] "An internal error occurred while performing semantic analysis".

(** [_cleanParseTreeIfRequired]: the flag is cleared only after the cleaner
    has returned. *)
Definition _cleanParseTreeIfRequired (c : Collaborators) (s : SourceFile)
  : outcome SourceFile :=
  match parseResults (_analysisJob s) with
  | Some results =>
      if parseTreeNeedsCleaning (_analysisJob s) then
        match cleanParseTree c (parseTree results) with
        | Throws e => Throws e
        | Returns _ =>
            Returns (upd_job s (fun j => job_parseTreeNeedsCleaning j false))
        end
      else Returns s
  | None => Returns s
  end.

Definition phase_eqb (a b : AnalysisPhase) : bool :=
  phaseValue a =? phaseValue b.

(** The four assertions that open [doSemanticAnalysis]. *)
Definition semanticAnalysisAsserts (s : SourceFile) : bool :=
  negb (isParseRequired s)
  && isSemanticAnalysisRequired s
  && match parseResults (_analysisJob s) with
     | Some _ => true
     | None => false
     end
  && phase_eqb (nextPhaseToRun (_analysisJob s)) SemanticAnalysis.

(** The [try] block of [doSemanticAnalysis]: the state as the block leaves
    it, or as it stands when an exception is raised (the cleaning flag is
    already cleared when the analyzer runs). *)
Definition semanticTry (c : Collaborators) (s : SourceFile)
  (results : ParseResults) (fileInfo : AnalyzerFileInfo)
  : SourceFile * outcome unit :=
  match _cleanParseTreeIfRequired c s with
  | Throws e => (s, Throws e)
  | Returns s =>
      match scopeAnalyze c (parseTree results) fileInfo with
      | Throws e => (s, Throws e)
      | Returns diagnostics =>
          (upd_job s (fun j => job_semanticAnalysisDiagnostics j diagnostics),
           Returns tt)
      end
  end.

Definition semanticLogPrefix (s : SourceFile) : string :=
  ("An internal error occurred while performing semantic analysis for "
   ++ getFilePath s ++ ": ")%string.

(** The [catch] block of [doSemanticAnalysis]: the log line, then the
    single diagnostic. *)
Definition semanticCatch (c : Collaborators) (s : SourceFile) (e : Thrown)
  : SourceFile * outcome unit :=
  match logInternalError c (semanticLogPrefix s) e with
  | Throws e' => (s, Throws e')
  | Returns _ =>
      (upd_job s (fun j =>
         job_semanticAnalysisDiagnostics j semanticInternalError),
       Returns tt)
  end.

(** The assignments after the [try] / [catch] statement of
    [doSemanticAnalysis]. *)
Definition semanticFinish (s : SourceFile) : SourceFile :=
  let s := upd_job s (fun j => job_nextPhaseToRun j TypeAnalysis) in
  let s := set_diagnosticVersion s (_diagnosticVersion s + 1) in
  let s := upd_job s (fun j => job_typeAnalysisPassNumber j 1) in
  let s := upd_job s (fun j => job_circularDependencies j []) in
  let s := upd_job s (fun j => job_isTypeAnalysisPassNeeded j true) in
  let s := upd_job s (fun j => job_isTypeAnalysisFinalized j false) in
  upd_job s (fun j => job_nextPhaseToRun j TypeAnalysis).

(** [doSemanticAnalysis]: the state the call leaves, and whether it
    returned or was left by an exception (a failed assertion, or one that
    the [catch] block raised). *)
Definition doSemanticAnalysis (c : Collaborators) (s : SourceFile)
  (configOptions : ConfigOptions) (builtinsScope : option Scope)
  : SourceFile * outcome unit :=
  if negb (semanticAnalysisAsserts s) then (s, Throws assertionError)
  else
    match parseResults (_analysisJob s),
          _buildFileInfo s configOptions None builtinsScope with
    | Some results, Some fileInfo =>
        match semanticTry c s results fileInfo with
        | (s, Returns _) => (semanticFinish s, Returns tt)
        | (s, Throws e) =>
            match semanticCatch c s e with
            | (s, Returns _) => (semanticFinish s, Returns tt)
            | (s, Throws e') => (s, Throws e')
            end
        end
    | _, _ => (s, Throws assertionError)
    end.

(** ** Type analysis *)

Definition typeInternalError : list Diagnostic :=
  addError [] "An internal error occurred while performing type analysis".

(** The five assertions that open [doTypeAnalysis]. *)
Definition typeAnalysisAsserts (s : SourceFile) : bool :=
  negb (isParseRequired s)
  && negb (isSemanticAnalysisRequired s)
  && isTypeAnalysisRequired s
  && match parseResults (_analysisJob s) with
     | Some _ => true
     | None => false
     end
  && phase_eqb (nextPhaseToRun (_analysisJob s)) TypeAnalysis.

(** The [try] block of [doTypeAnalysis]; the pass number is incremented
    between the construction of the analyzer and [analyze()]. *)
Definition typeAnalysisTry (c : Collaborators) (s : SourceFile)
  (results : ParseResults) (fileInfo : AnalyzerFileInfo)
  : SourceFile * outcome unit :=
  let passNumber := typeAnalysisPassNumber (_analysisJob s) in
  match newTypeAnalyzer c (parseTree results) fileInfo passNumber with
  | Throws e => (s, Throws e)
  | Returns _ =>
      let s :=
        upd_job s (fun j =>
          job_typeAnalysisPassNumber j (typeAnalysisPassNumber j + 1)) in
      match typeAnalyze c (parseTree results) fileInfo passNumber with
      | Throws e => (s, Throws e)
      | Returns (passNeeded, diagnostics) =>
          let s :=
            upd_job s (fun j => job_isTypeAnalysisPassNeeded j passNeeded) in
          (upd_job s (fun j =>
             job_typeAnalysisLastPassDiagnostics j diagnostics),
           Returns tt)
      end
  end.

(** The log prefix as the source spells it. *)
Definition typeAnalysisLogPrefix (s : SourceFile) : string :=
  ("An internal error occurred while while performing type analysis for "
   ++ getFilePath s ++ ": ")%string.

(** The [catch] block of [doTypeAnalysis]: the log line, then the flag and
    the single diagnostic. *)
Definition typeAnalysisCatch (c : Collaborators) (s : SourceFile) (e : Thrown)
  : SourceFile * outcome unit :=
  match logInternalError c (typeAnalysisLogPrefix s) e with
  | Throws e' => (s, Throws e')
  | Returns _ =>
      let s := upd_job s (fun j => job_isTypeAnalysisPassNeeded j false) in
      (upd_job s (fun j =>
         job_typeAnalysisLastPassDiagnostics j typeInternalError),
       Returns tt)
  end.

(** [doTypeAnalysis]: the state the call leaves, and whether it returned or
    was left by an exception. *)
Definition doTypeAnalysis (c : Collaborators) (s : SourceFile)
  (configOptions : ConfigOptions) (importMap : ImportMap)
  : SourceFile * outcome unit :=
  if negb (typeAnalysisAsserts s) then (s, Throws assertionError)
  else
    match parseResults (_analysisJob s),
          _buildFileInfo s configOptions (Some importMap) None with
    | Some results, Some fileInfo =>
        match typeAnalysisTry c s results fileInfo with
        | (s, Returns _) => (s, Returns tt)
        | (s, Throws e) => typeAnalysisCatch c s e
        end
    | _, _ => (s, Throws assertionError)
    end.

(** [assert(!this.isTypeAnalysisRequired())], then the move of the last-pass
    diagnostics. *)
Definition finalizeAnalysis (s : SourceFile) : option SourceFile :=
  if negb (negb (isTypeAnalysisRequired s)) then None
  else
    let s := upd_job s (fun j => job_isTypeAnalysisFinalized j true) in
    let s :=
      upd_job s (fun j =>
        job_typeAnalysisFinalDiagnostics j (typeAnalysisLastPassDiagnostics j)) in
    let s := upd_job s (fun j => job_typeAnalysisLastPassDiagnostics j []) in
    Some (set_diagnosticVersion s (_diagnosticVersion s + 1)).

(** ** The coordinator's view *)

(** Modelled from the spec: the external coordinator re-invokes the type
    analysis phase for as long as the file's own predicate asks for it.
    [fuel] bounds the number of iterations; [None] is an exhausted bound or
    a call that threw. *)
Fixpoint analyzeWhileRequired (fuel : nat) (c : Collaborators)
  (configOptions : ConfigOptions) (importMap : ImportMap) (s : SourceFile)
  : option SourceFile :=
  match fuel with
  | O => None
  | S fuel =>
      if isTypeAnalysisRequired s then
        match doTypeAnalysis c s configOptions importMap with
        | (s, Returns _) =>
            analyzeWhileRequired fuel c configOptions importMap s
        | (_, Throws _) => None
        end
      else Some s
  end.

(** The public methods that change the state, with their arguments. *)
Inductive Operation : Type :=
| OpMarkDirty
| OpMarkReanalysisRequired
| OpSetClientVersion (version : option Z) (contents : string)
| OpSetTypeAnalysisPassNeeded
| OpAddCircularDependency (circDependency : CircularDependency)
| OpParse (c : Collaborators) (configOptions : ConfigOptions)
| OpDoSemanticAnalysis (c : Collaborators) (configOptions : ConfigOptions)
    (builtinsScope : option Scope)
| OpDoTypeAnalysis (c : Collaborators) (configOptions : ConfigOptions)
    (importMap : ImportMap)
| OpFinalizeAnalysis.

(** The state a method call leaves behind, whether the call returns or is
    left by an exception; [None] only for [finalizeAnalysis] with a failed
    assertion, which leaves the state as it was. *)
Definition step (s : SourceFile) (op : Operation) : option SourceFile :=
  match op with
  | OpMarkDirty => Some (markDirty s)
  | OpMarkReanalysisRequired => Some (markReanalysisRequired s)
  | OpSetClientVersion version contents =>
      Some (setClientVersion s version contents)
  | OpSetTypeAnalysisPassNeeded => Some (setTypeAnalysisPassNeeded s)
  | OpAddCircularDependency d => Some (addCircularDependency s d)
  | OpParse c configOptions => Some (fst (parse c s configOptions))
  | OpDoSemanticAnalysis c configOptions builtinsScope =>
      Some (fst (doSemanticAnalysis c s configOptions builtinsScope))
  | OpDoTypeAnalysis c configOptions importMap =>
      Some (fst (doTypeAnalysis c s configOptions importMap))
  | OpFinalizeAnalysis => finalizeAnalysis s
  end.

(** A state is reachable when a freshly constructed source file gets there
    through method calls, returning or throwing. *)
Inductive reachable : SourceFile -> Prop :=
| reachable_new (filePath : string) (isTypeshedStubFile : bool) :
    reachable (newSourceFile filePath isTypeshedStubFile)
| reachable_step (s s' : SourceFile) (op : Operation) :
    reachable s -> step s op = Some s' -> reachable s'.

(** The stored cycles are pairwise different chains. *)
Fixpoint distinctCycles (deps : list CircularDependency) : Prop :=
  match deps with
  | [] => True
  | d :: rest => existsb (fun e => isEqual d e) rest = false /\ distinctCycles rest
  end.

(** What every reachable state satisfies. *)
Record invariant (s : SourceFile) : Prop := mkInvariant {
  inv_analyzed_lower : -1 <= fileContentsVersion (_analysisJob s);
  inv_analyzed_upper :
    fileContentsVersion (_analysisJob s) <= _fileContentsVersion s;
  inv_contents : 0 <= _fileContentsVersion s;
  inv_diagnostic : 0 <= _diagnosticVersion s;
  inv_parsed :
    parseResults (_analysisJob s) = None ->
    fileContentsVersion (_analysisJob s) = -1;
  inv_cap :
    (List.length (circularDependencies (_analysisJob s))
     <= MaxImportCyclesPerFile)%nat;
  inv_distinct : distinctCycles (circularDependencies (_analysisJob s));
  inv_pass : 1 <= typeAnalysisPassNumber (_analysisJob s);
  inv_buffer : _clientVersion s <> None -> _fileContents s <> None
}.

(** ** Faults of the collaborators *)

(** Something called from the [try] block of [parse] throws [e]: the
    parser, the post-parse walker, the test walker of the internal test
    mode, or the resolution of the imports. *)
Inductive parseThrows (c : Collaborators) (s : SourceFile)
  (configOptions : ConfigOptions) (e : Thrown) : Prop :=
| parser_throws :
    parseSourceFile c (fst (readSource c s)) (parseOptionsOf s configOptions)
      = Throws e ->
    parseThrows c s configOptions e
| walker_throws (results : ParseResults) (parserDiags : list Diagnostic) :
    parseSourceFile c (fst (readSource c s)) (parseOptionsOf s configOptions)
      = Returns (results, parserDiags) ->
    postParseWalk c (parseTree results) = Throws e ->
    parseThrows c s configOptions e
| testWalker_throws (results : ParseResults) (parserDiags : list Diagnostic)
    (importedModules : list ModuleImport) (walkerDiags : list Diagnostic) :
    parseSourceFile c (fst (readSource c s)) (parseOptionsOf s configOptions)
      = Returns (results, parserDiags) ->
    postParseWalk c (parseTree results)
      = Returns (importedModules, walkerDiags) ->
    internalTestMode configOptions = true ->
    testWalk c (parseTree results) = Throws e ->
    parseThrows c s configOptions e
| resolution_throws (results : ParseResults) (parserDiags : list Diagnostic)
    (importedModules : list ModuleImport) (walkerDiags : list Diagnostic) :
    parseSourceFile c (fst (readSource c s)) (parseOptionsOf s configOptions)
      = Returns (results, parserDiags) ->
    postParseWalk c (parseTree results)
      = Returns (importedModules, walkerDiags) ->
    (internalTestMode configOptions = true ->
     testWalk c (parseTree results) = Returns tt) ->
    _resolveImports c s importedModules
      (findExecEnvironment configOptions (_filePath s)) = Throws e ->
    parseThrows c s configOptions e.

(** The type analyzer throws [e], in its constructor or in [analyze], on
    the arguments [doTypeAnalysis] builds for this state. *)
Definition typeAnalyzerThrows (c : Collaborators) (s : SourceFile)
  (configOptions : ConfigOptions) (importMap : ImportMap) (e : Thrown)
  : Prop :=
  forall results fileInfo,
    parseResults (_analysisJob s) = Some results ->
    _buildFileInfo s configOptions (Some importMap) None = Some fileInfo ->
    newTypeAnalyzer c (parseTree results) fileInfo
      (typeAnalysisPassNumber (_analysisJob s)) = Throws e
    \/ (newTypeAnalyzer c (parseTree results) fileInfo
          (typeAnalysisPassNumber (_analysisJob s)) = Returns tt /\
        typeAnalyze c (parseTree results) fileInfo
          (typeAnalysisPassNumber (_analysisJob s)) = Throws e).

(** ** Sample runs *)

Fixpoint run (ops : list Operation) (s : SourceFile) : option SourceFile :=
  match ops with
  | [] => Some s
  | op :: rest =>
      match step s op with
      | Some s' => run rest s'
      | None => None
      end
  end.

Definition sampleConfig : ConfigOptions :=
  mkConfigOptions level_error level_error [] false (fun _ => mkExecEnv 37).

Definition sampleResults : ParseResults :=
  mkParseResults (mkModuleNode (mkTextRange 0 21) [Statement 0])
    [Tok (mkTextRange 0 4); Tok (mkTextRange 5 7)] [mkTextRange 0 21].

(** [from ..pkg.b import x]: two leading dots, segments pkg and b. *)
Definition sampleModuleImport : ModuleImport :=
  mkModuleImport 3 2 ["pkg"; "b"] (Some ["x"]).

Definition sampleResolve (name : ImportedModuleName) : ImportResult :=
  let dotted := String.concat "." (nameParts name) in
  mkImportResult dotted
    ["/lib/" ++ String.concat "/" (nameParts name) ++ ".pyi"]%string.

Definition sampleTypeDiagnostic : Diagnostic :=
  mkDiagnostic Error "Expression of type str cannot be assigned to int"
    (Some (mkDocRange (mkPosition 0 0) (mkPosition 0 5))).

(** Collaborators that all return. *)
Definition sampleCollaborators : Collaborators :=
  mkCollaborators
    (fun _ => Returns "from ..pkg.b import x")
    (fun _ _ => Returns (sampleResults, []))
    (fun _ => Returns ([sampleModuleImport], []))
    (fun _ => Returns tt)
    (fun _ _ name => Returns (sampleResolve name))
    (fun _ => Returns tt)
    (fun _ _ => Returns [])
    (fun _ _ _ => Returns tt)
    (fun _ _ _ => Returns (false, [sampleTypeDiagnostic]))
    (fun _ => Returns tt).

(** Collaborators whose file system, parser and analyzers throw the value
    given, over a console that takes every line. *)
Definition throwingCollaborators (e : Thrown) : Collaborators :=
  mkCollaborators
    (fun _ => Throws e)
    (fun _ _ => Throws e)
    (fun _ => Throws e)
    (fun _ => Throws e)
    (fun _ _ _ => Throws e)
    (fun _ => Throws e)
    (fun _ _ => Throws e)
    (fun _ _ _ => Returns tt)
    (fun _ _ _ => Throws e)
    (fun _ => Returns tt).

(** Collaborators that throw an [Error]. *)
Definition faultyCollaborators : Collaborators :=
  throwingCollaborators (ThrownError "Maximum call stack size exceeded").

(** Collaborators that throw a BigInt, which [JSON.stringify] rejects. *)
Definition bigIntCollaborators : Collaborators :=
  throwingCollaborators
    (ThrownUnserializable "Do not know how to serialize a BigInt").

Definition sampleFile : SourceFile := newSourceFile "/src/a.py" false.

(** The sample file after [parse] and [doSemanticAnalysis]. *)
Definition sampleAnalyzedFile : SourceFile :=
  Eval vm_compute in
    match run [OpParse sampleCollaborators sampleConfig;
               OpDoSemanticAnalysis sampleCollaborators sampleConfig None]
              sampleFile with
    | Some s => s
    | None => sampleFile
    end.

(** The sample file after one converging type-analysis pass. *)
Definition sampleConvergedFile : SourceFile :=
  Eval vm_compute in
    fst (doTypeAnalysis sampleCollaborators sampleAnalyzedFile sampleConfig []).

(** A configuration whose ignore list holds the empty path. *)
Definition emptyIgnoreConfig : ConfigOptions :=
  mkConfigOptions level_error level_error [""] false (fun _ => mkExecEnv 37).

(** The sample file after a parse in which the parser threw. *)
Definition sampleFaultedFile : SourceFile :=
  Eval vm_compute in fst (parse faultyCollaborators sampleFile sampleConfig).

(** Collaborators whose type analyzer asks for another pass on passes 1 to
    3 and converges on pass 4. *)
Definition fourPassCollaborators : Collaborators :=
  mkCollaborators
    (readFileSync sampleCollaborators)
    (parseSourceFile sampleCollaborators)
    (postParseWalk sampleCollaborators)
    (testWalk sampleCollaborators)
    (resolveImport sampleCollaborators)
    (cleanParseTree sampleCollaborators)
    (scopeAnalyze sampleCollaborators)
    (newTypeAnalyzer sampleCollaborators)
    (fun _ _ passNumber => Returns (passNumber <? 4, []))
    (consoleLog sampleCollaborators).

(** Cycles through the sample file, one per letter. *)
Definition sampleCycle (n : nat) : CircularDependency :=
  mkCircularDependency ["/src/a.py"; String (ascii_of_nat (97 + n)) ".py"].

(** The import bookkeeping [parse] leaves behind. *)
Definition importsConsistent (job : AnalysisJob) : Prop :=
  match builtinsImport job with
  | None => True
  | Some b => exists rest, imports job = Some (b :: rest)
  end.

(** The same collaborators over another file system. *)
Definition withReadFileSync (c : Collaborators)
  (read : string -> outcome string) : Collaborators :=
  mkCollaborators read (parseSourceFile c) (postParseWalk c) (testWalk c)
    (resolveImport c) (cleanParseTree c) (scopeAnalyze c) (newTypeAnalyzer c)
    (typeAnalyze c) (consoleLog c).

(** ** Language-service lookups *)

Inductive CompletionList : Type :=
| Completions (labels : list string).

(** The three providers the look-up methods delegate to. *)
Record Providers : Type := mkProviders {
  (* DefinitionProvider.getDefinitionForPosition(parseResults, position) *)
  definitionProvider : ParseResults -> DiagnosticTextPosition
                       -> option DocumentTextRange;
  (* HoverProvider.getHoverForPosition(parseResults, position) *)
  hoverProvider : ParseResults -> DiagnosticTextPosition -> option string;
  (* CompletionProvider.getCompletionsForPosition(parseResults, contents,
     position) *)
  completionProvider : ParseResults -> string -> DiagnosticTextPosition
                       -> option CompletionList
}.

Definition getDefinitionForPosition (p : Providers) (s : SourceFile)
  (position : DiagnosticTextPosition) : option DocumentTextRange :=
  match parseResults (_analysisJob s) with
  | None => None
  | Some results => definitionProvider p results position
  end.

Definition getHoverForPosition (p : Providers) (s : SourceFile)
  (position : DiagnosticTextPosition) : option string :=
  match parseResults (_analysisJob s) with
  | None => None
  | Some results => hoverProvider p results position
  end.

Definition getCompletionsForPosition (p : Providers) (s : SourceFile)
  (position : DiagnosticTextPosition) : option CompletionList :=
  match parseResults (_analysisJob s) with
  | None => None
  | Some results =>
      match _fileContents s with
      | None => None
      | Some contents => completionProvider p results contents position
      end
  end.

(** [prepareForClose]: nothing to do. *)
Definition prepareForClose (s : SourceFile) : SourceFile := s.

(** Providers that answer every query. *)
Definition sampleProviders : Providers :=
  mkProviders
    (fun _ position => Some (mkDocRange position position))
    (fun _ _ => Some "x: int")
    (fun _ contents _ => Some (Completions [contents])).

(** A stub of the typeshed bundle with one error in each reported bucket
    and one recorded cycle. *)
Definition sampleStubFile : SourceFile :=
  mkSourceFile "/typeshed/stdlib/os.pyi" true true
    (mkAnalysisJob 0 TypeAnalysis false (Some sampleResults)
       [mkDiagnostic Error "Expected expression" None]
       [mkDiagnostic Warning "Name is not bound" None] []
       [sampleTypeDiagnostic]
       [mkCircularDependency ["/typeshed/stdlib/os.pyi"; "/typeshed/stdlib/sys.pyi"]]
       2 false true None None None)
    3 0 None None.

Definition warningConfig : ConfigOptions :=
  mkConfigOptions level_error level_warning [] false (fun _ => mkExecEnv 37).

Definition ignoreSrcConfig : ConfigOptions :=
  mkConfigOptions level_error level_error ["/vendor"; "/src"] false
    (fun _ => mkExecEnv 37).

(** Collaborators that differ from the sample ones in the file system
    only: every read fails. *)
Definition unreadableCollaborators : Collaborators :=
  mkCollaborators
    (fun _ => Throws (ThrownError "ENOENT: no such file or directory"))
    (parseSourceFile sampleCollaborators)
    (postParseWalk sampleCollaborators)
    (testWalk sampleCollaborators)
    (resolveImport sampleCollaborators)
    (cleanParseTree sampleCollaborators)
    (scopeAnalyze sampleCollaborators)
    (newTypeAnalyzer sampleCollaborators)
    (typeAnalyze sampleCollaborators)
    (consoleLog sampleCollaborators).

(** The sample file after a full round: parse, semantic analysis, one
    converging pass, finalization. *)
Definition sampleFinalizedFile : SourceFile :=
  Eval vm_compute in
    match finalizeAnalysis sampleConvergedFile with
    | Some s => s
    | None => sampleFile
    end.




(** * Properties *)

(** Evaluate the field assignments of a state given by its constructors. *)
Ltac unfold_updates :=
  cbv [upd_job set_analysisJob set_diagnosticVersion
       set_fileContentsVersion set_clientVersion set_fileContents
       job_fileContentsVersion job_nextPhaseToRun job_parseTreeNeedsCleaning
       job_parseResults job_parseDiagnostics job_semanticAnalysisDiagnostics
       job_typeAnalysisLastPassDiagnostics job_typeAnalysisFinalDiagnostics
       job_circularDependencies job_typeAnalysisPassNumber
       job_isTypeAnalysisPassNeeded job_isTypeAnalysisFinalized job_imports
       _filePath _isStubFile _isTypeshedStubFile _analysisJob
       _diagnosticVersion _fileContentsVersion _clientVersion _fileContents
       fileContentsVersion nextPhaseToRun parseTreeNeedsCleaning parseResults
       parseDiagnostics semanticAnalysisDiagnostics
       typeAnalysisLastPassDiagnostics typeAnalysisFinalDiagnostics
       circularDependencies typeAnalysisPassNumber isTypeAnalysisPassNeeded
       isTypeAnalysisFinalized imports builtinsImport typingModulePath].

(** Replace a state by its fields. *)
Ltac expose s :=
  let job := fresh "job" in
  destruct s as [? ? ? job ? ? ? ?]; destruct job; cbn in *.

(** ** Phase predicates, read off the fields *)

Lemma isParseRequired_true (s : SourceFile) :
  isParseRequired s = true <->
  fileContentsVersion (_analysisJob s) <> _fileContentsVersion s.
Proof.
  unfold isParseRequired. rewrite negb_true_iff, Z.eqb_neq. reflexivity.
Qed.

Lemma isParseRequired_false (s : SourceFile) :
  isParseRequired s = false <->
  fileContentsVersion (_analysisJob s) = _fileContentsVersion s.
Proof.
  unfold isParseRequired. rewrite negb_false_iff, Z.eqb_eq. reflexivity.
Qed.

Lemma isSemanticAnalysisRequired_false (s : SourceFile) :
  isSemanticAnalysisRequired s = false <->
  isParseRequired s = false /\ nextPhaseToRun (_analysisJob s) = TypeAnalysis.
Proof.
  unfold isSemanticAnalysisRequired.
  destruct (isParseRequired s); [intuition congruence|].
  destruct (nextPhaseToRun (_analysisJob s)); cbv; intuition congruence.
Qed.

Lemma isTypeAnalysisRequired_false (s : SourceFile) :
  isTypeAnalysisRequired s = false <->
  isSemanticAnalysisRequired s = false /\
  isTypeAnalysisPassNeeded (_analysisJob s) = false.
Proof.
  unfold isTypeAnalysisRequired.
  destruct (isSemanticAnalysisRequired s) eqn:Hsem; [intuition congruence|].
  apply isSemanticAnalysisRequired_false in Hsem as [_ ->]. simpl.
  destruct (isTypeAnalysisPassNeeded (_analysisJob s)); intuition congruence.
Qed.

(** ** The job that [parse] stores *)

(** The ways the [try] block of [parse] can end. *)
Lemma parseTry_cases (c : Collaborators) (s : SourceFile)
  (configOptions : ConfigOptions) (fileContents : option string)
  (parseOptions : ParseOptions) (execEnvironment : ExecutionEnvironment)
  (diagnostics : list Diagnostic) :
  let job := _analysisJob s in
  let result :=
    parseTry c s configOptions fileContents parseOptions execEnvironment
      diagnostics in
  (exists results parserDiags importedModules walkerDiags imps builtins typing,
      parseSourceFile c fileContents parseOptions
        = Returns (results, parserDiags) /\
      postParseWalk c (parseTree results)
        = Returns (importedModules, walkerDiags) /\
      _resolveImports c s importedModules execEnvironment
        = Returns (imps, builtins, typing) /\
      result =
        (job_parseDiagnostics
           (job_imports (job_parseResults job (Some results)) (Some imps)
              builtins typing)
           ((diagnostics ++ parserDiags) ++ walkerDiags),
         Returns tt))
  \/ (exists e, result = (job, Throws e))
  \/ (exists results e, result = (job_parseResults job (Some results), Throws e)).
Proof.
  cbv zeta. unfold parseTry.
  destruct (parseSourceFile c fileContents parseOptions)
    as [[results parserDiags]|e] eqn:Hparse; [|right; left; eauto].
  destruct (postParseWalk c (parseTree results))
    as [[importedModules walkerDiags]|e] eqn:Hwalk; [|right; left; eauto].
  destruct (if internalTestMode configOptions
            then testWalk c (parseTree results) else Returns tt);
    [|right; left; eauto].
  destruct (_resolveImports c s importedModules execEnvironment)
    as [[[imps builtins] typing]|e] eqn:Hres.
  - left. exists results, parserDiags, importedModules, walkerDiags, imps,
      builtins, typing. repeat split; assumption || reflexivity.
  - right; right. eauto.
Qed.

(** The ways the [try] / [catch] statement of [parse] can end: the [try]
    block ran to its end; the [catch] block ran to its end; or the [catch]
    block was left by an exception, with the job as the [try] block left
    it. *)
Lemma parseBody_cases (c : Collaborators) (s : SourceFile)
  (configOptions : ConfigOptions) :
  let job := _analysisJob s in
  let result := parseBody c s configOptions in
  (exists results imps builtins typing diagnostics,
      result =
        (job_parseDiagnostics
           (job_imports (job_parseResults job (Some results)) (Some imps)
              builtins typing) diagnostics,
         Returns tt))
  \/ result
     = (job_parseDiagnostics
          (job_imports (job_parseResults job (Some emptyParseResults))
             None None (typingModulePath job))
          parseInternalError,
        Returns tt)
  \/ (exists e, result = (job, Throws e))
  \/ (exists results e, result = (job_parseResults job (Some results), Throws e)).
Proof.
  cbv zeta. unfold parseBody.
  destruct (readSource c s) as [fileContents diagnostics].
  destruct (parseTry_cases c s configOptions fileContents
              (parseOptionsOf s configOptions)
              (findExecEnvironment configOptions (_filePath s)) diagnostics)
    as [(r & pd & ms & wd & imps & b & t & _ & _ & _ & ->)
       | [(e & ->) | (r & e & ->)]].
  - left. eauto 8.
  - unfold parseCatch.
    destruct (logInternalError c (parseLogPrefix s) e) as [[]|e'];
      [right; left; reflexivity | right; right; left; eauto].
  - unfold parseCatch.
    destruct (logInternalError c (parseLogPrefix s) e) as [[]|e'];
      [right; left; reflexivity | right; right; right; eauto].
Qed.

(** Fields of the job that the [try] / [catch] of [parse] never assigns. *)
Lemma parseBody_frame (c : Collaborators) (s : SourceFile)
  (configOptions : ConfigOptions) :
  let job := fst (parseBody c s configOptions) in
  fileContentsVersion job = fileContentsVersion (_analysisJob s) /\
  nextPhaseToRun job = nextPhaseToRun (_analysisJob s) /\
  parseTreeNeedsCleaning job = parseTreeNeedsCleaning (_analysisJob s) /\
  semanticAnalysisDiagnostics job = semanticAnalysisDiagnostics (_analysisJob s) /\
  typeAnalysisLastPassDiagnostics job
    = typeAnalysisLastPassDiagnostics (_analysisJob s) /\
  typeAnalysisFinalDiagnostics job = typeAnalysisFinalDiagnostics (_analysisJob s) /\
  circularDependencies job = circularDependencies (_analysisJob s) /\
  typeAnalysisPassNumber job = typeAnalysisPassNumber (_analysisJob s) /\
  isTypeAnalysisPassNeeded job = isTypeAnalysisPassNeeded (_analysisJob s) /\
  isTypeAnalysisFinalized job = isTypeAnalysisFinalized (_analysisJob s).
Proof.
  cbv zeta.
  destruct (parseBody_cases c s configOptions)
    as [(r & i & b & t & d & ->) | [-> | [(e & ->) | (r & e & ->)]]];
    simpl; repeat split; reflexivity.
Qed.

(** A stored parse result is never taken away, and after a statement that
    completed one is stored. *)
Lemma parseBody_parseResults (c : Collaborators) (s : SourceFile)
  (configOptions : ConfigOptions) :
  (parseResults (fst (parseBody c s configOptions)) = None ->
   parseResults (_analysisJob s) = None) /\
  (snd (parseBody c s configOptions) = Returns tt ->
   parseResults (fst (parseBody c s configOptions)) <> None).
Proof.
  destruct (parseBody_cases c s configOptions)
    as [(r & i & b & t & d & ->) | [-> | [(e & ->) | (r & e & ->)]]];
    simpl; split; intros H; try discriminate; assumption.
Qed.

(** [parse] on a stale file whose [try] / [catch] statement completed,
    field by field. *)
Lemma parse_returned (c : Collaborators) (s : SourceFile)
  (configOptions : ConfigOptions) :
  isParseRequired s = true ->
  snd (parseBody c s configOptions) = Returns tt ->
  parse c s configOptions =
  (mkSourceFile (_filePath s) (_isStubFile s) (_isTypeshedStubFile s)
     (job_parseTreeNeedsCleaning
        (job_nextPhaseToRun
           (job_fileContentsVersion (fst (parseBody c s configOptions))
              (_fileContentsVersion s))
           SemanticAnalysis)
        false)
     (_diagnosticVersion s + 1) (_fileContentsVersion s) (_clientVersion s)
     (_fileContents s),
   Returns true).
Proof.
  intros Hreq Hdone. unfold parse. rewrite Hreq. cbn [negb].
  destruct (parseBody c s configOptions) as [job [u|e]]; [|discriminate].
  reflexivity.
Qed.

(** [parse] on a stale file whose [catch] block threw. *)
Lemma parse_escaped (c : Collaborators) (s : SourceFile)
  (configOptions : ConfigOptions) (e : Thrown) :
  isParseRequired s = true ->
  snd (parseBody c s configOptions) = Throws e ->
  parse c s configOptions
  = (set_analysisJob s (fst (parseBody c s configOptions)), Throws e).
Proof.
  intros Hreq Hthrown. unfold parse. rewrite Hreq. cbn [negb].
  destruct (parseBody c s configOptions) as [job [u|e']]; [discriminate|].
  cbn in Hthrown. injection Hthrown as ->. reflexivity.
Qed.

Lemma parse_not_required (c : Collaborators) (s : SourceFile)
  (configOptions : ConfigOptions) :
  isParseRequired s = false -> parse c s configOptions = (s, Returns false).
Proof.
  intros Hreq. unfold parse. rewrite Hreq. reflexivity.
Qed.


(** ** Shape of the results of the analysis phases *)

(** The state the [try] block of [doSemanticAnalysis] leaves: at most the
    cleaning flag and the semantic bucket differ, and the bucket only when
    the block ran to its end. *)
Lemma semanticTry_shape (c : Collaborators) (s s1 : SourceFile)
  (results : ParseResults) (fileInfo : AnalyzerFileInfo) (r : outcome unit) :
  semanticTry c s results fileInfo = (s1, r) ->
  exists cleaning diagnostics,
    s1 =
    mkSourceFile (_filePath s) (_isStubFile s) (_isTypeshedStubFile s)
      (mkAnalysisJob (fileContentsVersion (_analysisJob s))
         (nextPhaseToRun (_analysisJob s)) cleaning
         (parseResults (_analysisJob s))
         (parseDiagnostics (_analysisJob s)) diagnostics
         (typeAnalysisLastPassDiagnostics (_analysisJob s))
         (typeAnalysisFinalDiagnostics (_analysisJob s))
         (circularDependencies (_analysisJob s))
         (typeAnalysisPassNumber (_analysisJob s))
         (isTypeAnalysisPassNeeded (_analysisJob s))
         (isTypeAnalysisFinalized (_analysisJob s))
         (imports (_analysisJob s)) (builtinsImport (_analysisJob s))
         (typingModulePath (_analysisJob s)))
      (_diagnosticVersion s) (_fileContentsVersion s) (_clientVersion s)
      (_fileContents s) /\
    (forall e, r = Throws e ->
               diagnostics = semanticAnalysisDiagnostics (_analysisJob s)).
Proof.
  expose s. unfold semanticTry, _cleanParseTreeIfRequired. cbn.
  assert (Hend : forall (s0 : SourceFile) (r0 : outcome unit) cleaning diags,
    (forall e, r0 = Throws e -> diags = semanticAnalysisDiagnostics0) ->
    s0 =
    mkSourceFile _filePath0 _isStubFile0 _isTypeshedStubFile0
      (mkAnalysisJob fileContentsVersion0 nextPhaseToRun0 cleaning
         parseResults0 parseDiagnostics0 diags
         typeAnalysisLastPassDiagnostics0 typeAnalysisFinalDiagnostics0
         circularDependencies0 typeAnalysisPassNumber0
         isTypeAnalysisPassNeeded0 isTypeAnalysisFinalized0 imports0
         builtinsImport0 typingModulePath0)
      _diagnosticVersion0 _fileContentsVersion0 _clientVersion0
      _fileContents0 ->
    (s0, r0) = (s1, r) ->
    exists cleaning diagnostics,
      s1 =
      mkSourceFile _filePath0 _isStubFile0 _isTypeshedStubFile0
        (mkAnalysisJob fileContentsVersion0 nextPhaseToRun0 cleaning
           parseResults0 parseDiagnostics0 diagnostics
           typeAnalysisLastPassDiagnostics0 typeAnalysisFinalDiagnostics0
           circularDependencies0 typeAnalysisPassNumber0
           isTypeAnalysisPassNeeded0 isTypeAnalysisFinalized0 imports0
           builtinsImport0 typingModulePath0)
        _diagnosticVersion0 _fileContentsVersion0 _clientVersion0
        _fileContents0 /\
      (forall e, r = Throws e -> diagnostics = semanticAnalysisDiagnostics0)).
  { intros s0 r0 cleaning diags Hdiags -> [= <- <-]. eauto. }
  destruct parseResults0 as [stored|].
  - destruct parseTreeNeedsCleaning0.
    + destruct (cleanParseTree c (parseTree stored)).
      * destruct (scopeAnalyze c (parseTree results) fileInfo);
          unfold_updates;
          [apply (Hend _ _ false a0); [discriminate|reflexivity]
          |apply (Hend _ _ false semanticAnalysisDiagnostics0);
             [reflexivity|reflexivity]].
      * apply (Hend _ _ true semanticAnalysisDiagnostics0);
          [reflexivity|reflexivity].
    + destruct (scopeAnalyze c (parseTree results) fileInfo);
        unfold_updates;
        [apply (Hend _ _ false a); [discriminate|reflexivity]
        |apply (Hend _ _ false semanticAnalysisDiagnostics0);
           [reflexivity|reflexivity]].
  - destruct (scopeAnalyze c (parseTree results) fileInfo);
      unfold_updates;
      [apply (Hend _ _ parseTreeNeedsCleaning0 a); [discriminate|reflexivity]
      |apply (Hend _ _ parseTreeNeedsCleaning0 semanticAnalysisDiagnostics0);
         [reflexivity|reflexivity]].
Qed.

(** [doSemanticAnalysis], when it returns, has rewritten exactly the
    semantic bucket, the phase cursor, the type-analysis bookkeeping, the
    cycle list, possibly the cleaning flag, and the diagnostic version. *)
Lemma doSemanticAnalysis_shape (c : Collaborators) (s s' : SourceFile)
  (configOptions : ConfigOptions) (builtinsScope : option Scope) :
  doSemanticAnalysis c s configOptions builtinsScope = (s', Returns tt) ->
  exists cleaning diagnostics,
    s' =
    mkSourceFile (_filePath s) (_isStubFile s) (_isTypeshedStubFile s)
      (mkAnalysisJob (fileContentsVersion (_analysisJob s)) TypeAnalysis
         cleaning (parseResults (_analysisJob s))
         (parseDiagnostics (_analysisJob s)) diagnostics
         (typeAnalysisLastPassDiagnostics (_analysisJob s))
         (typeAnalysisFinalDiagnostics (_analysisJob s)) [] 1 true false
         (imports (_analysisJob s)) (builtinsImport (_analysisJob s))
         (typingModulePath (_analysisJob s)))
      (_diagnosticVersion s + 1) (_fileContentsVersion s) (_clientVersion s)
      (_fileContents s).
Proof.
  unfold doSemanticAnalysis.
  destruct (negb (semanticAnalysisAsserts s)); [discriminate|].
  destruct (parseResults (_analysisJob s)) as [results|] eqn:Hres;
    [|discriminate].
  destruct (_buildFileInfo s configOptions None builtinsScope) as [fileInfo|];
    [|discriminate].
  destruct (semanticTry c s results fileInfo) as [s1 r] eqn:Htry.
  apply semanticTry_shape in Htry as (cleaning & diags & -> & _).
  rewrite <- Hres. destruct r as [u|e].
  - intros [= <-]. exists cleaning, diags. reflexivity.
  - unfold semanticCatch.
    destruct (logInternalError c _ e); [|discriminate].
    intros [= <-]. exists cleaning, semanticInternalError. reflexivity.
Qed.

(** [doSemanticAnalysis], when an exception leaves it, has changed nothing
    but, possibly, the cleaning flag. *)
Lemma doSemanticAnalysis_thrown (c : Collaborators) (s s' : SourceFile)
  (configOptions : ConfigOptions) (builtinsScope : option Scope)
  (e : Thrown) :
  doSemanticAnalysis c s configOptions builtinsScope = (s', Throws e) ->
  exists cleaning,
    s' =
    mkSourceFile (_filePath s) (_isStubFile s) (_isTypeshedStubFile s)
      (mkAnalysisJob (fileContentsVersion (_analysisJob s))
         (nextPhaseToRun (_analysisJob s)) cleaning
         (parseResults (_analysisJob s))
         (parseDiagnostics (_analysisJob s))
         (semanticAnalysisDiagnostics (_analysisJob s))
         (typeAnalysisLastPassDiagnostics (_analysisJob s))
         (typeAnalysisFinalDiagnostics (_analysisJob s))
         (circularDependencies (_analysisJob s))
         (typeAnalysisPassNumber (_analysisJob s))
         (isTypeAnalysisPassNeeded (_analysisJob s))
         (isTypeAnalysisFinalized (_analysisJob s))
         (imports (_analysisJob s)) (builtinsImport (_analysisJob s))
         (typingModulePath (_analysisJob s)))
      (_diagnosticVersion s) (_fileContentsVersion s) (_clientVersion s)
      (_fileContents s).
Proof.
  assert (Hsame : exists cleaning,
    s =
    mkSourceFile (_filePath s) (_isStubFile s) (_isTypeshedStubFile s)
      (mkAnalysisJob (fileContentsVersion (_analysisJob s))
         (nextPhaseToRun (_analysisJob s)) cleaning
         (parseResults (_analysisJob s))
         (parseDiagnostics (_analysisJob s))
         (semanticAnalysisDiagnostics (_analysisJob s))
         (typeAnalysisLastPassDiagnostics (_analysisJob s))
         (typeAnalysisFinalDiagnostics (_analysisJob s))
         (circularDependencies (_analysisJob s))
         (typeAnalysisPassNumber (_analysisJob s))
         (isTypeAnalysisPassNeeded (_analysisJob s))
         (isTypeAnalysisFinalized (_analysisJob s))
         (imports (_analysisJob s)) (builtinsImport (_analysisJob s))
         (typingModulePath (_analysisJob s)))
      (_diagnosticVersion s) (_fileContentsVersion s) (_clientVersion s)
      (_fileContents s)).
  { exists (parseTreeNeedsCleaning (_analysisJob s)).
    destruct s as [? ? ? [] ? ? ? ?]. reflexivity. }
  unfold doSemanticAnalysis.
  destruct (negb (semanticAnalysisAsserts s)); [intros [= <- _]; exact Hsame|].
  destruct (parseResults (_analysisJob s)) as [results|] eqn:Hres;
    [|intros [= <- _]; exact Hsame].
  destruct (_buildFileInfo s configOptions None builtinsScope) as [fileInfo|];
    [|intros [= <- _]; exact Hsame].
  destruct (semanticTry c s results fileInfo) as [s1 r] eqn:Htry.
  apply semanticTry_shape in Htry as (cleaning & diags & -> & Hdiags).
  rewrite <- Hres. destruct r as [u|e0]; [discriminate|].
  unfold semanticCatch.
  destruct (logInternalError c _ e0); [discriminate|].
  intros [= <- _]. exists cleaning. rewrite (Hdiags e0 eq_refl). reflexivity.
Qed.

(** [doTypeAnalysis], however it ends, rewrites at most the pass number,
    the pass-needed flag and the last-pass bucket. *)
Lemma doTypeAnalysis_shape (c : Collaborators) (s s' : SourceFile)
  (configOptions : ConfigOptions) (importMap : ImportMap) (r : outcome unit) :
  doTypeAnalysis c s configOptions importMap = (s', r) ->
  exists passNumber passNeeded diagnostics,
    (passNumber = typeAnalysisPassNumber (_analysisJob s) \/
     passNumber = typeAnalysisPassNumber (_analysisJob s) + 1) /\
    s' =
    mkSourceFile (_filePath s) (_isStubFile s) (_isTypeshedStubFile s)
      (mkAnalysisJob (fileContentsVersion (_analysisJob s))
         (nextPhaseToRun (_analysisJob s))
         (parseTreeNeedsCleaning (_analysisJob s))
         (parseResults (_analysisJob s))
         (parseDiagnostics (_analysisJob s))
         (semanticAnalysisDiagnostics (_analysisJob s)) diagnostics
         (typeAnalysisFinalDiagnostics (_analysisJob s))
         (circularDependencies (_analysisJob s)) passNumber passNeeded
         (isTypeAnalysisFinalized (_analysisJob s))
         (imports (_analysisJob s)) (builtinsImport (_analysisJob s))
         (typingModulePath (_analysisJob s)))
      (_diagnosticVersion s) (_fileContentsVersion s) (_clientVersion s)
      (_fileContents s).
Proof.
  assert (Hsame : exists passNumber passNeeded diagnostics,
    (passNumber = typeAnalysisPassNumber (_analysisJob s) \/
     passNumber = typeAnalysisPassNumber (_analysisJob s) + 1) /\
    s =
    mkSourceFile (_filePath s) (_isStubFile s) (_isTypeshedStubFile s)
      (mkAnalysisJob (fileContentsVersion (_analysisJob s))
         (nextPhaseToRun (_analysisJob s))
         (parseTreeNeedsCleaning (_analysisJob s))
         (parseResults (_analysisJob s))
         (parseDiagnostics (_analysisJob s))
         (semanticAnalysisDiagnostics (_analysisJob s)) diagnostics
         (typeAnalysisFinalDiagnostics (_analysisJob s))
         (circularDependencies (_analysisJob s)) passNumber passNeeded
         (isTypeAnalysisFinalized (_analysisJob s))
         (imports (_analysisJob s)) (builtinsImport (_analysisJob s))
         (typingModulePath (_analysisJob s)))
      (_diagnosticVersion s) (_fileContentsVersion s) (_clientVersion s)
      (_fileContents s)).
  { exists (typeAnalysisPassNumber (_analysisJob s)),
      (isTypeAnalysisPassNeeded (_analysisJob s)),
      (typeAnalysisLastPassDiagnostics (_analysisJob s)).
    split; [now left|]. destruct s as [? ? ? [] ? ? ? ?]. reflexivity. }
  unfold doTypeAnalysis.
  destruct (negb (typeAnalysisAsserts s)); [intros [= <- _]; exact Hsame|].
  destruct (parseResults (_analysisJob s)) as [results|] eqn:Hres;
    [|intros [= <- _]; exact Hsame].
  destruct (_buildFileInfo s configOptions (Some importMap) None)
    as [fileInfo|];
    [|intros [= <- _]; exact Hsame].
  rewrite <- Hres in *. clear Hres.
  unfold typeAnalysisTry, typeAnalysisCatch.
  destruct (newTypeAnalyzer c (parseTree results) fileInfo _).
  - destruct (typeAnalyze c (parseTree results) fileInfo _)
      as [[needed diags]|e].
    + intros [= <- _]; expose s; unfold_updates; eauto 6.
    + destruct (logInternalError c _ e);
        intros [= <- _]; expose s; unfold_updates; eauto 6.
  - destruct (logInternalError c _ e);
      intros [= <- _]; [expose s; unfold_updates; eauto 6 | exact Hsame].
Qed.

Lemma finalizeAnalysis_shape (s s' : SourceFile) :
  finalizeAnalysis s = Some s' ->
  isTypeAnalysisRequired s = false /\
  s' =
  mkSourceFile (_filePath s) (_isStubFile s) (_isTypeshedStubFile s)
    (mkAnalysisJob (fileContentsVersion (_analysisJob s))
       (nextPhaseToRun (_analysisJob s))
       (parseTreeNeedsCleaning (_analysisJob s))
       (parseResults (_analysisJob s))
       (parseDiagnostics (_analysisJob s))
       (semanticAnalysisDiagnostics (_analysisJob s)) []
       (typeAnalysisLastPassDiagnostics (_analysisJob s))
       (circularDependencies (_analysisJob s))
       (typeAnalysisPassNumber (_analysisJob s))
       (isTypeAnalysisPassNeeded (_analysisJob s)) true
       (imports (_analysisJob s)) (builtinsImport (_analysisJob s))
       (typingModulePath (_analysisJob s)))
    (_diagnosticVersion s + 1) (_fileContentsVersion s) (_clientVersion s)
    (_fileContents s).
Proof.
  unfold finalizeAnalysis.
  destruct (isTypeAnalysisRequired s); simpl; [discriminate|].
  intros [= <-]. split; reflexivity.
Qed.

(** ** Circular-dependency list *)

Lemma distinctCycles_snoc (deps : list CircularDependency)
  (d : CircularDependency) :
  distinctCycles deps ->
  existsb (fun dep => isEqual dep d) deps = false ->
  distinctCycles (deps ++ [d]).
Proof.
  induction deps as [|e deps IH]; simpl.
  - intros _ _. split; [reflexivity|exact I].
  - intros [Hhead Htail] Hnew.
    apply orb_false_iff in Hnew as [Hed Hrest].
    split; [|apply IH; assumption].
    rewrite existsb_app, Hhead. simpl. rewrite Hed. reflexivity.
Qed.

Lemma addCircularDependency_cases (s : SourceFile) (d : CircularDependency) :
  let deps := circularDependencies (_analysisJob s) in
  (addCircularDependency s d = s /\
   ((MaxImportCyclesPerFile <= List.length deps)%nat \/
    existsb (fun dep => isEqual dep d) deps = true))
  \/
  (addCircularDependency s d
     = upd_job s (fun j => job_circularDependencies j (deps ++ [d])) /\
   (List.length deps < MaxImportCyclesPerFile)%nat /\
   existsb (fun dep => isEqual dep d) deps = false).
Proof.
  cbv zeta. unfold addCircularDependency.
  destruct (List.length (circularDependencies (_analysisJob s))
            <? MaxImportCyclesPerFile)%nat eqn:Hlen.
  - apply Nat.ltb_lt in Hlen.
    destruct (existsb _ (circularDependencies (_analysisJob s))) eqn:Hex; simpl.
    + left. split; [reflexivity|right; reflexivity].
    + right. repeat split; assumption || reflexivity.
  - apply Nat.ltb_ge in Hlen. left. split; [reflexivity|left; assumption].
Qed.

(** ** The invariant of reachable states *)

Lemma invariant_new (filePath : string) (isTypeshedStubFile : bool) :
  invariant (newSourceFile filePath isTypeshedStubFile).
Proof.
  constructor; simpl; try lia; try exact I; unfold MaxImportCyclesPerFile;
    try lia; congruence.
Qed.

Lemma invariant_markDirty (s : SourceFile) :
  invariant s -> invariant (markDirty s).
Proof.
  intros []. constructor; simpl; try lia; assumption.
Qed.

Lemma invariant_setClientVersion (s : SourceFile) (version : option Z)
  (contents : string) :
  invariant s -> invariant (setClientVersion s version contents).
Proof.
  intros Hinv. unfold setClientVersion.
  destruct version as [v|].
  - destruct (_fileContents (set_clientVersion s (Some v))) as [old|] eqn:Hold.
    + destruct (negb (old =? contents)%string).
      * assert (Hs : invariant (markDirty (set_clientVersion s (Some v)))).
        { apply invariant_markDirty. destruct Hinv.
          constructor; simpl in *; try assumption. congruence. }
        destruct Hs. constructor; simpl in *; try assumption + lia.
        congruence.
      * destruct Hinv. constructor; simpl in *; try assumption. congruence.
    + destruct Hinv. constructor; simpl in *; try assumption. congruence.
  - destruct Hinv. constructor; simpl in *; try assumption. congruence.
Qed.

Lemma invariant_addCircularDependency (s : SourceFile)
  (d : CircularDependency) :
  invariant s -> invariant (addCircularDependency s d).
Proof.
  intros Hinv.
  destruct (addCircularDependency_cases s d) as [[-> _] | (-> & Hlen & Hnew)];
    [assumption|].
  destruct Hinv. constructor; simpl; try assumption.
  - rewrite length_app. simpl. unfold MaxImportCyclesPerFile in *. lia.
  - apply distinctCycles_snoc; assumption.
Qed.

(** The call of [parse] ends in one of three ways. *)
Lemma parse_cases (c : Collaborators) (s : SourceFile)
  (configOptions : ConfigOptions) :
  (isParseRequired s = false /\ parse c s configOptions = (s, Returns false))
  \/ (isParseRequired s = true /\
      snd (parseBody c s configOptions) = Returns tt /\
      parse c s configOptions =
      (mkSourceFile (_filePath s) (_isStubFile s) (_isTypeshedStubFile s)
         (job_parseTreeNeedsCleaning
            (job_nextPhaseToRun
               (job_fileContentsVersion (fst (parseBody c s configOptions))
                  (_fileContentsVersion s))
               SemanticAnalysis)
            false)
         (_diagnosticVersion s + 1) (_fileContentsVersion s) (_clientVersion s)
         (_fileContents s),
       Returns true))
  \/ (exists e,
        isParseRequired s = true /\
        snd (parseBody c s configOptions) = Throws e /\
        parse c s configOptions
        = (set_analysisJob s (fst (parseBody c s configOptions)), Throws e)).
Proof.
  destruct (isParseRequired s) eqn:Hreq.
  - destruct (snd (parseBody c s configOptions)) as [[]|e] eqn:Hdone.
    + right; left. repeat split. exact (parse_returned c s configOptions Hreq Hdone).
    + right; right. exists e. repeat split.
      exact (parse_escaped c s configOptions e Hreq Hdone).
  - left. split; [reflexivity|]. exact (parse_not_required c s configOptions Hreq).
Qed.

Lemma invariant_parse (c : Collaborators) (s : SourceFile)
  (configOptions : ConfigOptions) :
  invariant s -> invariant (fst (parse c s configOptions)).
Proof.
  intros Hinv.
  pose proof (parseBody_frame c s configOptions) as Hframe.
  destruct (parseBody_parseResults c s configOptions) as [Hkept Hstored].
  cbv zeta in Hframe.
  destruct Hframe as (Hversion & _ & _ & _ & _ & _ & Hcirc & Hpass & _ & _).
  destruct (parse_cases c s configOptions)
    as [[_ ->] | [(_ & Hdone & ->) | (e & _ & _ & ->)]].
  - exact Hinv.
  - destruct Hinv. constructor; cbn;
      rewrite ?Hcirc, ?Hpass; try assumption + lia.
    intros Hnone. exfalso. exact (Hstored Hdone Hnone).
  - destruct Hinv. constructor; cbn;
      rewrite ?Hversion, ?Hcirc, ?Hpass; try assumption + lia.
    intros Hnone. auto.
Qed.

Lemma invariant_step (s s' : SourceFile) (op : Operation) :
  invariant s -> step s op = Some s' -> invariant s'.
Proof.
  intros Hinv Hstep. destruct op; simpl in Hstep.
  - injection Hstep as <-. apply invariant_markDirty, Hinv.
  - injection Hstep as <-. destruct Hinv. constructor; simpl; assumption.
  - injection Hstep as <-. apply invariant_setClientVersion, Hinv.
  - injection Hstep as <-. destruct Hinv. constructor; simpl; assumption.
  - injection Hstep as <-. apply invariant_addCircularDependency, Hinv.
  - injection Hstep as <-. apply invariant_parse, Hinv.
  - injection Hstep as <-.
    destruct (doSemanticAnalysis c s configOptions builtinsScope)
      as [s1 [[]|e]] eqn:Hrun; cbn [fst].
    + apply doSemanticAnalysis_shape in Hrun as (cleaning & diags & ->).
      destruct Hinv. unfold MaxImportCyclesPerFile in *.
      constructor; cbn; try assumption + lia; exact I.
    + apply doSemanticAnalysis_thrown in Hrun as (cleaning & ->).
      destruct Hinv. constructor; cbn; assumption.
  - injection Hstep as <-.
    destruct (doTypeAnalysis c s configOptions importMap) as [s1 r] eqn:Hrun.
    apply doTypeAnalysis_shape in Hrun as (n & needed & diags & Hn & ->).
    destruct Hinv. constructor; simpl; try assumption + lia.
  - apply finalizeAnalysis_shape in Hstep as [_ ->].
    destruct Hinv. constructor; simpl; try assumption + lia.
Qed.

Theorem reachable_invariant (s : SourceFile) : reachable s -> invariant s.
Proof.
  induction 1 as [filePath isTypeshedStubFile | s s' op _ IH Hstep].
  - apply invariant_new.
  - exact (invariant_step s s' op IH Hstep).
Qed.

Lemma run_reachable (ops : list Operation) (s s' : SourceFile) :
  reachable s -> run ops s = Some s' -> reachable s'.
Proof.
  revert s. induction ops as [|op ops IH]; simpl; intros s Hs Hrun.
  - injection Hrun as <-. exact Hs.
  - destruct (step s op) as [s1|] eqn:Hstep; [|discriminate].
    apply (IH s1); [|exact Hrun]. exact (reachable_step s s1 op Hs Hstep).
Qed.

Lemma sampleAnalyzedFile_reachable : reachable sampleAnalyzedFile.
Proof.
  apply (run_reachable
           [OpParse sampleCollaborators sampleConfig;
            OpDoSemanticAnalysis sampleCollaborators sampleConfig None]
           sampleFile).
  - apply reachable_new.
  - vm_compute. reflexivity.
Qed.

Lemma sampleConvergedFile_reachable : reachable sampleConvergedFile.
Proof.
  apply (reachable_step sampleAnalyzedFile sampleConvergedFile
           (OpDoTypeAnalysis sampleCollaborators sampleConfig [])).
  - apply sampleAnalyzedFile_reachable.
  - reflexivity.
Qed.

(** ** The phase predicates *)

(** C1. The four phase predicates are functions of the current state with
    these meanings, in every state: [isParseRequired] holds iff the
    analyzed contents version differs from the current one;
    [isSemanticAnalysisRequired] iff parse is required or
    [nextPhaseToRun <= SemanticAnalysis]; [isTypeAnalysisRequired] iff
    semantic analysis is required, or [nextPhaseToRun < TypeAnalysis], or
    [isTypeAnalysisPassNeeded]; [isAnalysisFinalized] iff type analysis is
    not required and [isTypeAnalysisFinalized].  Right after construction
    the three "required" predicates are true and [isAnalysisFinalized] is
    false. *)
Theorem C1_phase_predicates :
  (forall s : SourceFile,
      (isParseRequired s = true <->
       fileContentsVersion (_analysisJob s) <> _fileContentsVersion s) /\
      (isSemanticAnalysisRequired s = true <->
       isParseRequired s = true \/
       phaseValue (nextPhaseToRun (_analysisJob s))
         <= phaseValue SemanticAnalysis) /\
      (isTypeAnalysisRequired s = true <->
       isSemanticAnalysisRequired s = true \/
       phaseValue (nextPhaseToRun (_analysisJob s)) < phaseValue TypeAnalysis \/
       isTypeAnalysisPassNeeded (_analysisJob s) = true) /\
      (isAnalysisFinalized s = true <->
       isTypeAnalysisRequired s = false /\
       isTypeAnalysisFinalized (_analysisJob s) = true)) /\
  (forall (filePath : string) (isTypeshedStubFile : bool),
      isParseRequired (newSourceFile filePath isTypeshedStubFile) = true /\
      isSemanticAnalysisRequired (newSourceFile filePath isTypeshedStubFile)
        = true /\
      isTypeAnalysisRequired (newSourceFile filePath isTypeshedStubFile)
        = true /\
      isAnalysisFinalized (newSourceFile filePath isTypeshedStubFile) = false).
Proof.
  split.
  - intros s. split; [apply isParseRequired_true|]. split; [|split].
    + unfold isSemanticAnalysisRequired.
      destruct (isParseRequired s); [intuition|].
      rewrite Z.leb_le. intuition discriminate.
    + unfold isTypeAnalysisRequired.
      destruct (isSemanticAnalysisRequired s); [intuition|].
      destruct (phaseValue (nextPhaseToRun (_analysisJob s))
                <? phaseValue TypeAnalysis) eqn:Hlt.
      * apply Z.ltb_lt in Hlt. simpl. intuition.
      * apply Z.ltb_ge in Hlt. cbn [orb].
        destruct (isTypeAnalysisPassNeeded (_analysisJob s));
          intuition (try discriminate; try lia).
    + unfold isAnalysisFinalized. rewrite andb_true_iff, negb_true_iff.
      reflexivity.
  - intros filePath isTypeshedStubFile. repeat split.
Qed.

Lemma C1_phase_predicates_witness :
  isParseRequired sampleAnalyzedFile = false /\
  isSemanticAnalysisRequired sampleAnalyzedFile = false /\
  isTypeAnalysisRequired sampleAnalyzedFile = true /\
  isAnalysisFinalized sampleAnalyzedFile = false /\
  (isTypeAnalysisRequired sampleAnalyzedFile = true <->
   isSemanticAnalysisRequired sampleAnalyzedFile = true \/
   phaseValue (nextPhaseToRun (_analysisJob sampleAnalyzedFile))
     < phaseValue TypeAnalysis \/
   isTypeAnalysisPassNeeded (_analysisJob sampleAnalyzedFile) = true).
Proof.
  repeat (split; [vm_compute; reflexivity|]).
  exact (proj1 (proj2 (proj2 (proj1 C1_phase_predicates sampleAnalyzedFile)))).
Defined.

(** ** Parsing *)

(** When something in the [try] block throws, the [catch] block is entered
    with what it threw: if its log line is written, the block runs to its
    end; if not, the exception raised by the log line leaves the statement
    and the block has written nothing. *)
Lemma parseBody_fault (c : Collaborators) (s : SourceFile)
  (configOptions : ConfigOptions) (e : Thrown) :
  parseThrows c s configOptions e ->
  exists job,
    parseBody c s configOptions = parseCatch c s job e /\
    (job = _analysisJob s \/
     exists results, job = job_parseResults (_analysisJob s) (Some results)).
Proof.
  intros Hthrows. unfold parseBody, parseTry.
  destruct Hthrows
    as [Hp | r pd Hp Hw | r pd ms wd Hp Hw Hmode Ht | r pd ms wd Hp Hw Ht Hr];
    destruct (readSource c s) as [fileContents diagnostics];
    cbn [fst] in Hp; rewrite Hp.
  - eauto.
  - rewrite Hw. eauto.
  - rewrite Hw, Hmode, Ht. eauto.
  - rewrite Hw, Hr.
    destruct (internalTestMode configOptions); [rewrite (Ht eq_refl)|]; eauto.
Qed.

Lemma parseBody_fault_logged (c : Collaborators) (s : SourceFile)
  (configOptions : ConfigOptions) (e : Thrown) :
  parseThrows c s configOptions e ->
  logInternalError c (parseLogPrefix s) e = Returns tt ->
  snd (parseBody c s configOptions) = Returns tt /\
  parseResults (fst (parseBody c s configOptions)) = Some emptyParseResults /\
  imports (fst (parseBody c s configOptions)) = None /\
  builtinsImport (fst (parseBody c s configOptions)) = None /\
  parseDiagnostics (fst (parseBody c s configOptions)) = parseInternalError /\
  typingModulePath (fst (parseBody c s configOptions))
    = typingModulePath (_analysisJob s).
Proof.
  intros Hthrows Hlog.
  destruct (parseBody_fault c s configOptions e Hthrows)
    as (job & -> & [-> | [results ->]]);
    unfold parseCatch; rewrite Hlog; repeat split.
Qed.

Lemma parseBody_fault_unlogged (c : Collaborators) (s : SourceFile)
  (configOptions : ConfigOptions) (e e' : Thrown) :
  parseThrows c s configOptions e ->
  logInternalError c (parseLogPrefix s) e = Throws e' ->
  snd (parseBody c s configOptions) = Throws e'.
Proof.
  intros Hthrows Hlog.
  destruct (parseBody_fault c s configOptions e Hthrows)
    as (job & -> & _).
  unfold parseCatch. rewrite Hlog. reflexivity.
Qed.

(** C2, at an input where the code departs from it.  A parse is required
    and the parser throws a BigInt.  The [catch] block starts with
    [JSON.stringify(e)], which throws a TypeError from inside the block:
    the exception leaves [parse], no placeholder and no diagnostic is
    stored, the analyzed contents version is not advanced (so
    [isParseRequired] stays true) and the diagnostic version is not
    incremented. *)
Theorem C2_parse_catch_throws :
  isParseRequired sampleFile = true /\
  parseThrows bigIntCollaborators sampleFile sampleConfig
    (ThrownUnserializable "Do not know how to serialize a BigInt") /\
  parse bigIntCollaborators sampleFile sampleConfig
  = (sampleFile, Throws (ThrownError "Do not know how to serialize a BigInt")) /\
  isParseRequired (fst (parse bigIntCollaborators sampleFile sampleConfig))
  = true /\
  getParseResults (fst (parse bigIntCollaborators sampleFile sampleConfig))
  = None /\
  parseDiagnostics
    (_analysisJob (fst (parse bigIntCollaborators sampleFile sampleConfig)))
  = [] /\
  getDiagnosticVersion (fst (parse bigIntCollaborators sampleFile sampleConfig))
  = getDiagnosticVersion sampleFile.
Proof.
  split; [reflexivity|]. split; [apply parser_throws; reflexivity|].
  repeat split.
Qed.

(** ** Type analysis *)

(** In a reachable state whose parse is up to date a parse result is
    stored. *)
Lemma reachable_parsed (s : SourceFile) :
  reachable s -> isParseRequired s = false ->
  exists results, parseResults (_analysisJob s) = Some results.
Proof.
  intros Hreach Hreq. apply reachable_invariant in Hreach.
  apply isParseRequired_false in Hreq.
  destruct (parseResults (_analysisJob s)) as [results|] eqn:Hres; eauto.
  pose proof (inv_parsed s Hreach Hres). pose proof (inv_contents s Hreach).
  lia.
Qed.

(** In a reachable state the assertions of [doTypeAnalysis] hold as soon as
    semantic analysis is up to date and type analysis is required. *)
Lemma typeAnalysisAsserts_true (s : SourceFile) :
  reachable s ->
  isSemanticAnalysisRequired s = false ->
  isTypeAnalysisRequired s = true ->
  typeAnalysisAsserts s = true.
Proof.
  intros Hreach Hsem Htype.
  destruct (proj1 (isSemanticAnalysisRequired_false s) Hsem) as [Hparse Hphase].
  destruct (reachable_parsed s Hreach Hparse) as [results Hres].
  unfold typeAnalysisAsserts. rewrite Hparse, Hsem, Htype, Hres, Hphase.
  reflexivity.
Qed.

(** [doTypeAnalysis] past its assertions: the [try] block, then the
    [catch] block if needed. *)
Lemma doTypeAnalysis_asserted (c : Collaborators) (s : SourceFile)
  (configOptions : ConfigOptions) (importMap : ImportMap)
  (results : ParseResults) (fileInfo : AnalyzerFileInfo) :
  typeAnalysisAsserts s = true ->
  parseResults (_analysisJob s) = Some results ->
  _buildFileInfo s configOptions (Some importMap) None = Some fileInfo ->
  doTypeAnalysis c s configOptions importMap
  = match typeAnalysisTry c s results fileInfo with
    | (s1, Returns _) => (s1, Returns tt)
    | (s1, Throws e) => typeAnalysisCatch c s1 e
    end.
Proof.
  intros Hasserts Hres Hinfo. unfold doTypeAnalysis.
  rewrite Hasserts, Hres, Hinfo. reflexivity.
Qed.

Lemma buildFileInfo_some (s : SourceFile) (configOptions : ConfigOptions)
  (importMap : option ImportMap) (builtinsScope : option Scope)
  (results : ParseResults) :
  parseResults (_analysisJob s) = Some results ->
  exists fileInfo,
    _buildFileInfo s configOptions importMap builtinsScope = Some fileInfo.
Proof.
  intros Hres. unfold _buildFileInfo. rewrite Hres. eauto.
Qed.

(** C3, at an input where the code departs from it.  The sample file has
    been parsed and semantically analyzed, type analysis is required, and
    [analyze()] throws a BigInt.  The [catch] block starts with
    [JSON.stringify(e)], which throws a TypeError before the block reaches
    [isTypeAnalysisPassNeeded = false]: the exception leaves
    [doTypeAnalysis], the flag stays true, the last-pass bucket is not
    replaced, and [isTypeAnalysisRequired] is still true, so a coordinator
    that keeps calling while type analysis is required never gets a call
    that returns. *)
Theorem C3_type_analysis_catch_throws :
  reachable sampleAnalyzedFile /\
  isParseRequired sampleAnalyzedFile = false /\
  isSemanticAnalysisRequired sampleAnalyzedFile = false /\
  isTypeAnalysisRequired sampleAnalyzedFile = true /\
  typeAnalyzerThrows bigIntCollaborators sampleAnalyzedFile sampleConfig []
    (ThrownUnserializable "Do not know how to serialize a BigInt") /\
  snd (doTypeAnalysis bigIntCollaborators sampleAnalyzedFile sampleConfig [])
  = Throws (ThrownError "Do not know how to serialize a BigInt") /\
  isTypeAnalysisPassNeeded
    (_analysisJob
       (fst (doTypeAnalysis bigIntCollaborators sampleAnalyzedFile
               sampleConfig [])))
  = true /\
  typeAnalysisLastPassDiagnostics
    (_analysisJob
       (fst (doTypeAnalysis bigIntCollaborators sampleAnalyzedFile
               sampleConfig [])))
  = [] /\
  isTypeAnalysisRequired
    (fst (doTypeAnalysis bigIntCollaborators sampleAnalyzedFile sampleConfig []))
  = true /\
  (forall fuel,
      analyzeWhileRequired fuel bigIntCollaborators sampleConfig []
        sampleAnalyzedFile = None).
Proof.
  split; [exact sampleAnalyzedFile_reachable|].
  repeat (split; [reflexivity|]).
  split.
  - intros results fileInfo _ _. right. split; reflexivity.
  - repeat (split; [reflexivity|]).
    intros [|fuel]; reflexivity.
Qed.

(** The scenario of four passes: three that ask for another pass and one
    that converges leave the pass number at 5 and no type analysis
    required. *)
Example four_passes_converge :
  option_map (fun s => (getAnalysisPassCount s, isTypeAnalysisRequired s))
    (analyzeWhileRequired 5 fourPassCollaborators sampleConfig []
       sampleAnalyzedFile)
  = Some (5, false).
Proof. vm_compute. reflexivity. Qed.

(** ** The diagnostic version *)

(** [getDiagnostics] reads nothing that [doTypeAnalysis] writes. *)
Lemma getDiagnostics_doTypeAnalysis (c : Collaborators) (s s' : SourceFile)
  (configOptions : ConfigOptions) (importMap : ImportMap) (r : outcome unit) :
  doTypeAnalysis c s configOptions importMap = (s', r) ->
  forall options prev, getDiagnostics s' options prev = getDiagnostics s options prev.
Proof.
  intros Hrun options prev.
  apply doTypeAnalysis_shape in Hrun as (n & needed & diags & _ & ->).
  reflexivity.
Qed.

Lemma getDiagnostics_unchanged (s : SourceFile) (options : ConfigOptions) :
  getDiagnostics s options (Some (_diagnosticVersion s)) = None.
Proof.
  unfold getDiagnostics. rewrite Z.eqb_refl. reflexivity.
Qed.




(** ** Building the diagnostic list *)

(** The order in which [getDiagnostics] applies its filters, with the
    ignore test as the code performs it. *)
Lemma getDiagnostics_steps (s : SourceFile) (options : ConfigOptions)
  (prev : option Z) :
  prev <> Some (_diagnosticVersion s) ->
  getDiagnostics s options prev =
  if _isTypeshedStubFile s && match reportTypeshedErrors options with
                              | level_none => true
                              | _ => false
                              end
  then None
  else if inIgnoreList s options then Some []
  else if _isTypeshedStubFile s && match reportTypeshedErrors options with
                                   | level_warning => true
                                   | _ => false
                                   end
  then Some (map errorToWarning (reportedDiagnostics s options))
  else Some (reportedDiagnostics s options).
Proof.
  intros Hprev. unfold getDiagnostics, reportedDiagnostics.
  assert (Hfresh : match prev with
                   | Some p => _diagnosticVersion s =? p
                   | None => false
                   end = false).
  { destruct prev as [p|]; [|reflexivity].
    apply Z.eqb_neq. intros Heq. apply Hprev. congruence. }
  rewrite Hfresh. cbn [app].
  assert (Hcycles :
    match reportImportCycles options with
    | level_none =>
        parseDiagnostics (_analysisJob s)
          ++ semanticAnalysisDiagnostics (_analysisJob s)
          ++ typeAnalysisFinalDiagnostics (_analysisJob s)
    | _ =>
        if (0 <? List.length (circularDependencies (_analysisJob s)))%nat
        then (parseDiagnostics (_analysisJob s)
                ++ semanticAnalysisDiagnostics (_analysisJob s)
                ++ typeAnalysisFinalDiagnostics (_analysisJob s))
               ++ map (cycleDiagnostic
                         match reportImportCycles options with
                         | level_warning => Warning
                         | _ => Error
                         end) (circularDependencies (_analysisJob s))
        else parseDiagnostics (_analysisJob s)
               ++ semanticAnalysisDiagnostics (_analysisJob s)
               ++ typeAnalysisFinalDiagnostics (_analysisJob s)
    end
    = parseDiagnostics (_analysisJob s)
        ++ semanticAnalysisDiagnostics (_analysisJob s)
        ++ typeAnalysisFinalDiagnostics (_analysisJob s)
        ++ match reportImportCycles options with
           | level_none => []
           | level_warning =>
               map (cycleDiagnostic Warning) (circularDependencies (_analysisJob s))
           | level_error =>
               map (cycleDiagnostic Error) (circularDependencies (_analysisJob s))
           end).
  { destruct (reportImportCycles options);
      [now rewrite !app_nil_r| |];
      (destruct (circularDependencies (_analysisJob s)); cbn [length Nat.ltb Nat.leb map];
       [now rewrite !app_nil_r | now rewrite <- !app_assoc]). }
  destruct (reportImportCycles options); cbv zeta; cbv zeta in Hcycles;
    rewrite Hcycles;
    destruct (_isTypeshedStubFile s), (reportTypeshedErrors options),
      (inIgnoreList s options); reflexivity.
Qed.

(** When no configured ignore path is empty, the ignore test is the prefix
    test over the list. *)
Lemma inIgnoreList_nonempty (s : SourceFile) (options : ConfigOptions) :
  Forall (fun ignorePath => ignorePath <> ""%string) (ignore options) ->
  inIgnoreList s options
  = existsb (fun ignorePath => startsWith (_filePath s) ignorePath)
      (ignore options).
Proof.
  unfold inIgnoreList. induction 1 as [|p l Hp _ IH]; simpl; [reflexivity|].
  destruct (startsWith (_filePath s) p); simpl; [|exact IH].
  unfold truthy. apply String.eqb_neq in Hp. rewrite Hp. reflexivity.
Qed.

(** C5, at an input where the code departs from it.  The file path starts
    with the configured ignore path (the empty string), the file is no
    typeshed stub, and yet [getDiagnostics] returns the parse diagnostic
    instead of the empty list: [find] hands back the matching element, and
    an empty string fails the test of the [if]. *)
Theorem C5_ignore_empty_path :
  existsb (fun ignorePath => startsWith (_filePath sampleFaultedFile) ignorePath)
    (ignore emptyIgnoreConfig) = true /\
  _isTypeshedStubFile sampleFaultedFile = false /\
  _diagnosticVersion sampleFaultedFile = 1 /\
  getDiagnostics sampleFaultedFile emptyIgnoreConfig None
  = Some [mkDiagnostic Error
            "An internal error occurred while parsing file" None] /\
  getDiagnostics sampleFaultedFile emptyIgnoreConfig None <> Some [].
Proof.
  repeat split; try reflexivity. vm_compute. discriminate.
Qed.

(** ** Circular dependencies *)

Lemma isEqual_true (a b : CircularDependency) : isEqual a b = true <-> a = b.
Proof.
  unfold isEqual. destruct a as [pa], b as [pb]. simpl.
  destruct (list_eq_dec string_dec pa pb); split; congruence.
Qed.

Lemma distinctCycles_NoDup (deps : list CircularDependency) :
  distinctCycles deps -> NoDup deps.
Proof.
  induction deps as [|d deps IH]; simpl; [constructor|].
  intros [Hhead Htail]. constructor; [|apply IH, Htail].
  intros Hin. assert (existsb (fun e => isEqual d e) deps = true) as Hex.
  { apply existsb_exists. exists d. split; [exact Hin|]. now apply isEqual_true. }
  congruence.
Qed.

Lemma invariant_addCircularDependencies (cycles : list CircularDependency)
  (s : SourceFile) :
  invariant s -> invariant (addCircularDependencies s cycles).
Proof.
  revert s. induction cycles as [|d cycles IH]; simpl; intros s Hinv.
  - exact Hinv.
  - apply IH, invariant_addCircularDependency, Hinv.
Qed.

(** C6. For every sequence of [addCircularDependency] calls the stored list
    never holds more than 4 entries and never holds two equal cycles; a
    cycle [isEqual] to a stored one is not added again; and once 4 entries
    are stored every further call leaves the state as it is. *)
Theorem C6_circular_dependencies (s : SourceFile)
  (cycles : list CircularDependency) :
  reachable s ->
  ((List.length
      (circularDependencies (_analysisJob (addCircularDependencies s cycles)))
    <= 4)%nat /\
   NoDup (circularDependencies (_analysisJob (addCircularDependencies s cycles))))
  /\
  (forall d,
      existsb (fun dep => isEqual dep d) (circularDependencies (_analysisJob s))
        = true ->
      addCircularDependency s d = s) /\
  (forall d,
      List.length (circularDependencies (_analysisJob s)) = 4%nat ->
      addCircularDependency s d = s).
Proof.
  intros Hreach. split; [|split].
  - pose proof (invariant_addCircularDependencies cycles s
                  (reachable_invariant s Hreach)) as Hinv.
    split; [exact (inv_cap _ Hinv)|].
    apply distinctCycles_NoDup, (inv_distinct _ Hinv).
  - intros d Hdup.
    destruct (addCircularDependency_cases s d) as [[Hsame _] | (_ & _ & Hnew)];
      [exact Hsame | congruence].
  - intros d Hfull.
    destruct (addCircularDependency_cases s d) as [[Hsame _] | (_ & Hlen & _)];
      [exact Hsame|].
    unfold MaxImportCyclesPerFile in Hlen. lia.
Qed.

Lemma C6_circular_dependencies_witness :
  circularDependencies
    (_analysisJob
       (addCircularDependencies sampleAnalyzedFile
          [sampleCycle 1; sampleCycle 2; sampleCycle 1; sampleCycle 3;
           sampleCycle 4; sampleCycle 5; sampleCycle 6]))
  = [sampleCycle 1; sampleCycle 2; sampleCycle 3; sampleCycle 4] /\
  (List.length
     (circularDependencies
        (_analysisJob
           (addCircularDependencies sampleAnalyzedFile
              [sampleCycle 1; sampleCycle 2; sampleCycle 1; sampleCycle 3;
               sampleCycle 4; sampleCycle 5; sampleCycle 6])))
   <= 4)%nat.
Proof.
  split; [reflexivity|].
  exact (proj1 (proj1 (C6_circular_dependencies sampleAnalyzedFile
                         [sampleCycle 1; sampleCycle 2; sampleCycle 1;
                          sampleCycle 3; sampleCycle 4; sampleCycle 5;
                          sampleCycle 6]
                         sampleAnalyzedFile_reachable))).
Defined.

(** ** Dirtiness *)

(** C7. From every pipeline state, [markDirty] increments the contents
    version and so makes [isParseRequired] true, clears
    [isTypeAnalysisFinalized] and resets [nextPhaseToRun] to
    [SemanticAnalysis]; [markReanalysisRequired] touches neither contents
    version and leaves [isParseRequired] as it was, makes
    [isSemanticAnalysisRequired] true, sets [parseTreeNeedsCleaning], clears
    [isTypeAnalysisFinalized], and leaves the stored parse results, the four
    diagnostic buckets and the diagnostic version unchanged. *)
Theorem C7_mark_dirty_and_reanalysis (s : SourceFile) :
  reachable s ->
  (_fileContentsVersion (markDirty s) = _fileContentsVersion s + 1 /\
   isParseRequired (markDirty s) = true /\
   isTypeAnalysisFinalized (_analysisJob (markDirty s)) = false /\
   nextPhaseToRun (_analysisJob (markDirty s)) = SemanticAnalysis) /\
  (_fileContentsVersion (markReanalysisRequired s) = _fileContentsVersion s /\
   fileContentsVersion (_analysisJob (markReanalysisRequired s))
     = fileContentsVersion (_analysisJob s) /\
   isParseRequired (markReanalysisRequired s) = isParseRequired s /\
   isSemanticAnalysisRequired (markReanalysisRequired s) = true /\
   nextPhaseToRun (_analysisJob (markReanalysisRequired s)) = SemanticAnalysis /\
   parseTreeNeedsCleaning (_analysisJob (markReanalysisRequired s)) = true /\
   isTypeAnalysisFinalized (_analysisJob (markReanalysisRequired s)) = false /\
   parseResults (_analysisJob (markReanalysisRequired s))
     = parseResults (_analysisJob s) /\
   parseDiagnostics (_analysisJob (markReanalysisRequired s))
     = parseDiagnostics (_analysisJob s) /\
   semanticAnalysisDiagnostics (_analysisJob (markReanalysisRequired s))
     = semanticAnalysisDiagnostics (_analysisJob s) /\
   typeAnalysisLastPassDiagnostics (_analysisJob (markReanalysisRequired s))
     = typeAnalysisLastPassDiagnostics (_analysisJob s) /\
   typeAnalysisFinalDiagnostics (_analysisJob (markReanalysisRequired s))
     = typeAnalysisFinalDiagnostics (_analysisJob s) /\
   _diagnosticVersion (markReanalysisRequired s) = _diagnosticVersion s).
Proof.
  intros Hreach. apply reachable_invariant in Hreach. split.
  - repeat split. apply isParseRequired_true. cbn.
    pose proof (inv_analyzed_upper s Hreach). lia.
  - repeat split.
    unfold isSemanticAnalysisRequired.
    destruct (isParseRequired (markReanalysisRequired s)); reflexivity.
Qed.

Lemma C7_mark_dirty_and_reanalysis_witness :
  isParseRequired sampleConvergedFile = false /\
  isParseRequired (markDirty sampleConvergedFile) = true /\
  isParseRequired (markReanalysisRequired sampleConvergedFile) = false /\
  isSemanticAnalysisRequired (markReanalysisRequired sampleConvergedFile) = true.
Proof.
  pose proof (C7_mark_dirty_and_reanalysis sampleConvergedFile
                sampleConvergedFile_reachable)
    as [(_ & Hdirty & _) (_ & _ & Hsame & Hsem & _)].
  split; [reflexivity|]. split; [exact Hdirty|].
  split; [rewrite Hsame; reflexivity | exact Hsem].
Defined.

(** ** Finalization *)

(** C8. [finalizeAnalysis], called when type analysis is not required, sets
    [isTypeAnalysisFinalized], makes the finalized bucket equal to the
    previous last-pass bucket, empties the last-pass bucket and increments
    the diagnostic version by one; the last-pass bucket being empty
    afterwards, the two buckets never both hold the same non-empty
    content. *)
Theorem C8_finalize (s : SourceFile) :
  isTypeAnalysisRequired s = false ->
  exists s' : SourceFile,
    finalizeAnalysis s = Some s' /\
    isTypeAnalysisFinalized (_analysisJob s') = true /\
    typeAnalysisFinalDiagnostics (_analysisJob s')
      = typeAnalysisLastPassDiagnostics (_analysisJob s) /\
    typeAnalysisLastPassDiagnostics (_analysisJob s') = [] /\
    _diagnosticVersion s' = _diagnosticVersion s + 1 /\
    isAnalysisFinalized s' = true /\
    ~ (typeAnalysisLastPassDiagnostics (_analysisJob s')
         = typeAnalysisFinalDiagnostics (_analysisJob s') /\
       typeAnalysisLastPassDiagnostics (_analysisJob s') <> []).
Proof.
  intros Hreq. unfold finalizeAnalysis. rewrite Hreq. cbn [negb].
  eexists. split; [reflexivity|]. cbn.
  repeat (split; [reflexivity|]). split.
  - unfold isAnalysisFinalized. cbn. apply andb_true_iff. split; [|reflexivity].
    apply negb_true_iff. apply isTypeAnalysisRequired_false.
    apply isTypeAnalysisRequired_false in Hreq as [Hsem Hneeded].
    split; [|exact Hneeded]. apply isSemanticAnalysisRequired_false.
    apply isSemanticAnalysisRequired_false in Hsem as [Hparse Hphase].
    split; [|exact Hphase]. apply isParseRequired_false.
    apply isParseRequired_false in Hparse. exact Hparse.
  - intros [_ Hne]. apply Hne. reflexivity.
Qed.

Lemma C8_finalize_witness :
  isTypeAnalysisRequired sampleConvergedFile = false /\
  exists s' : SourceFile,
    finalizeAnalysis sampleConvergedFile = Some s' /\
    typeAnalysisFinalDiagnostics (_analysisJob s') = [sampleTypeDiagnostic] /\
    typeAnalysisLastPassDiagnostics (_analysisJob s') = [].
Proof.
  split; [reflexivity|].
  destruct (C8_finalize sampleConvergedFile eq_refl)
    as (s' & Hrun & _ & Hfinal & Hlast & _).
  exists s'. repeat split; [exact Hrun | rewrite Hfinal; reflexivity | exact Hlast].
Defined.

(** ** Client versions *)

(** C10. [setClientVersion] with a version increments the contents version
    (and so, through [markDirty], makes [isParseRequired] true) exactly when
    a buffer was already present and differs from the new contents; the
    first such call after construction, or after a call with a null version,
    leaves the contents version and the analysis job as they were, whatever
    the contents.  With a null version it drops the buffer and leaves the
    contents version and the analysis job as they were. *)
Theorem C10_setClientVersion (s : SourceFile) (contents : string) :
  (forall version old,
      _fileContents s = Some old -> old <> contents ->
      _fileContentsVersion (setClientVersion s (Some version) contents)
        = _fileContentsVersion s + 1 /\
      (reachable s ->
       isParseRequired (setClientVersion s (Some version) contents) = true)) /\
  (forall version,
      (_fileContents s = None \/ _fileContents s = Some contents) ->
      _fileContentsVersion (setClientVersion s (Some version) contents)
        = _fileContentsVersion s /\
      _analysisJob (setClientVersion s (Some version) contents)
        = _analysisJob s /\
      isParseRequired (setClientVersion s (Some version) contents)
        = isParseRequired s) /\
  (forall version,
      _clientVersion (setClientVersion s (Some version) contents)
        = Some version /\
      _fileContents (setClientVersion s (Some version) contents)
        = Some contents) /\
  (_clientVersion (setClientVersion s None contents) = None /\
   _fileContents (setClientVersion s None contents) = None /\
   _fileContentsVersion (setClientVersion s None contents)
     = _fileContentsVersion s /\
   _analysisJob (setClientVersion s None contents) = _analysisJob s /\
   isParseRequired (setClientVersion s None contents) = isParseRequired s) /\
  (forall version filePath isTypeshedStubFile,
      _fileContentsVersion
        (setClientVersion (newSourceFile filePath isTypeshedStubFile)
           (Some version) contents) = 0 /\
      _analysisJob
        (setClientVersion (newSourceFile filePath isTypeshedStubFile)
           (Some version) contents) = initialJob) /\
  (forall version discarded,
      _fileContentsVersion
        (setClientVersion (setClientVersion s None discarded) (Some version)
           contents) = _fileContentsVersion s /\
      _analysisJob
        (setClientVersion (setClientVersion s None discarded) (Some version)
           contents) = _analysisJob s).
Proof.
  split; [|split; [|split; [|split; [|split]]]].
  - intros version old Hold Hdiff. unfold setClientVersion.
    cbn [set_clientVersion _fileContents]. rewrite Hold.
    apply String.eqb_neq in Hdiff. rewrite Hdiff. cbn [negb]. split.
    + reflexivity.
    + intros Hreach. apply reachable_invariant in Hreach.
      apply isParseRequired_true. cbn.
      pose proof (inv_analyzed_upper s Hreach). lia.
  - intros version Hsame. unfold setClientVersion.
    cbn [set_clientVersion _fileContents].
    destruct Hsame as [-> | ->].
    + repeat split.
    + rewrite String.eqb_refl. repeat split.
  - intros version. unfold setClientVersion.
    cbn [set_clientVersion _fileContents].
    destruct (_fileContents s) as [old|]; [|repeat split].
    destruct (negb (old =? contents)%string); repeat split.
  - repeat split.
  - intros version filePath isTypeshedStubFile. repeat split.
  - intros version discarded. repeat split.
Qed.

Lemma C10_setClientVersion_witness :
  _fileContentsVersion
    (setClientVersion (setClientVersion sampleConvergedFile (Some 1) "x = 1")
       (Some 2) "x = 2")
  = _fileContentsVersion sampleConvergedFile + 1 /\
  isParseRequired (setClientVersion sampleConvergedFile (Some 1) "x = 1")
  = false.
Proof.
  pose proof (C10_setClientVersion
                (setClientVersion sampleConvergedFile (Some 1) "x = 1")
                "x = 2") as (Hbump & _).
  pose proof (C10_setClientVersion sampleConvergedFile "x = 1")
    as (_ & Hfirst & _).
  split.
  - rewrite (proj1 (Hbump 2 "x = 1"%string eq_refl ltac:(discriminate))).
    reflexivity.
  - rewrite (proj2 (proj2 (Hfirst 1 (or_introl eq_refl)))). reflexivity.
Defined.

(** ** Resolved imports *)

Lemma notSelfImport_true (filePath : string) (r : ImportResult) :
  notSelfImport filePath r = true <->
  hd_error (resolvedPaths r) <> Some filePath.
Proof.
  unfold notSelfImport. destruct (resolvedPaths r) as [|first rest]; simpl.
  - split; [discriminate|reflexivity].
  - rewrite negb_true_iff, String.eqb_neq. split; congruence.
Qed.

Lemma resolveModuleImports_returns
  (resolve : ImportedModuleName -> outcome ImportResult)
  (moduleImports : list ModuleImport) (results acc : list ImportResult) :
  Forall2 (fun m r => resolve (moduleNameOf m) = Returns r)
    moduleImports results ->
  resolveModuleImports resolve moduleImports acc = Returns (acc ++ results).
Proof.
  intros Hall. revert acc.
  induction Hall as [|m r ms rs Hm _ IH]; intros acc; simpl.
  - rewrite app_nil_r. reflexivity.
  - rewrite Hm, IH, <- app_assoc. reflexivity.
Qed.

(** The import list [_resolveImports] returns when no resolution throws. *)
Lemma resolveImports_returns (c : Collaborators) (s : SourceFile)
  (moduleImports : list ModuleImport) (execEnv : ExecutionEnvironment)
  (builtinsResult typingResult : ImportResult) (results : list ImportResult) :
  resolveImport c (_filePath s) execEnv builtinsModuleName
    = Returns builtinsResult ->
  resolveImport c (_filePath s) execEnv typingModuleName
    = Returns typingResult ->
  Forall2 (fun m r =>
             resolveImport c (_filePath s) execEnv (moduleNameOf m) = Returns r)
    moduleImports results ->
  exists builtins typing,
    _resolveImports c s moduleImports execEnv
    = Returns
        ((if notSelfImport (_filePath s) builtinsResult
          then [builtinsResult] else [])
         ++ (if notSelfImport (_filePath s) typingResult
             then [typingResult] else [])
         ++ results,
         builtins, typing).
Proof.
  intros Hb Ht Hall. unfold _resolveImports, getFilePath. rewrite Hb, Ht.
  destruct (notSelfImport (_filePath s) builtinsResult),
    (notSelfImport (_filePath s) typingResult);
    rewrite (resolveModuleImports_returns _ _ results _ Hall);
    eexists; eexists; reflexivity.
Qed.

(** C9. After a successful parse, [getImports] lists the implicit builtins
    import first, the implicit typing import second, and then one entry per
    explicit import statement in the order discovered, each resolved from
    its leading-dot count, name segments and optional symbol allowlist; an
    implicit import whose first resolved path is this file's own path is
    left out.  For a file that is neither module, one explicit import gives
    exactly three entries: builtins, typing, the explicit import. *)
Theorem C9_imports (c : Collaborators) (s : SourceFile)
  (configOptions : ConfigOptions) (results : ParseResults)
  (parserDiags walkerDiags : list Diagnostic)
  (moduleImports : list ModuleImport)
  (builtinsResult typingResult : ImportResult)
  (explicitResults : list ImportResult) :
  let execEnv := findExecEnvironment configOptions (_filePath s) in
  isParseRequired s = true ->
  parseSourceFile c (fst (readSource c s)) (parseOptionsOf s configOptions)
    = Returns (results, parserDiags) ->
  postParseWalk c (parseTree results) = Returns (moduleImports, walkerDiags) ->
  (internalTestMode configOptions = true ->
   testWalk c (parseTree results) = Returns tt) ->
  resolveImport c (_filePath s) execEnv (mkModuleName 0 ["builtins"] None)
    = Returns builtinsResult ->
  resolveImport c (_filePath s) execEnv (mkModuleName 0 ["typing"] None)
    = Returns typingResult ->
  Forall2
    (fun m r =>
       resolveImport c (_filePath s) execEnv
         (mkModuleName (mi_leadingDots m) (mi_nameParts m)
            (mi_importedSymbols m))
       = Returns r)
    moduleImports explicitResults ->
  getImports (fst (parse c s configOptions))
  = (if notSelfImport (_filePath s) builtinsResult then [builtinsResult] else [])
    ++ (if notSelfImport (_filePath s) typingResult then [typingResult] else [])
    ++ explicitResults /\
  (hd_error (resolvedPaths builtinsResult) <> Some (_filePath s) ->
   hd_error (resolvedPaths typingResult) <> Some (_filePath s) ->
   getImports (fst (parse c s configOptions))
   = builtinsResult :: typingResult :: explicitResults /\
   (List.length moduleImports = 1%nat ->
    List.length (getImports (fst (parse c s configOptions))) = 3%nat)) /\
  (hd_error (resolvedPaths builtinsResult) = Some (_filePath s) ->
   getImports (fst (parse c s configOptions))
   = (if notSelfImport (_filePath s) typingResult then [typingResult] else [])
     ++ explicitResults) /\
  (hd_error (resolvedPaths typingResult) = Some (_filePath s) ->
   getImports (fst (parse c s configOptions))
   = (if notSelfImport (_filePath s) builtinsResult
      then [builtinsResult] else [])
     ++ explicitResults).
Proof.
  intros execEnv Hreq Hparse Hwalk Htest Hb Ht Hall.
  destruct (resolveImports_returns c s moduleImports execEnv builtinsResult
              typingResult explicitResults Hb Ht Hall)
    as (builtins & typing & Hres).
  assert (Himports :
    getImports (fst (parse c s configOptions))
    = (if notSelfImport (_filePath s) builtinsResult
       then [builtinsResult] else [])
      ++ (if notSelfImport (_filePath s) typingResult
          then [typingResult] else [])
      ++ explicitResults).
  { assert (Hbody :
      parseBody c s configOptions
      = (job_parseDiagnostics
           (job_imports (job_parseResults (_analysisJob s) (Some results))
              (Some ((if notSelfImport (_filePath s) builtinsResult
                      then [builtinsResult] else [])
                     ++ (if notSelfImport (_filePath s) typingResult
                         then [typingResult] else [])
                     ++ explicitResults)) builtins typing)
           ((snd (readSource c s) ++ parserDiags) ++ walkerDiags),
         Returns tt)).
    { unfold parseBody, parseTry.
      destruct (readSource c s) as [fileContents diagnostics].
      cbn [fst snd] in *. rewrite Hparse, Hwalk.
      assert (Htested :
        (if internalTestMode configOptions
         then testWalk c (parseTree results) else Returns tt) = Returns tt).
      { destruct (internalTestMode configOptions); [apply Htest|]; reflexivity. }
      rewrite Htested. fold execEnv. rewrite Hres. reflexivity. }
    rewrite (parse_returned c s configOptions Hreq)
      by (rewrite Hbody; reflexivity).
    rewrite Hbody. reflexivity. }
  split; [exact Himports|]. rewrite Himports. split; [|split].
  - intros Hnb Hnt.
    apply notSelfImport_true in Hnb. apply notSelfImport_true in Hnt.
    rewrite Hnb, Hnt. split; [reflexivity|].
    intros Hone. simpl. rewrite <- (Forall2_length Hall), Hone. reflexivity.
  - intros Hself.
    destruct (notSelfImport (_filePath s) builtinsResult) eqn:Hnb;
      [|reflexivity].
    apply notSelfImport_true in Hnb. contradiction.
  - intros Hself.
    destruct (notSelfImport (_filePath s) typingResult) eqn:Hnt;
      [|reflexivity].
    apply notSelfImport_true in Hnt. contradiction.
Qed.

Lemma C9_imports_witness :
  getImports (fst (parse sampleCollaborators sampleFile sampleConfig))
  = [mkImportResult "builtins" ["/lib/builtins.pyi"];
     mkImportResult "typing" ["/lib/typing.pyi"];
     mkImportResult "pkg.b" ["/lib/pkg/b.pyi"]].
Proof.
  refine (proj1 (proj1 (proj2
    (C9_imports sampleCollaborators sampleFile sampleConfig sampleResults [] []
       [sampleModuleImport] (sampleResolve builtinsModuleName)
       (sampleResolve typingModuleName)
       [sampleResolve (moduleNameOf sampleModuleImport)]
       eq_refl eq_refl eq_refl _ eq_refl eq_refl _)) _ _)).
  - intros Hmode. discriminate Hmode.
  - repeat constructor.
  - discriminate.
  - discriminate.
Defined.

(** * Further properties of the source file *)

(** ** Suffix tests *)

Lemma substring_all (s : string) : substring 0 (String.length s) s = s.
Proof. induction s as [|a s IH]; simpl; [reflexivity|now rewrite IH]. Qed.

Lemma substring_split (s : string) (k : nat) :
  (k <= String.length s)%nat ->
  s = (substring 0 k s ++ substring k (String.length s - k) s)%string.
Proof.
  revert k. induction s as [|a s IH]; intros k Hk; simpl in Hk.
  - assert (k = 0%nat) as -> by lia. reflexivity.
  - destruct k as [|k]; simpl.
    + now rewrite substring_all.
    + f_equal. apply IH. lia.
Qed.

Lemma substring_append_right (pre p : string) :
  substring (String.length pre) (String.length p) (pre ++ p) = p.
Proof.
  induction pre as [|a pre IH]; simpl; [apply substring_all|exact IH].
Qed.

Lemma length_append_string (a b : string) :
  String.length (a ++ b) = (String.length a + String.length b)%nat.
Proof. induction a as [|x a IH]; simpl; [reflexivity|now rewrite IH]. Qed.

(** [endsWith] is the suffix relation. *)
Lemma endsWith_true (s p : string) :
  endsWith s p = true <-> exists pre, s = (pre ++ p)%string.
Proof.
  unfold endsWith. split.
  - intros H. apply andb_true_iff in H as [Hlen Heq].
    apply Nat.leb_le in Hlen. apply String.eqb_eq in Heq.
    exists (substring 0 (String.length s - String.length p) s).
    pose proof (substring_split s (String.length s - String.length p)) as Hs.
    replace (String.length s - (String.length s - String.length p))%nat
      with (String.length p) in Hs by lia.
    rewrite Heq in Hs. apply Hs. lia.
  - intros [pre ->]. rewrite length_append_string. apply andb_true_iff. split.
    + apply Nat.leb_le. lia.
    + replace (String.length pre + String.length p - String.length p)%nat
        with (String.length pre) by lia.
      rewrite substring_append_right. apply String.eqb_refl.
Qed.

Lemma string_app_assoc (a b c : string) :
  ((a ++ b) ++ c = a ++ (b ++ c))%string.
Proof. induction a as [|x a IH]; simpl; [reflexivity|now rewrite IH]. Qed.

(** X1. A file the constructor flags as a stub (path ending in [.pyi]) is
    always parsed with the stub option on; the converse fails, because
    [parse] tests the suffix [pyi] without the dot. *)
Theorem stub_flag_implies_stub_parse :
  (forall (filePath : string) (isTypeshedStubFile : bool)
          (configOptions : ConfigOptions),
      isStubFile (newSourceFile filePath isTypeshedStubFile) = true ->
      po_isStubFile
        (parseOptionsOf (newSourceFile filePath isTypeshedStubFile)
           configOptions) = true) /\
  (exists filePath,
      isStubFile (newSourceFile filePath false) = false /\
      po_isStubFile (parseOptionsOf (newSourceFile filePath false) sampleConfig)
        = true).
Proof.
  split.
  - intros filePath isTypeshedStubFile configOptions Hstub.
    unfold isStubFile, newSourceFile in Hstub. cbn in Hstub.
    apply endsWith_true in Hstub as [pre ->].
    unfold parseOptionsOf. cbn.
    assert (H : endsWith (pre ++ ".pyi") "pyi" = true).
    { apply endsWith_true. exists (pre ++ ".")%string.
      rewrite string_app_assoc. reflexivity. }
    rewrite H. reflexivity.
  - exists "/src/notes_pyi"%string. split; reflexivity.
Qed.

Lemma stub_flag_implies_stub_parse_witness :
  isStubFile (newSourceFile "/lib/typing.pyi" true) = true /\
  po_isStubFile
    (parseOptionsOf (newSourceFile "/lib/typing.pyi" true) sampleConfig) = true.
Proof.
  split; [reflexivity|].
  exact (proj1 stub_flag_implies_stub_parse "/lib/typing.pyi"%string true
           sampleConfig eq_refl).
Defined.

(** ** What the operations preserve *)

(** The import list a returning [for] loop produces extends the list it
    started from. *)
Lemma resolveModuleImports_extends
  (resolve : ImportedModuleName -> outcome ImportResult)
  (moduleImports : list ModuleImport) (acc l : list ImportResult) :
  resolveModuleImports resolve moduleImports acc = Returns l ->
  exists rest, l = acc ++ rest /\
               List.length rest = List.length moduleImports.
Proof.
  revert acc. induction moduleImports as [|m ms IH]; simpl; intros acc H.
  - injection H as <-. exists []. now rewrite app_nil_r.
  - destruct (resolve (moduleNameOf m)) as [r|]; [|discriminate].
    apply IH in H as (rest & -> & Hlen). exists (r :: rest).
    rewrite <- app_assoc. split; [reflexivity|]. simpl. now rewrite Hlen.
Qed.

(** What [_resolveImports] returns: the builtins result, when kept, heads
    the list; the typing path is recorded only when the typing result is
    kept; nothing but the two implicit entries precedes the explicit ones. *)
Lemma resolveImports_shape (c : Collaborators) (s : SourceFile)
  (moduleImports : list ModuleImport) (execEnv : ExecutionEnvironment)
  (imps : list ImportResult) (builtins : option ImportResult)
  (typing : option string) :
  _resolveImports c s moduleImports execEnv = Returns (imps, builtins, typing) ->
  exists rb rt rest,
    resolveImport c (_filePath s) execEnv builtinsModuleName = Returns rb /\
    resolveImport c (_filePath s) execEnv typingModuleName = Returns rt /\
    List.length rest = List.length moduleImports /\
    imps = (if notSelfImport (_filePath s) rb then [rb] else [])
           ++ (if notSelfImport (_filePath s) rt then [rt] else []) ++ rest /\
    builtins = (if notSelfImport (_filePath s) rb then Some rb else None) /\
    typing = (if notSelfImport (_filePath s) rt
              then hd_error (resolvedPaths rt) else None).
Proof.
  unfold _resolveImports, getFilePath.
  destruct (resolveImport c (_filePath s) execEnv builtinsModuleName)
    as [rb|] eqn:Hb; [|discriminate].
  destruct (resolveImport c (_filePath s) execEnv typingModuleName)
    as [rt|] eqn:Ht; [|destruct (notSelfImport (_filePath s) rb); discriminate].
  intros H. exists rb, rt.
  destruct (notSelfImport (_filePath s) rb), (notSelfImport (_filePath s) rt);
    cbn [app] in H;
    match type of H with
    | match ?x with _ => _ end = _ => destruct x as [l|] eqn:Hloop
    end; try discriminate;
    injection H as <- <- <-;
    apply resolveModuleImports_extends in Hloop as (rest & -> & Hlen);
    exists rest; repeat split; assumption || reflexivity.
Qed.

Lemma parseBody_importsConsistent (c : Collaborators) (s : SourceFile)
  (configOptions : ConfigOptions) :
  importsConsistent (_analysisJob s) ->
  importsConsistent (fst (parseBody c s configOptions)).
Proof.
  intros Hold. unfold parseBody.
  destruct (readSource c s) as [fileContents diagnostics].
  destruct (parseTry_cases c s configOptions fileContents
              (parseOptionsOf s configOptions)
              (findExecEnvironment configOptions (_filePath s)) diagnostics)
    as [(r & pd & ms & wd & imps & b & t & _ & _ & Hres & ->)
       | [(e & ->) | (r & e & ->)]].
  - apply resolveImports_shape in Hres
      as (rb & rt & rest & _ & _ & _ & -> & -> & _).
    unfold importsConsistent. cbn.
    destruct (notSelfImport (_filePath s) rb); [|exact I].
    eexists. reflexivity.
  - unfold parseCatch.
    destruct (logInternalError c (parseLogPrefix s) e);
      [exact I | exact Hold].
  - unfold parseCatch.
    destruct (logInternalError c (parseLogPrefix s) e);
      [exact I | exact Hold].
Qed.

(** X2. In every reachable state: the analyzed contents version lies
    between -1 and the current contents version, the diagnostic version is
    not negative, the pass number is at least 1, the phase cursor is never
    [Parse], a parse result is stored whenever the parse is up to date, a
    text buffer is present whenever a client version is set, and the
    builtins import, when present, is the first entry of [getImports]. *)
Theorem reachable_state_invariants (s : SourceFile) :
  reachable s ->
  -1 <= fileContentsVersion (_analysisJob s) <= _fileContentsVersion s /\
  0 <= getDiagnosticVersion s /\
  1 <= getAnalysisPassCount s /\
  nextPhaseToRun (_analysisJob s) <> Parse /\
  (isParseRequired s = false -> parseResults (_analysisJob s) <> None) /\
  (_clientVersion s <> None -> _fileContents s <> None) /\
  (forall b, getBuiltinsImport s = Some b ->
             exists rest, getImports s = b :: rest).
Proof.
  intros Hreach.
  assert (Hphase : nextPhaseToRun (_analysisJob s) <> Parse /\
                   importsConsistent (_analysisJob s)).
  { induction Hreach as [filePath b | s s' op Hreach [IHp IHi] Hstep].
    - split; [discriminate|exact I].
    - destruct op; simpl in Hstep.
      + injection Hstep as <-. split; [discriminate|exact IHi].
      + injection Hstep as <-. split; [discriminate|exact IHi].
      + injection Hstep as <-. unfold setClientVersion.
        destruct version as [v|]; [|split; assumption].
        cbn [set_clientVersion _fileContents].
        destruct (_fileContents s) as [old|]; [|split; assumption].
        destruct (negb (old =? contents)%string);
          [split; [discriminate|exact IHi] | split; assumption].
      + injection Hstep as <-. split; assumption.
      + injection Hstep as <-.
        destruct (addCircularDependency_cases s circDependency)
          as [[-> _] | (-> & _)]; split; assumption.
      + injection Hstep as <-.
        pose proof (parseBody_importsConsistent c s configOptions IHi) as Hi.
        pose proof (parseBody_frame c s configOptions) as Hframe.
        cbv zeta in Hframe. destruct Hframe as (_ & Hnext & _).
        destruct (parse_cases c s configOptions)
          as [[_ ->] | [(_ & _ & ->) | (e & _ & _ & ->)]].
        * split; assumption.
        * split; [discriminate|exact Hi].
        * cbn. rewrite Hnext. split; assumption.
      + injection Hstep as <-.
        destruct (doSemanticAnalysis c s configOptions builtinsScope)
          as [s1 [[]|e]] eqn:Hrun; cbn [fst].
        * apply doSemanticAnalysis_shape in Hrun as (cl & d & ->).
          split; [discriminate|exact IHi].
        * apply doSemanticAnalysis_thrown in Hrun as (cl & ->).
          split; assumption.
      + injection Hstep as <-.
        destruct (doTypeAnalysis c s configOptions importMap)
          as [s1 r] eqn:Hrun.
        apply doTypeAnalysis_shape in Hrun as (n & nd & d & _ & ->).
        split; assumption.
      + apply finalizeAnalysis_shape in Hstep as [_ ->]. split; assumption. }
  destruct Hphase as [Hphase Himports].
  pose proof (reachable_invariant s Hreach) as Hinv.
  split; [split; [exact (inv_analyzed_lower s Hinv)
                 |exact (inv_analyzed_upper s Hinv)]|].
  split; [exact (inv_diagnostic s Hinv)|].
  split; [exact (inv_pass s Hinv)|].
  split; [exact Hphase|].
  split.
  - intros Hreq Hnone. apply isParseRequired_false in Hreq.
    pose proof (inv_parsed s Hinv Hnone). pose proof (inv_contents s Hinv). lia.
  - split; [exact (inv_buffer s Hinv)|].
    intros b Hb. unfold getBuiltinsImport in Hb.
    unfold importsConsistent in Himports. rewrite Hb in Himports.
    destruct Himports as [rest Hrest]. exists rest.
    unfold getImports. rewrite Hrest. reflexivity.
Qed.

Lemma reachable_state_invariants_witness :
  getBuiltinsImport sampleConvergedFile
    = Some (mkImportResult "builtins" ["/lib/builtins.pyi"]) /\
  exists rest,
    getImports sampleConvergedFile
    = mkImportResult "builtins" ["/lib/builtins.pyi"] :: rest.
Proof.
  split; [reflexivity|].
  exact (proj2 (proj2 (proj2 (proj2 (proj2 (proj2
           (reachable_state_invariants sampleConvergedFile
              sampleConvergedFile_reachable))))))
           (mkImportResult "builtins" ["/lib/builtins.pyi"]) eq_refl).
Defined.

Lemma setClientVersion_fields (s : SourceFile) (version : option Z)
  (contents : string) :
  _filePath (setClientVersion s version contents) = _filePath s /\
  _isStubFile (setClientVersion s version contents) = _isStubFile s /\
  _isTypeshedStubFile (setClientVersion s version contents)
    = _isTypeshedStubFile s /\
  _diagnosticVersion (setClientVersion s version contents)
    = _diagnosticVersion s /\
  fileContentsVersion (_analysisJob (setClientVersion s version contents))
    = fileContentsVersion (_analysisJob s) /\
  (_fileContentsVersion (setClientVersion s version contents)
     = _fileContentsVersion s \/
   _fileContentsVersion (setClientVersion s version contents)
     = _fileContentsVersion s + 1).
Proof.
  unfold setClientVersion. destruct version as [v|]; [|repeat split; now left].
  cbn [set_clientVersion _fileContents].
  destruct (_fileContents s) as [old|]; [|repeat split; now left].
  destruct (negb (old =? contents)%string); repeat split; (now left) || now right.
Qed.

(** One method call: identity kept, counters move up by at most one. *)
Lemma step_monotone (s s' : SourceFile) (op : Operation) :
  invariant s -> step s op = Some s' ->
  (_filePath s' = _filePath s /\ _isStubFile s' = _isStubFile s /\
   _isTypeshedStubFile s' = _isTypeshedStubFile s) /\
  _diagnosticVersion s <= _diagnosticVersion s' <= _diagnosticVersion s + 1 /\
  _fileContentsVersion s <= _fileContentsVersion s'
    <= _fileContentsVersion s + 1 /\
  fileContentsVersion (_analysisJob s) <= fileContentsVersion (_analysisJob s').
Proof.
  intros Hinv Hstep. pose proof (inv_analyzed_upper s Hinv) as Hupper.
  destruct op; simpl in Hstep.
  - injection Hstep as <-. cbn. repeat split; lia.
  - injection Hstep as <-. cbn. repeat split; lia.
  - injection Hstep as <-.
    destruct (setClientVersion_fields s version contents)
      as (-> & -> & -> & -> & -> & [-> | ->]); repeat split; lia.
  - injection Hstep as <-. cbn. repeat split; lia.
  - injection Hstep as <-.
    destruct (addCircularDependency_cases s circDependency)
      as [[-> _] | (-> & _)]; cbn; repeat split; lia.
  - injection Hstep as <-.
    pose proof (parseBody_frame c s configOptions) as Hframe.
    cbv zeta in Hframe. destruct Hframe as (Hversion & _).
    destruct (parse_cases c s configOptions)
      as [[_ ->] | [(_ & _ & ->) | (e & _ & _ & ->)]]; cbn;
      rewrite ?Hversion; repeat split; lia.
  - injection Hstep as <-.
    destruct (doSemanticAnalysis c s configOptions builtinsScope)
      as [s1 [[]|e]] eqn:Hrun; cbn [fst].
    + apply doSemanticAnalysis_shape in Hrun as (cl & d & ->). cbn.
      repeat split; lia.
    + apply doSemanticAnalysis_thrown in Hrun as (cl & ->). cbn.
      repeat split; lia.
  - injection Hstep as <-.
    destruct (doTypeAnalysis c s configOptions importMap) as [s1 r] eqn:Hrun.
    apply doTypeAnalysis_shape in Hrun as (n & nd & d & _ & ->). cbn.
    repeat split; lia.
  - apply finalizeAnalysis_shape in Hstep as [_ ->]. cbn. repeat split; lia.
Qed.

(** X3. Along every sequence of method calls on a reachable state the file
    path and the two stub flags stay as constructed, and the diagnostic
    version, the contents version and the analyzed contents version never
    decrease; the first two grow by at most one per call. *)
Theorem run_monotone (ops : list Operation) (s s' : SourceFile) :
  reachable s -> run ops s = Some s' ->
  (getFilePath s' = getFilePath s /\ isStubFile s' = isStubFile s /\
   _isTypeshedStubFile s' = _isTypeshedStubFile s) /\
  getDiagnosticVersion s <= getDiagnosticVersion s'
    <= getDiagnosticVersion s + Z.of_nat (List.length ops) /\
  _fileContentsVersion s <= _fileContentsVersion s'
    <= _fileContentsVersion s + Z.of_nat (List.length ops) /\
  fileContentsVersion (_analysisJob s) <= fileContentsVersion (_analysisJob s').
Proof.
  unfold getFilePath, isStubFile, getDiagnosticVersion.
  revert s. induction ops as [|op ops IH]; intros s Hreach Hrun.
  - simpl in Hrun. injection Hrun as <-. cbn. repeat split; lia.
  - simpl in Hrun. destruct (step s op) as [s1|] eqn:Hstep; [|discriminate].
    pose proof (step_monotone s s1 op (reachable_invariant s Hreach) Hstep)
      as ((Hp & Hst & Hts) & Hd & Hc & Ha).
    destruct (IH s1 (reachable_step s s1 op Hreach Hstep) Hrun)
      as ((Hp' & Hst' & Hts') & Hd' & Hc' & Ha').
    rewrite Hp', Hst', Hts', Hp, Hst, Hts.
    change (List.length (op :: ops)) with (S (List.length ops)).
    rewrite Nat2Z.inj_succ. repeat split; lia.
Qed.

Lemma run_monotone_witness :
  getFilePath sampleFinalizedFile = "/src/a.py"%string /\
  0 <= getDiagnosticVersion sampleFinalizedFile <= 4.
Proof.
  pose proof (run_monotone
                [OpParse sampleCollaborators sampleConfig;
                 OpDoSemanticAnalysis sampleCollaborators sampleConfig None;
                 OpDoTypeAnalysis sampleCollaborators sampleConfig [];
                 OpFinalizeAnalysis]
                sampleFile sampleFinalizedFile
                (reachable_new "/src/a.py" false) eq_refl)
    as ((Hpath & _) & Hdiag & _).
  split; [exact Hpath|exact Hdiag].
Defined.

(** ** More on parsing *)

(** A call of [parse] that returns leaves the parse up to date; one that
    throws leaves it as required as it was. *)
Lemma parse_up_to_date (c : Collaborators) (s s' : SourceFile)
  (configOptions : ConfigOptions) (b : bool) :
  parse c s configOptions = (s', Returns b) -> isParseRequired s' = false.
Proof.
  destruct (parse_cases c s configOptions)
    as [[Hreq ->] | [(_ & _ & ->) | (e & _ & _ & ->)]].
  - intros [= <- _]. exact Hreq.
  - intros [= <- _]. apply isParseRequired_false. reflexivity.
  - discriminate.
Qed.

Lemma parse_thrown (c : Collaborators) (s s' : SourceFile)
  (configOptions : ConfigOptions) (e : Thrown) :
  parse c s configOptions = (s', Throws e) ->
  isParseRequired s = true /\
  s' = set_analysisJob s (fst (parseBody c s configOptions)) /\
  snd (parseBody c s configOptions) = Throws e.
Proof.
  destruct (parse_cases c s configOptions)
    as [[Hreq ->] | [(_ & _ & ->) | (e' & Hreq & Hdone & ->)]];
    try discriminate.
  intros [= <- <-]. repeat split; assumption.
Qed.

(** A call of [parse] left by an exception has not advanced the analyzed
    contents version. *)
Lemma parse_thrown_required (c : Collaborators) (s s' : SourceFile)
  (configOptions : ConfigOptions) (e : Thrown) :
  parse c s configOptions = (s', Throws e) ->
  isParseRequired s = true /\ isParseRequired s' = true /\
  _diagnosticVersion s' = _diagnosticVersion s.
Proof.
  intros Hrun. apply parse_thrown in Hrun as (Hreq & -> & _).
  split; [exact Hreq|]. split; [|reflexivity].
  pose proof (parseBody_frame c s configOptions) as Hframe.
  cbv zeta in Hframe. destruct Hframe as (Hversion & _).
  apply isParseRequired_true. apply isParseRequired_true in Hreq.
  cbn. rewrite Hversion. exact Hreq.
Qed.

(** X4. After a call of [parse] that returns, whatever it did,
    [isParseRequired] is false and a second call (with any collaborators
    and options) is a no-op that returns false.  A call of [parse] that is
    left by an exception leaves the parse required and the diagnostic
    version as it was, so the next call parses again. *)
Theorem parse_twice (c c' : Collaborators) (s : SourceFile)
  (configOptions configOptions' : ConfigOptions) :
  (forall s' b,
      parse c s configOptions = (s', Returns b) ->
      isParseRequired s' = false /\
      parse c' s' configOptions' = (s', Returns false)) /\
  (forall s' e,
      parse c s configOptions = (s', Throws e) ->
      isParseRequired s = true /\
      isParseRequired s' = true /\
      getDiagnosticVersion s' = getDiagnosticVersion s).
Proof.
  split.
  - intros s' b Hrun.
    pose proof (parse_up_to_date c s s' configOptions b Hrun) as H.
    split; [exact H|]. apply parse_not_required, H.
  - intros s' e Hrun.
    exact (parse_thrown_required c s s' configOptions e Hrun).
Qed.

Lemma parse_twice_witness :
  parse sampleCollaborators
    (fst (parse faultyCollaborators sampleFile sampleConfig)) sampleConfig
  = (fst (parse faultyCollaborators sampleFile sampleConfig), Returns false) /\
  isParseRequired (fst (parse bigIntCollaborators sampleFile sampleConfig))
  = true.
Proof.
  destruct (parse_twice faultyCollaborators sampleCollaborators sampleFile
              sampleConfig sampleConfig) as [Hreturned _].
  destruct (parse_twice bigIntCollaborators sampleCollaborators sampleFile
              sampleConfig sampleConfig) as [_ Hthrown].
  split.
  - exact (proj2 (Hreturned _ true eq_refl)).
  - exact (proj1 (proj2 (Hthrown _ _ eq_refl))).
Defined.

(** X5. While a client version is set the file system is not consulted:
    [parse] gives the same result over any other [readFileSync], and the
    parser receives the client's buffer with an empty diagnostic sink. *)
Theorem parse_client_buffer (c : Collaborators) (s : SourceFile)
  (configOptions : ConfigOptions) (read : string -> outcome string) :
  _clientVersion s <> None ->
  parse (withReadFileSync c read) s configOptions = parse c s configOptions /\
  readSource c s = (_fileContents s, []).
Proof.
  intros Hclient.
  assert (Hsource : forall c0, readSource c0 s = (_fileContents s, [])).
  { intros c0. unfold readSource.
    destruct (_clientVersion s); [reflexivity|contradiction]. }
  split; [|apply Hsource].
  unfold parse. destruct (negb (isParseRequired s)); [reflexivity|].
  assert (Hbody : parseBody (withReadFileSync c read) s configOptions
                  = parseBody c s configOptions).
  { unfold parseBody. rewrite !Hsource. reflexivity. }
  rewrite Hbody. reflexivity.
Qed.

Lemma parse_client_buffer_witness :
  parse unreadableCollaborators
    (setClientVersion sampleFile (Some 1) "import os") sampleConfig
  = parse sampleCollaborators
      (setClientVersion sampleFile (Some 1) "import os") sampleConfig.
Proof.
  refine (proj1 (parse_client_buffer sampleCollaborators
                   (setClientVersion sampleFile (Some 1) "import os")
                   sampleConfig
                   (fun _ => Throws (ThrownError "ENOENT: no such file or directory"))
                   _)).
  discriminate.
Defined.




(** [parse] when something in the [try] block threw and the [catch] block
    wrote its log line. *)
Lemma parse_fault_logged (c : Collaborators) (s : SourceFile)
  (configOptions : ConfigOptions) (e : Thrown) :
  isParseRequired s = true ->
  parseThrows c s configOptions e ->
  logInternalError c (parseLogPrefix s) e = Returns tt ->
  parse c s configOptions =
  (mkSourceFile (_filePath s) (_isStubFile s) (_isTypeshedStubFile s)
     (job_parseTreeNeedsCleaning
        (job_nextPhaseToRun
           (job_fileContentsVersion (fst (parseBody c s configOptions))
              (_fileContentsVersion s))
           SemanticAnalysis)
        false)
     (_diagnosticVersion s + 1) (_fileContentsVersion s) (_clientVersion s)
     (_fileContents s),
   Returns true).
Proof.
  intros Hreq Hthrows Hlog. apply parse_returned; [exact Hreq|].
  exact (proj1 (parseBody_fault_logged c s configOptions e Hthrows Hlog)).
Qed.

(** X7. After a parse in which something threw and whose [catch] block
    completed (its log line was written), [parse] has returned true,
    [getImports] is empty and [getBuiltinsImport] undefined, but the typing
    module path is not cleared: it keeps the value of the last parse that
    ran to its end, and that stale value is what [_buildFileInfo] hands to
    the analyzers. *)
Theorem parse_fault_keeps_typing_path (c : Collaborators) (s : SourceFile)
  (configOptions : ConfigOptions) (e : Thrown) :
  isParseRequired s = true ->
  parseThrows c s configOptions e ->
  logInternalError c (parseLogPrefix s) e = Returns tt ->
  snd (parse c s configOptions) = Returns true /\
  getImports (fst (parse c s configOptions)) = [] /\
  getBuiltinsImport (fst (parse c s configOptions)) = None /\
  typingModulePath (_analysisJob (fst (parse c s configOptions)))
    = typingModulePath (_analysisJob s) /\
  (forall configOptions' importMap builtinsScope,
      option_map fi_typingModulePath
        (_buildFileInfo (fst (parse c s configOptions)) configOptions'
           importMap builtinsScope)
      = Some (typingModulePath (_analysisJob s))).
Proof.
  intros Hreq Hthrows Hlog.
  destruct (parseBody_fault_logged c s configOptions e Hthrows Hlog)
    as (_ & Hres & Himports & Hbuiltins & _ & Htyping).
  rewrite (parse_fault_logged c s configOptions e Hreq Hthrows Hlog).
  unfold getImports, getBuiltinsImport, _buildFileInfo. cbn.
  rewrite Himports, Hbuiltins, Htyping, Hres. cbn. repeat split.
Qed.

Lemma parse_fault_keeps_typing_path_witness :
  typingModulePath (_analysisJob sampleFinalizedFile)
    = Some "/lib/typing.pyi"%string /\
  typingModulePath
    (_analysisJob
       (fst (parse faultyCollaborators (markDirty sampleFinalizedFile)
               sampleConfig)))
    = Some "/lib/typing.pyi"%string /\
  getImports
    (fst (parse faultyCollaborators (markDirty sampleFinalizedFile)
            sampleConfig)) = [].
Proof.
  destruct (parse_fault_keeps_typing_path faultyCollaborators
              (markDirty sampleFinalizedFile) sampleConfig
              (ThrownError "Maximum call stack size exceeded") eq_refl
              (parser_throws faultyCollaborators
                 (markDirty sampleFinalizedFile) sampleConfig _ eq_refl)
              eq_refl)
    as (_ & Himports & _ & Htyping & _).
  split; [reflexivity|]. split; [rewrite Htyping; reflexivity|exact Himports].
Defined.

(** X8. [getParseResults] answers exactly while the parse is up to date: in
    a reachable state it is defined after every call of [parse] that
    returns (after a fault whose [catch] block completed it is the empty
    placeholder) and undefined after a call of [parse] that throws;
    [markReanalysisRequired] keeps its answer, and [markDirty] makes it
    undefined although the old tree is still stored. *)
Theorem getParseResults_lifecycle (c : Collaborators) (s : SourceFile)
  (configOptions : ConfigOptions) :
  reachable s ->
  (forall s' b,
      parse c s configOptions = (s', Returns b) ->
      getParseResults s' <> None) /\
  (isParseRequired s = true ->
   forall e,
     parseThrows c s configOptions e ->
     logInternalError c (parseLogPrefix s) e = Returns tt ->
     getParseResults (fst (parse c s configOptions)) = Some emptyParseResults) /\
  (forall s' e,
      parse c s configOptions = (s', Throws e) ->
      getParseResults s' = None) /\
  getParseResults (markReanalysisRequired s) = getParseResults s /\
  getParseResults (markDirty s) = None /\
  parseResults (_analysisJob (markDirty s)) = parseResults (_analysisJob s).
Proof.
  intros Hreach. pose proof (reachable_invariant s Hreach) as Hinv.
  split; [|split; [|split; [|split; [|split]]]].
  - intros s' b Hrun.
    assert (Hr : reachable s').
    { apply (reachable_step s _ (OpParse c configOptions) Hreach).
      cbn. rewrite Hrun. reflexivity. }
    pose proof (parse_up_to_date c s s' configOptions b Hrun) as Hreq.
    destruct (reachable_parsed _ Hr Hreq) as [results Hres].
    unfold getParseResults. rewrite Hreq, Hres. discriminate.
  - intros Hreq e Hthrows Hlog.
    rewrite (parse_fault_logged c s configOptions e Hreq Hthrows Hlog).
    unfold getParseResults, isParseRequired. cbn. rewrite Z.eqb_refl. cbn.
    exact (proj1 (proj2 (parseBody_fault_logged c s configOptions e Hthrows
                           Hlog))).
  - intros s' e Hrun.
    destruct (parse_thrown_required c s s' configOptions e Hrun)
      as (_ & Hreq & _).
    unfold getParseResults. rewrite Hreq. reflexivity.
  - reflexivity.
  - unfold getParseResults.
    assert (Hdirty : isParseRequired (markDirty s) = true).
    { apply isParseRequired_true. cbn.
      pose proof (inv_analyzed_upper s Hinv). lia. }
    rewrite Hdirty. reflexivity.
  - reflexivity.
Qed.

Lemma getParseResults_lifecycle_witness :
  getParseResults sampleFinalizedFile = Some sampleResults /\
  getParseResults (markDirty sampleFinalizedFile) = None /\
  getParseResults
    (fst (parse sampleCollaborators (markDirty sampleFinalizedFile)
            sampleConfig)) <> None.
Proof.
  assert (Hreach : reachable sampleFinalizedFile).
  { exact (reachable_step sampleConvergedFile sampleFinalizedFile
             OpFinalizeAnalysis sampleConvergedFile_reachable eq_refl). }
  pose proof (getParseResults_lifecycle sampleCollaborators sampleFinalizedFile
                sampleConfig Hreach) as (_ & _ & _ & _ & Hdirty & _).
  pose proof (getParseResults_lifecycle sampleCollaborators
                (markDirty sampleFinalizedFile) sampleConfig
                (reachable_step _ _ OpMarkDirty Hreach eq_refl))
    as (Hdefined & _).
  split; [reflexivity|]. split; [exact Hdirty|].
  exact (Hdefined _ true eq_refl).
Defined.

(** X24. [parse] converts a fault whose [catch] block completes: when a
    parse is required, something in the [try] block (parser, post-parse
    walker, test walker, import resolution) throws, and the [catch] block
    writes its log line, [parse] returns true, stores the empty placeholder
    tree with empty token and line collections, clears [imports] and
    [builtinsImport], leaves exactly one internal-error diagnostic in the
    parse bucket, sets the analyzed contents version to the current one,
    resets the cursor to [SemanticAnalysis], clears the cleaning flag and
    increments the diagnostic version by one.  The log line is written
    whenever the thrown value is an [Error] or a value [JSON.stringify]
    accepts and the console takes the line. *)
Theorem parse_fault_converted (c : Collaborators) (s : SourceFile)
  (configOptions : ConfigOptions) (e : Thrown) :
  isParseRequired s = true ->
  parseThrows c s configOptions e ->
  logInternalError c (parseLogPrefix s) e = Returns tt ->
  exists s' : SourceFile,
    parse c s configOptions = (s', Returns true) /\
    parseResults (_analysisJob s')
      = Some (mkParseResults (mkModuleNode (mkTextRange 0 0) []) [] []) /\
    imports (_analysisJob s') = None /\
    builtinsImport (_analysisJob s') = None /\
    parseDiagnostics (_analysisJob s')
      = [mkDiagnostic Error
           "An internal error occurred while parsing file" None] /\
    fileContentsVersion (_analysisJob s') = _fileContentsVersion s' /\
    _fileContentsVersion s' = _fileContentsVersion s /\
    isParseRequired s' = false /\
    nextPhaseToRun (_analysisJob s') = SemanticAnalysis /\
    parseTreeNeedsCleaning (_analysisJob s') = false /\
    _diagnosticVersion s' = _diagnosticVersion s + 1.
Proof.
  intros Hreq Hthrows Hlog.
  destruct (parseBody_fault_logged c s configOptions e Hthrows Hlog)
    as (_ & Hres & Himports & Hbuiltins & Hdiags & _).
  rewrite (parse_fault_logged c s configOptions e Hreq Hthrows Hlog).
  eexists. split; [reflexivity|]. cbn.
  rewrite Hres, Himports, Hbuiltins, Hdiags.
  repeat (split; [reflexivity|]).
  split; [unfold isParseRequired; cbn; rewrite Z.eqb_refl; reflexivity|].
  repeat split.
Qed.

Lemma parse_fault_converted_witness :
  logInternalError faultyCollaborators (parseLogPrefix sampleFile)
    (ThrownError "Maximum call stack size exceeded") = Returns tt /\
  parse faultyCollaborators sampleFile sampleConfig
  = (sampleFaultedFile, Returns true) /\
  parseDiagnostics (_analysisJob sampleFaultedFile)
  = [mkDiagnostic Error "An internal error occurred while parsing file" None].
Proof.
  destruct (parse_fault_converted faultyCollaborators sampleFile sampleConfig
              (ThrownError "Maximum call stack size exceeded") eq_refl
              (parser_throws faultyCollaborators sampleFile sampleConfig _
                 eq_refl) eq_refl)
    as (s' & Hrun & _ & _ & _ & Hdiags & _).
  assert (Hs' : s' = sampleFaultedFile).
  { change sampleFaultedFile
      with (fst (parse faultyCollaborators sampleFile sampleConfig)).
    rewrite Hrun. reflexivity. }
  subst s'. split; [reflexivity|]. split; [exact Hrun|exact Hdiags].
Defined.

(** ** More on semantic analysis *)

(** What [doSemanticAnalysis] has stored when it returns, with the outcome
    of the cleaner and of the analyzer spelled out. *)
Lemma doSemanticAnalysis_detail (c : Collaborators) (s s' : SourceFile)
  (configOptions : ConfigOptions) (builtinsScope : option Scope) :
  doSemanticAnalysis c s configOptions builtinsScope = (s', Returns tt) ->
  exists results fileInfo,
    parseResults (_analysisJob s) = Some results /\
    _buildFileInfo s configOptions None builtinsScope = Some fileInfo /\
    ((parseTreeNeedsCleaning (_analysisJob s) = true /\
      (exists e, cleanParseTree c (parseTree results) = Throws e) /\
      parseTreeNeedsCleaning (_analysisJob s') = true /\
      semanticAnalysisDiagnostics (_analysisJob s') = semanticInternalError)
     \/
     ((parseTreeNeedsCleaning (_analysisJob s) = false \/
       cleanParseTree c (parseTree results) = Returns tt) /\
      parseTreeNeedsCleaning (_analysisJob s') = false /\
      semanticAnalysisDiagnostics (_analysisJob s')
      = match scopeAnalyze c (parseTree results) fileInfo with
        | Returns diagnostics => diagnostics
        | Throws _ => semanticInternalError
        end)).
Proof.
  unfold doSemanticAnalysis.
  destruct (negb (semanticAnalysisAsserts s)); [discriminate|].
  destruct (parseResults (_analysisJob s)) as [results|] eqn:Hres;
    [|discriminate].
  destruct (_buildFileInfo s configOptions None builtinsScope)
    as [fileInfo|] eqn:Hinfo; [|discriminate].
  intros H. exists results, fileInfo. split; [reflexivity|].
  split; [reflexivity|]. revert H.
  unfold semanticTry, _cleanParseTreeIfRequired, semanticCatch. rewrite Hres.
  destruct (parseTreeNeedsCleaning (_analysisJob s)) eqn:Hclean.
  - destruct (cleanParseTree c (parseTree results)) as [[]|e] eqn:Hcleaner.
    + destruct (scopeAnalyze c (parseTree results) fileInfo) as [diags|e].
      * intros [= <-]. right. split; [now right|]. split; reflexivity.
      * destruct (logInternalError c _ e); [|discriminate].
        intros [= <-]. right. split; [now right|]. split; reflexivity.
    + destruct (logInternalError c _ e); [|discriminate].
      intros [= <-]. left. split; [reflexivity|]. split; [eauto|].
      cbn. rewrite Hclean. split; reflexivity.
  - destruct (scopeAnalyze c (parseTree results) fileInfo) as [diags|e].
    + intros [= <-]. right. split; [now left|].
      cbn. rewrite Hclean. split; reflexivity.
    + destruct (logInternalError c _ e); [|discriminate].
      intros [= <-]. right. split; [now left|].
      cbn. rewrite Hclean. split; reflexivity.
Qed.


(** A call of [doSemanticAnalysis] whose assertions fail is left by the
    assertion's exception, with the state as it was. *)
Lemma doSemanticAnalysis_refused (c : Collaborators) (s : SourceFile)
  (configOptions : ConfigOptions) (builtinsScope : option Scope) :
  semanticAnalysisAsserts s = false ->
  doSemanticAnalysis c s configOptions builtinsScope
  = (s, Throws assertionError).
Proof.
  intros Hasserts. unfold doSemanticAnalysis. rewrite Hasserts. reflexivity.
Qed.

(** A call of [doSemanticAnalysis] that returns has passed its
    assertions. *)
Lemma doSemanticAnalysis_asserted (c : Collaborators) (s s' : SourceFile)
  (configOptions : ConfigOptions) (builtinsScope : option Scope) :
  doSemanticAnalysis c s configOptions builtinsScope = (s', Returns tt) ->
  semanticAnalysisAsserts s = true.
Proof.
  intros Hrun. destruct (semanticAnalysisAsserts s) eqn:Hasserts;
    [reflexivity|].
  rewrite (doSemanticAnalysis_refused c s configOptions builtinsScope Hasserts)
    in Hrun.
  discriminate.
Qed.

(** After a call of [doSemanticAnalysis] that returns, the file waits for
    type analysis. *)
Lemma doSemanticAnalysis_after (c : Collaborators) (s s' : SourceFile)
  (configOptions : ConfigOptions) (builtinsScope : option Scope) :
  doSemanticAnalysis c s configOptions builtinsScope = (s', Returns tt) ->
  _diagnosticVersion s' = _diagnosticVersion s + 1 /\
  isSemanticAnalysisRequired s' = false /\
  isTypeAnalysisRequired s' = true.
Proof.
  intros Hrun.
  assert (Hparse : isParseRequired s = false).
  { apply doSemanticAnalysis_asserted in Hrun.
    unfold semanticAnalysisAsserts in Hrun.
    destruct (isParseRequired s); [discriminate|reflexivity]. }
  apply doSemanticAnalysis_shape in Hrun as (cleaning & diags & ->).
  split; [reflexivity|].
  assert (Hsem : isSemanticAnalysisRequired
    (mkSourceFile (_filePath s) (_isStubFile s) (_isTypeshedStubFile s)
       (mkAnalysisJob (fileContentsVersion (_analysisJob s)) TypeAnalysis
          cleaning (parseResults (_analysisJob s))
          (parseDiagnostics (_analysisJob s)) diags
          (typeAnalysisLastPassDiagnostics (_analysisJob s))
          (typeAnalysisFinalDiagnostics (_analysisJob s)) [] 1 true false
          (imports (_analysisJob s)) (builtinsImport (_analysisJob s))
          (typingModulePath (_analysisJob s)))
       (_diagnosticVersion s + 1) (_fileContentsVersion s)
       (_clientVersion s) (_fileContents s)) = false).
  { apply isSemanticAnalysisRequired_false. split; [exact Hparse|reflexivity]. }
  split; [exact Hsem|].
  unfold isTypeAnalysisRequired. rewrite Hsem. reflexivity.
Qed.



(** X10. The cleaning flag is cleared only by a cleaner that returned.  For
    a call of [doSemanticAnalysis] that returns (so that the [catch] block,
    if it ran, wrote its log line): if the flag was set and the cleaner
    threw, the flag is left set and the semantic bucket holds the single
    internal-error diagnostic, the analyzer not having run; otherwise the
    flag is clear afterwards and the semantic bucket holds the analyzer's
    diagnostics, or the single internal-error diagnostic when the analyzer
    threw. *)
Theorem doSemanticAnalysis_cleaning (c : Collaborators) (s s' : SourceFile)
  (configOptions : ConfigOptions) (builtinsScope : option Scope)
  (results : ParseResults) (fileInfo : AnalyzerFileInfo) :
  doSemanticAnalysis c s configOptions builtinsScope = (s', Returns tt) ->
  parseResults (_analysisJob s) = Some results ->
  _buildFileInfo s configOptions None builtinsScope = Some fileInfo ->
  (parseTreeNeedsCleaning (_analysisJob s) = true ->
   forall e,
     cleanParseTree c (parseTree results) = Throws e ->
     logInternalError c (semanticLogPrefix s) e = Returns tt /\
     parseTreeNeedsCleaning (_analysisJob s') = true /\
     semanticAnalysisDiagnostics (_analysisJob s')
     = [mkDiagnostic Error
          "An internal error occurred while performing semantic analysis"
          None])
  /\
  ((parseTreeNeedsCleaning (_analysisJob s) = false \/
    cleanParseTree c (parseTree results) = Returns tt) ->
   parseTreeNeedsCleaning (_analysisJob s') = false /\
   semanticAnalysisDiagnostics (_analysisJob s')
   = match scopeAnalyze c (parseTree results) fileInfo with
     | Returns diagnostics => diagnostics
     | Throws _ =>
         [mkDiagnostic Error
            "An internal error occurred while performing semantic analysis"
            None]
     end).
Proof.
  intros Hrun Hres Hinfo.
  pose proof Hrun as Hlogged.
  apply doSemanticAnalysis_detail in Hrun
    as (results' & fileInfo' & Hres' & Hinfo' & Hcases).
  assert (results' = results) as -> by congruence.
  assert (fileInfo' = fileInfo) as -> by congruence.
  split.
  - intros Hflag e Hthrows. split.
    + revert Hlogged. unfold doSemanticAnalysis.
      destruct (negb (semanticAnalysisAsserts s)); [discriminate|].
      rewrite Hres, Hinfo.
      unfold semanticTry, _cleanParseTreeIfRequired, semanticCatch.
      rewrite Hres, Hflag, Hthrows.
      destruct (logInternalError c (semanticLogPrefix s) e) as [[]|];
        [reflexivity|discriminate].
    + destruct Hcases as [(_ & _ & Hkept & Hdiag) | ([Hf | Hc] & _)];
        [split; assumption | congruence | congruence].
  - intros Hclean.
    destruct Hcases as [(Hf & [e Hc] & _) | (_ & Hcleared & Hdiag)];
      [destruct Hclean; congruence | split; assumption].
Qed.

Lemma doSemanticAnalysis_cleaning_witness :
  exists s',
    doSemanticAnalysis faultyCollaborators
      (markReanalysisRequired sampleFinalizedFile) sampleConfig None
    = (s', Returns tt) /\
    parseTreeNeedsCleaning (_analysisJob s') = true /\
    nextPhaseToRun (_analysisJob s') = TypeAnalysis.
Proof.
  eexists. split; [reflexivity|].
  destruct (proj1 (doSemanticAnalysis_cleaning faultyCollaborators
                     (markReanalysisRequired sampleFinalizedFile) _
                     sampleConfig None sampleResults _ eq_refl eq_refl eq_refl)
              eq_refl (ThrownError "Maximum call stack size exceeded") eq_refl)
    as (_ & Hflag & _).
  split; [exact Hflag|reflexivity].
Defined.

(** ** More on type analysis *)

(** What a call of [doTypeAnalysis] that returns has stored, by the outcome
    of the analyzer. *)
Lemma doTypeAnalysis_detail (c : Collaborators) (s s' : SourceFile)
  (configOptions : ConfigOptions) (importMap : ImportMap) :
  doTypeAnalysis c s configOptions importMap = (s', Returns tt) ->
  exists results fileInfo,
    parseResults (_analysisJob s) = Some results /\
    _buildFileInfo s configOptions (Some importMap) None = Some fileInfo /\
    typeAnalysisPassNumber (_analysisJob s')
    = match newTypeAnalyzer c (parseTree results) fileInfo
              (typeAnalysisPassNumber (_analysisJob s)) with
      | Returns _ => typeAnalysisPassNumber (_analysisJob s) + 1
      | Throws _ => typeAnalysisPassNumber (_analysisJob s)
      end /\
    (isTypeAnalysisPassNeeded (_analysisJob s'),
     typeAnalysisLastPassDiagnostics (_analysisJob s'))
    = match newTypeAnalyzer c (parseTree results) fileInfo
              (typeAnalysisPassNumber (_analysisJob s)) with
      | Returns _ =>
          match typeAnalyze c (parseTree results) fileInfo
                  (typeAnalysisPassNumber (_analysisJob s)) with
          | Returns outcome => outcome
          | Throws _ => (false, typeInternalError)
          end
      | Throws _ => (false, typeInternalError)
      end.
Proof.
  unfold doTypeAnalysis.
  destruct (negb (typeAnalysisAsserts s)); [discriminate|].
  destruct (parseResults (_analysisJob s)) as [results|] eqn:Hres;
    [|discriminate].
  destruct (_buildFileInfo s configOptions (Some importMap) None)
    as [fileInfo|] eqn:Hinfo; [|discriminate].
  intros H. exists results, fileInfo. split; [reflexivity|].
  split; [reflexivity|]. revert H. unfold typeAnalysisTry, typeAnalysisCatch.
  destruct (newTypeAnalyzer c (parseTree results) fileInfo _) as [u|e].
  - destruct (typeAnalyze c (parseTree results) fileInfo _)
      as [[needed diags]|e].
    + intros [= <-]. split; reflexivity.
    + destruct (logInternalError c _ e); [|discriminate].
      intros [= <-]. split; reflexivity.
  - destruct (logInternalError c _ e); [|discriminate].
    intros [= <-]. split; reflexivity.
Qed.

(** X11. A type-analysis pass in which the analyzer returns (reachable
    state, semantic analysis up to date, type analysis required) returns,
    increments the pass number, replaces the last-pass bucket by the
    diagnostics of this pass, and stores the analyzer's answer as the
    pass-needed flag; [isTypeAnalysisRequired] afterwards is that answer.
    The finalized bucket and the finalized flag are not touched. *)
Theorem doTypeAnalysis_pass (c : Collaborators) (s : SourceFile)
  (configOptions : ConfigOptions) (importMap : ImportMap)
  (results : ParseResults) (fileInfo : AnalyzerFileInfo)
  (passNeeded : bool) (diagnostics : list Diagnostic) :
  reachable s ->
  isSemanticAnalysisRequired s = false ->
  isTypeAnalysisRequired s = true ->
  parseResults (_analysisJob s) = Some results ->
  _buildFileInfo s configOptions (Some importMap) None = Some fileInfo ->
  newTypeAnalyzer c (parseTree results) fileInfo (getAnalysisPassCount s)
    = Returns tt ->
  typeAnalyze c (parseTree results) fileInfo (getAnalysisPassCount s)
    = Returns (passNeeded, diagnostics) ->
  exists s',
    doTypeAnalysis c s configOptions importMap = (s', Returns tt) /\
    getAnalysisPassCount s' = getAnalysisPassCount s + 1 /\
    typeAnalysisLastPassDiagnostics (_analysisJob s') = diagnostics /\
    isTypeAnalysisPassNeeded (_analysisJob s') = passNeeded /\
    isTypeAnalysisRequired s' = passNeeded /\
    typeAnalysisFinalDiagnostics (_analysisJob s')
      = typeAnalysisFinalDiagnostics (_analysisJob s) /\
    isTypeAnalysisFinalized (_analysisJob s')
      = isTypeAnalysisFinalized (_analysisJob s).
Proof.
  unfold getAnalysisPassCount.
  intros Hreach Hsem Htype Hres Hinfo Hctor Hanalyze.
  pose proof (typeAnalysisAsserts_true s Hreach Hsem Htype) as Hasserts.
  assert (Hrun : exists s',
             doTypeAnalysis c s configOptions importMap = (s', Returns tt)).
  { rewrite (doTypeAnalysis_asserted c s configOptions importMap results
               fileInfo Hasserts Hres Hinfo).
    unfold typeAnalysisTry. rewrite Hctor, Hanalyze. eauto. }
  destruct Hrun as [s' Hrun].
  exists s'. split; [exact Hrun|].
  destruct (doTypeAnalysis_detail c s s' configOptions importMap Hrun)
    as (results' & fileInfo' & Hres' & Hinfo' & Hpass & Hout).
  assert (results' = results) as -> by congruence.
  assert (fileInfo' = fileInfo) as -> by congruence.
  rewrite Hctor in Hpass, Hout. rewrite Hanalyze in Hout.
  injection Hout as Hneeded Hdiags.
  apply doTypeAnalysis_shape in Hrun as (n & nd & d & _ & ->).
  cbn in *. subst.
  repeat (split; [reflexivity|]). split; [|split; reflexivity].
  destruct (proj1 (isSemanticAnalysisRequired_false s) Hsem) as [Hparse Hphase].
  unfold isTypeAnalysisRequired, isSemanticAnalysisRequired.
  change (isParseRequired
            {| _filePath := _filePath s; _isStubFile := _isStubFile s;
               _isTypeshedStubFile := _isTypeshedStubFile s;
               _analysisJob := _;
               _diagnosticVersion := _diagnosticVersion s;
               _fileContentsVersion := _fileContentsVersion s;
               _clientVersion := _clientVersion s;
               _fileContents := _fileContents s |})
    with (isParseRequired s).
  rewrite Hparse. cbn. rewrite Hphase. cbn. destruct passNeeded; reflexivity.
Qed.

Lemma doTypeAnalysis_pass_witness :
  exists s',
    doTypeAnalysis fourPassCollaborators sampleAnalyzedFile sampleConfig []
      = (s', Returns tt) /\
    getAnalysisPassCount s' = 2 /\
    isTypeAnalysisRequired s' = true.
Proof.
  destruct (doTypeAnalysis_pass fourPassCollaborators sampleAnalyzedFile
              sampleConfig [] sampleResults _ true []
              sampleAnalyzedFile_reachable eq_refl eq_refl eq_refl eq_refl
              eq_refl eq_refl)
    as (s' & Hrun & Hpass & _ & _ & Hreq & _).
  exists s'. repeat split; assumption.
Defined.

(** X12. The pass number counts constructed analyzers.  For a call of
    [doTypeAnalysis] that returns (so that the [catch] block, if it ran,
    wrote its log line): the pass number is incremented when the analyzer's
    constructor returned, also when [analyze] then threw, and is left alone
    when the constructor threw; in both fault cases no further pass is asked
    for. *)
Theorem doTypeAnalysis_pass_number (c : Collaborators) (s s' : SourceFile)
  (configOptions : ConfigOptions) (importMap : ImportMap)
  (results : ParseResults) (fileInfo : AnalyzerFileInfo) :
  doTypeAnalysis c s configOptions importMap = (s', Returns tt) ->
  parseResults (_analysisJob s) = Some results ->
  _buildFileInfo s configOptions (Some importMap) None = Some fileInfo ->
  (forall e,
     newTypeAnalyzer c (parseTree results) fileInfo (getAnalysisPassCount s)
       = Throws e ->
     logInternalError c (typeAnalysisLogPrefix s) e = Returns tt /\
     getAnalysisPassCount s' = getAnalysisPassCount s /\
     isTypeAnalysisPassNeeded (_analysisJob s') = false) /\
  (newTypeAnalyzer c (parseTree results) fileInfo (getAnalysisPassCount s)
     = Returns tt ->
   getAnalysisPassCount s' = getAnalysisPassCount s + 1 /\
   (forall e,
      typeAnalyze c (parseTree results) fileInfo (getAnalysisPassCount s)
        = Throws e ->
      logInternalError c (typeAnalysisLogPrefix s) e = Returns tt /\
      isTypeAnalysisPassNeeded (_analysisJob s') = false)).
Proof.
  unfold getAnalysisPassCount. intros Hrun Hres Hinfo.
  pose proof Hrun as Hlogged.
  destruct (doTypeAnalysis_detail c s s' configOptions importMap Hrun)
    as (results' & fileInfo' & Hres' & Hinfo' & Hpass & Hout).
  assert (results' = results) as -> by congruence.
  assert (fileInfo' = fileInfo) as -> by congruence.
  assert (Hasserts : typeAnalysisAsserts s = true).
  { unfold doTypeAnalysis in Hrun.
    destruct (typeAnalysisAsserts s); [reflexivity|discriminate]. }
  rewrite (doTypeAnalysis_asserted c s configOptions importMap results
             fileInfo Hasserts Hres Hinfo) in Hlogged.
  unfold typeAnalysisTry, typeAnalysisCatch in Hlogged.
  split.
  - intros e Hctor. rewrite Hctor in Hpass, Hout, Hlogged.
    split; [|split; [exact Hpass|now injection Hout]].
    destruct (logInternalError c (typeAnalysisLogPrefix s) e) as [[]|];
      [reflexivity|discriminate].
  - intros Hctor. rewrite Hctor in Hpass, Hout, Hlogged.
    split; [exact Hpass|]. intros e Hthrows.
    rewrite Hthrows in Hout, Hlogged.
    split; [|now injection Hout].
    change (typeAnalysisLogPrefix
              (upd_job s (fun j =>
                 job_typeAnalysisPassNumber j (typeAnalysisPassNumber j + 1))))
      with (typeAnalysisLogPrefix s) in Hlogged.
    destruct (logInternalError c (typeAnalysisLogPrefix s) e) as [[]|];
      [reflexivity|discriminate].
Qed.

Lemma doTypeAnalysis_pass_number_witness :
  exists s',
    doTypeAnalysis faultyCollaborators sampleAnalyzedFile sampleConfig []
      = (s', Returns tt) /\
    getAnalysisPassCount s' = 2 /\
    isTypeAnalysisPassNeeded (_analysisJob s') = false.
Proof.
  eexists. split; [reflexivity|].
  destruct (proj2 (doTypeAnalysis_pass_number faultyCollaborators
                     sampleAnalyzedFile _ sampleConfig [] sampleResults _
                     eq_refl eq_refl eq_refl) eq_refl) as [Hpass Hneeded].
  split; [rewrite Hpass; reflexivity|].
  exact (proj2 (Hneeded (ThrownError "Maximum call stack size exceeded")
                  eq_refl)).
Defined.

(** X13. When the loop that repeats [doTypeAnalysis] while it is required
    returns, type analysis is no longer required, the pass number has not
    gone down, the diagnostic version and every answer of [getDiagnostics]
    are the ones from before the loop, and any larger iteration bound
    gives the same result. *)
Theorem analyzeWhileRequired_result (fuel : nat) (c : Collaborators)
  (configOptions : ConfigOptions) (importMap : ImportMap) (s s' : SourceFile) :
  analyzeWhileRequired fuel c configOptions importMap s = Some s' ->
  isTypeAnalysisRequired s' = false /\
  getAnalysisPassCount s <= getAnalysisPassCount s'
    <= getAnalysisPassCount s + Z.of_nat fuel /\
  getDiagnosticVersion s' = getDiagnosticVersion s /\
  (forall options prev,
      getDiagnostics s' options prev = getDiagnostics s options prev) /\
  (forall more,
      analyzeWhileRequired (fuel + more) c configOptions importMap s = Some s').
Proof.
  unfold getAnalysisPassCount, getDiagnosticVersion.
  revert s. induction fuel as [|fuel IH]; intros s Hloop; [discriminate|].
  cbn [analyzeWhileRequired] in Hloop.
  change (S fuel + ?m)%nat with (S (fuel + m)).
  cbn [analyzeWhileRequired].
  destruct (isTypeAnalysisRequired s) eqn:Hreq.
  - destruct (doTypeAnalysis c s configOptions importMap) as [s1 [u|e]] eqn:Hrun;
      [|discriminate].
    destruct (IH s1 Hloop) as (Hdone & Hpass & Hversion & Hdiag & Hmore).
    pose proof (getDiagnostics_doTypeAnalysis c s s1 configOptions importMap
                  _ Hrun) as Hsame.
    apply doTypeAnalysis_shape in Hrun as (n & nd & d & Hn & Hs1).
    assert (Hn1 : typeAnalysisPassNumber (_analysisJob s1) = n)
      by (rewrite Hs1; reflexivity).
    assert (Hv1 : _diagnosticVersion s1 = _diagnosticVersion s)
      by (rewrite Hs1; reflexivity).
    split; [exact Hdone|]. split; [rewrite Nat2Z.inj_succ; lia|].
    split; [congruence|]. split; [|exact Hmore].
    intros options prev. rewrite Hdiag. apply Hsame.
  - injection Hloop as <-. split; [exact Hreq|].
    split; [lia|]. repeat split.
Qed.

Lemma analyzeWhileRequired_result_witness :
  exists s',
    analyzeWhileRequired 5 fourPassCollaborators sampleConfig []
      sampleAnalyzedFile = Some s' /\
    isTypeAnalysisRequired s' = false /\
    analyzeWhileRequired 9 fourPassCollaborators sampleConfig []
      sampleAnalyzedFile = Some s'.
Proof.
  destruct (analyzeWhileRequired 5 fourPassCollaborators sampleConfig []
              sampleAnalyzedFile) as [s'|] eqn:Hloop;
    [|vm_compute in Hloop; discriminate Hloop].
  destruct (analyzeWhileRequired_result 5 fourPassCollaborators sampleConfig []
              sampleAnalyzedFile s' Hloop) as (Hdone & _ & _ & _ & Hmore).
  exists s'. split; [reflexivity|]. split; [exact Hdone|exact (Hmore 4%nat)].
Defined.

(** X25. [doTypeAnalysis] converts a fault whose [catch] block completes:
    if the type analyzer throws, in its constructor or in [analyze] (parse
    and semantic analysis up to date, type analysis required), and the
    [catch] block writes its log line, the call returns, the last-pass
    bucket holds exactly one internal-error diagnostic and
    [isTypeAnalysisPassNeeded] is false, so [isTypeAnalysisRequired] is
    false afterwards and a coordinator that loops while type analysis is
    required stops at once for this file.  The log line is written whenever
    the thrown value is an [Error] or a value [JSON.stringify] accepts and
    the console takes the line. *)
Theorem doTypeAnalysis_fault_converted (c : Collaborators) (s : SourceFile)
  (configOptions : ConfigOptions) (importMap : ImportMap) (e : Thrown) :
  reachable s ->
  isParseRequired s = false ->
  isSemanticAnalysisRequired s = false ->
  isTypeAnalysisRequired s = true ->
  typeAnalyzerThrows c s configOptions importMap e ->
  logInternalError c (typeAnalysisLogPrefix s) e = Returns tt ->
  exists s' : SourceFile,
    doTypeAnalysis c s configOptions importMap = (s', Returns tt) /\
    typeAnalysisLastPassDiagnostics (_analysisJob s')
      = [mkDiagnostic Error
           "An internal error occurred while performing type analysis" None] /\
    isTypeAnalysisPassNeeded (_analysisJob s') = false /\
    isTypeAnalysisRequired s' = false /\
    (forall (fuel : nat) (c' : Collaborators) (configOptions' : ConfigOptions)
            (importMap' : ImportMap),
        analyzeWhileRequired (S fuel) c' configOptions' importMap' s'
        = Some s').
Proof.
  intros Hreach Hparse Hsem Htype Hthrows Hlog.
  destruct (reachable_parsed s Hreach Hparse) as [results Hres].
  destruct (buildFileInfo_some s configOptions (Some importMap) None results
              Hres) as [fileInfo Hinfo].
  pose proof (typeAnalysisAsserts_true s Hreach Hsem Htype) as Hasserts.
  assert (Hrun : exists passNumber,
    doTypeAnalysis c s configOptions importMap
    = (upd_job
         (upd_job
            (upd_job s (fun j => job_typeAnalysisPassNumber j passNumber))
            (fun j => job_isTypeAnalysisPassNeeded j false))
         (fun j => job_typeAnalysisLastPassDiagnostics j typeInternalError),
       Returns tt)).
  { rewrite (doTypeAnalysis_asserted c s configOptions importMap results
               fileInfo Hasserts Hres Hinfo).
    unfold typeAnalysisTry, typeAnalysisCatch.
    destruct (Hthrows results fileInfo Hres Hinfo) as [Hctor | [Hctor Hrun]].
    - rewrite Hctor, Hlog.
      exists (typeAnalysisPassNumber (_analysisJob s)).
      f_equal; try now expose s.
    - rewrite Hctor, Hrun.
      change (typeAnalysisLogPrefix
                (upd_job s (fun j =>
                   job_typeAnalysisPassNumber j
                     (typeAnalysisPassNumber j + 1))))
        with (typeAnalysisLogPrefix s).
      rewrite Hlog. eexists. reflexivity. }
  destruct Hrun as [passNumber ->].
  eexists. split; [reflexivity|].
  assert (Hafter : isTypeAnalysisRequired
    (upd_job
       (upd_job
          (upd_job s (fun j => job_typeAnalysisPassNumber j passNumber))
          (fun j => job_isTypeAnalysisPassNeeded j false))
       (fun j => job_typeAnalysisLastPassDiagnostics j typeInternalError))
    = false).
  { apply isTypeAnalysisRequired_false. split; [|reflexivity].
    apply isSemanticAnalysisRequired_false.
    apply isSemanticAnalysisRequired_false in Hsem as [Hp Hphase].
    split; [|exact Hphase].
    apply isParseRequired_false. apply isParseRequired_false in Hp. exact Hp. }
  repeat (split; [reflexivity|]). split; [exact Hafter|].
  intros fuel c' configOptions' importMap'. simpl. rewrite Hafter. reflexivity.
Qed.

Lemma doTypeAnalysis_fault_converted_witness :
  exists s' : SourceFile,
    doTypeAnalysis faultyCollaborators sampleAnalyzedFile sampleConfig []
      = (s', Returns tt) /\
    isTypeAnalysisRequired s' = false /\
    analyzeWhileRequired 1 sampleCollaborators sampleConfig [] s' = Some s'.
Proof.
  destruct (doTypeAnalysis_fault_converted faultyCollaborators
              sampleAnalyzedFile sampleConfig []
              (ThrownError "Maximum call stack size exceeded"))
    as (s' & Hrun & _ & _ & Hreq & Hloop).
  - exact sampleAnalyzedFile_reachable.
  - reflexivity.
  - reflexivity.
  - reflexivity.
  - intros results fileInfo _ _. right. split; reflexivity.
  - reflexivity.
  - exists s'. repeat split; [exact Hrun | exact Hreq | apply Hloop].
Defined.

(** ** Phase order *)



(** A call of [doTypeAnalysis] whose assertions fail is left by the
    assertion's exception, with the state as it was. *)
Lemma doTypeAnalysis_refused (c : Collaborators) (s : SourceFile)
  (configOptions : ConfigOptions) (importMap : ImportMap) :
  typeAnalysisAsserts s = false ->
  doTypeAnalysis c s configOptions importMap = (s, Throws assertionError).
Proof.
  intros Hasserts. unfold doTypeAnalysis. rewrite Hasserts. reflexivity.
Qed.



(** X15. [setTypeAnalysisPassNeeded] reopens type analysis: afterwards type
    analysis is required, the file is not finalized and [finalizeAnalysis]
    fails its assertion, while the diagnostic version and every answer of
    [getDiagnostics] are unchanged; in a reachable state whose semantic
    analysis is up to date, [doTypeAnalysis] passes its assertions again. *)
Theorem setTypeAnalysisPassNeeded_reopens (c : Collaborators) (s : SourceFile)
  (configOptions : ConfigOptions) (importMap : ImportMap) :
  isTypeAnalysisRequired (setTypeAnalysisPassNeeded s) = true /\
  isAnalysisFinalized (setTypeAnalysisPassNeeded s) = false /\
  finalizeAnalysis (setTypeAnalysisPassNeeded s) = None /\
  getDiagnosticVersion (setTypeAnalysisPassNeeded s) = getDiagnosticVersion s /\
  (forall options prev,
      getDiagnostics (setTypeAnalysisPassNeeded s) options prev
      = getDiagnostics s options prev) /\
  (reachable s -> isSemanticAnalysisRequired s = false ->
   typeAnalysisAsserts (setTypeAnalysisPassNeeded s) = true /\
   exists results fileInfo,
     parseResults (_analysisJob s) = Some results /\
     _buildFileInfo (setTypeAnalysisPassNeeded s) configOptions
       (Some importMap) None = Some fileInfo /\
     doTypeAnalysis c (setTypeAnalysisPassNeeded s) configOptions importMap
     = match typeAnalysisTry c (setTypeAnalysisPassNeeded s) results
               fileInfo with
       | (s1, Returns _) => (s1, Returns tt)
       | (s1, Throws e) => typeAnalysisCatch c s1 e
       end).
Proof.
  assert (Hreq : isTypeAnalysisRequired (setTypeAnalysisPassNeeded s) = true).
  { unfold isTypeAnalysisRequired.
    destruct (isSemanticAnalysisRequired (setTypeAnalysisPassNeeded s));
      [reflexivity|].
    cbn. rewrite orb_true_r. reflexivity. }
  split; [exact Hreq|]. split.
  - unfold isAnalysisFinalized. rewrite Hreq. reflexivity.
  - split; [unfold finalizeAnalysis; rewrite Hreq; reflexivity|].
    split; [reflexivity|]. split; [reflexivity|].
    intros Hreach Hsem.
    assert (Hasserts : typeAnalysisAsserts (setTypeAnalysisPassNeeded s) = true).
    { apply typeAnalysisAsserts_true; [|exact Hsem|exact Hreq].
      exact (reachable_step s _ OpSetTypeAnalysisPassNeeded Hreach eq_refl). }
    split; [exact Hasserts|].
    destruct (proj1 (isSemanticAnalysisRequired_false s) Hsem) as [Hparse _].
    destruct (reachable_parsed s Hreach Hparse) as [results Hres].
    assert (Hres' : parseResults (_analysisJob (setTypeAnalysisPassNeeded s))
                    = Some results) by exact Hres.
    destruct (buildFileInfo_some (setTypeAnalysisPassNeeded s) configOptions
                (Some importMap) None results Hres') as [fileInfo Hinfo].
    exists results, fileInfo. split; [exact Hres|]. split; [exact Hinfo|].
    exact (doTypeAnalysis_asserted c _ configOptions importMap results
             fileInfo Hasserts Hres' Hinfo).
Qed.

Lemma setTypeAnalysisPassNeeded_reopens_witness :
  isAnalysisFinalized sampleFinalizedFile = true /\
  isAnalysisFinalized (setTypeAnalysisPassNeeded sampleFinalizedFile) = false /\
  typeAnalysisAsserts (setTypeAnalysisPassNeeded sampleFinalizedFile) = true /\
  exists s',
    doTypeAnalysis sampleCollaborators
      (setTypeAnalysisPassNeeded sampleFinalizedFile) sampleConfig []
    = (s', Returns tt).
Proof.
  assert (Hreach : reachable sampleFinalizedFile).
  { exact (reachable_step sampleConvergedFile sampleFinalizedFile
             OpFinalizeAnalysis sampleConvergedFile_reachable eq_refl). }
  destruct (setTypeAnalysisPassNeeded_reopens sampleCollaborators
              sampleFinalizedFile sampleConfig [])
    as (_ & Hfinal & _ & _ & _ & Hruns).
  split; [reflexivity|]. split; [exact Hfinal|].
  split; [exact (proj1 (Hruns Hreach eq_refl))|].
  eexists. reflexivity.
Defined.

(** X16. No phase runs out of order: while a parse is required all three
    analysis operations fail their assertions; while semantic analysis is
    required [doTypeAnalysis] and [finalizeAnalysis] fail; while type
    analysis is required [finalizeAnalysis] fails; [doSemanticAnalysis]
    fails once semantic analysis is up to date (so never twice in a row),
    and [doTypeAnalysis] fails once type analysis is no longer required.  A
    failed assertion leaves the call by an exception, with the state as it
    was. *)
Theorem phases_out_of_order (c : Collaborators) (s : SourceFile)
  (configOptions : ConfigOptions) (builtinsScope : option Scope)
  (importMap : ImportMap) :
  (isParseRequired s = true ->
   doSemanticAnalysis c s configOptions builtinsScope
   = (s, Throws assertionError) /\
   doTypeAnalysis c s configOptions importMap = (s, Throws assertionError) /\
   finalizeAnalysis s = None) /\
  (isSemanticAnalysisRequired s = true ->
   doTypeAnalysis c s configOptions importMap = (s, Throws assertionError) /\
   finalizeAnalysis s = None) /\
  (isTypeAnalysisRequired s = true -> finalizeAnalysis s = None) /\
  (isSemanticAnalysisRequired s = false ->
   doSemanticAnalysis c s configOptions builtinsScope
   = (s, Throws assertionError)) /\
  (isTypeAnalysisRequired s = false ->
   doTypeAnalysis c s configOptions importMap = (s, Throws assertionError)) /\
  (forall s' c' configOptions' builtinsScope',
      doSemanticAnalysis c s configOptions builtinsScope = (s', Returns tt) ->
      doSemanticAnalysis c' s' configOptions' builtinsScope'
      = (s', Throws assertionError)).
Proof.
  assert (Hfin : isTypeAnalysisRequired s = true -> finalizeAnalysis s = None).
  { intros H. unfold finalizeAnalysis. rewrite H. reflexivity. }
  assert (Htype : isSemanticAnalysisRequired s = true ->
                  doTypeAnalysis c s configOptions importMap
                  = (s, Throws assertionError) /\
                  finalizeAnalysis s = None).
  { intros H. split.
    - apply doTypeAnalysis_refused. unfold typeAnalysisAsserts. rewrite H.
      destruct (negb (isParseRequired s)); reflexivity.
    - apply Hfin. unfold isTypeAnalysisRequired. rewrite H. reflexivity. }
  assert (Hsem : forall c0 s0 o0 b0,
             isSemanticAnalysisRequired s0 = false ->
             doSemanticAnalysis c0 s0 o0 b0 = (s0, Throws assertionError)).
  { intros c0 s0 o0 b0 H. apply doSemanticAnalysis_refused.
    unfold semanticAnalysisAsserts. rewrite H.
    destruct (negb (isParseRequired s0)); reflexivity. }
  split; [|split; [exact Htype|split; [exact Hfin|split; [apply Hsem|split]]]].
  - intros H. split.
    + apply doSemanticAnalysis_refused. unfold semanticAnalysisAsserts.
      rewrite H. reflexivity.
    + apply Htype. unfold isSemanticAnalysisRequired. rewrite H. reflexivity.
  - intros H. apply doTypeAnalysis_refused. unfold typeAnalysisAsserts.
    rewrite H.
    destruct (negb (isParseRequired s)); [|reflexivity].
    destruct (negb (isSemanticAnalysisRequired s)); reflexivity.
  - intros s' c' configOptions' builtinsScope' Hrun. apply Hsem.
    exact (proj1 (proj2 (doSemanticAnalysis_after c s s' configOptions
                           builtinsScope Hrun))).
Qed.

Lemma phases_out_of_order_witness :
  doSemanticAnalysis sampleCollaborators sampleFile sampleConfig None
    = (sampleFile, Throws assertionError) /\
  finalizeAnalysis sampleAnalyzedFile = None /\
  doSemanticAnalysis sampleCollaborators sampleAnalyzedFile sampleConfig None
    = (sampleAnalyzedFile, Throws assertionError).
Proof.
  split; [|split].
  - exact (proj1 (proj1 (phases_out_of_order sampleCollaborators sampleFile
                           sampleConfig None []) eq_refl)).
  - exact (proj1 (proj2 (proj2 (phases_out_of_order sampleCollaborators
                                  sampleAnalyzedFile sampleConfig None [])))
             eq_refl).
  - exact (proj1 (proj2 (proj2 (proj2 (phases_out_of_order sampleCollaborators
             sampleAnalyzedFile sampleConfig None [])))) eq_refl).
Defined.

(** ** More on the diagnostic list *)

Lemma errorToWarning_category (d : Diagnostic) :
  category (errorToWarning d) = Warning /\
  message (errorToWarning d) = message d /\
  range (errorToWarning d) = range d.
Proof.
  unfold errorToWarning. destruct d as [[] m r]; repeat split.
Qed.

(** X17. [finalizeAnalysis] publishes the last pass: for a file that is no
    typeshed stub and not ignored, [getDiagnostics] afterwards returns the
    parse bucket, the semantic bucket, the diagnostics of the last pass and
    the cycle diagnostics, in this order; a caller that passes the version
    from before the call gets that list, and one that passes the new
    version gets undefined. *)
Theorem finalize_publishes (s s' : SourceFile) (options : ConfigOptions) :
  finalizeAnalysis s = Some s' ->
  _isTypeshedStubFile s = false ->
  inIgnoreList s options = false ->
  getDiagnostics s' options None
  = Some (parseDiagnostics (_analysisJob s)
            ++ semanticAnalysisDiagnostics (_analysisJob s)
            ++ typeAnalysisLastPassDiagnostics (_analysisJob s)
            ++ match reportImportCycles options with
               | level_none => []
               | level_warning =>
                   map (cycleDiagnostic Warning)
                     (circularDependencies (_analysisJob s))
               | level_error =>
                   map (cycleDiagnostic Error)
                     (circularDependencies (_analysisJob s))
               end) /\
  getDiagnostics s' options (Some (getDiagnosticVersion s))
  = getDiagnostics s' options None /\
  getDiagnostics s' options (Some (getDiagnosticVersion s')) = None.
Proof.
  intros Hrun Hstub Hignore.
  apply finalizeAnalysis_shape in Hrun as [_ ->].
  split; [|split].
  - rewrite getDiagnostics_steps by discriminate.
    cbn [_isTypeshedStubFile]. rewrite Hstub. cbn [andb].
    change (inIgnoreList _ options) with (inIgnoreList s options).
    rewrite Hignore. reflexivity.
  - unfold getDiagnostics, getDiagnosticVersion. cbn [_diagnosticVersion].
    replace (_diagnosticVersion s + 1 =? _diagnosticVersion s) with false
      by (symmetry; apply Z.eqb_neq; lia).
    reflexivity.
  - apply getDiagnostics_unchanged.
Qed.

Lemma finalize_publishes_witness :
  getDiagnostics sampleConvergedFile sampleConfig None = Some [] /\
  getDiagnostics sampleFinalizedFile sampleConfig None
  = Some [sampleTypeDiagnostic].
Proof.
  split; [reflexivity|].
  exact (proj1 (finalize_publishes sampleConvergedFile sampleFinalizedFile
                  sampleConfig eq_refl eq_refl eq_refl)).
Defined.

(** X18. For a typeshed stub, the stub-error mode 'none' makes
    [getDiagnostics] return undefined whatever the buckets, the ignore list
    and the previous version are; with the mode 'warning' every diagnostic
    returned has the category warning, and unless the file is ignored the
    list has the messages and ranges of the unfiltered list, one for
    one. *)
Theorem typeshed_stub_filter (s : SourceFile) (options : ConfigOptions)
  (prev : option Z) :
  _isTypeshedStubFile s = true ->
  (reportTypeshedErrors options = level_none ->
   getDiagnostics s options prev = None) /\
  (reportTypeshedErrors options = level_warning ->
   forall l,
     getDiagnostics s options prev = Some l ->
     Forall (fun d => category d = Warning) l /\
     (inIgnoreList s options = false ->
      map message l = map message (reportedDiagnostics s options) /\
      map range l = map range (reportedDiagnostics s options))).
Proof.
  intros Hstub.
  assert (Hprev : prev = Some (_diagnosticVersion s) \/
                  prev <> Some (_diagnosticVersion s)).
  { destruct prev as [p|]; [|right; discriminate].
    destruct (Z.eq_dec p (_diagnosticVersion s)) as [->|Hne];
      [now left | right; congruence]. }
  split.
  - intros Hmode. destruct Hprev as [-> | Hprev];
      [apply getDiagnostics_unchanged|].
    rewrite (getDiagnostics_steps s options prev Hprev), Hstub, Hmode.
    reflexivity.
  - intros Hmode l Hl. destruct Hprev as [-> | Hprev];
      [rewrite getDiagnostics_unchanged in Hl; discriminate|].
    rewrite (getDiagnostics_steps s options prev Hprev), Hstub, Hmode in Hl.
    cbn [andb] in Hl.
    destruct (inIgnoreList s options); injection Hl as <-.
    + split; [constructor|discriminate].
    + split.
      * apply Forall_forall. intros d Hin.
        apply in_map_iff in Hin as (d0 & <- & _).
        apply errorToWarning_category.
      * intros _. rewrite !map_map. split; apply map_ext; intros d;
          apply errorToWarning_category.
Qed.

Lemma typeshed_stub_filter_witness :
  getDiagnostics sampleStubFile sampleConfig None
  = Some [mkDiagnostic Error "Expected expression" None;
          mkDiagnostic Warning "Name is not bound" None;
          sampleTypeDiagnostic;
          cycleDiagnostic Error
            (mkCircularDependency
               ["/typeshed/stdlib/os.pyi"; "/typeshed/stdlib/sys.pyi"])] /\
  exists l,
    getDiagnostics sampleStubFile warningConfig None = Some l /\
    Forall (fun d => category d = Warning) l /\
    List.length l = 4%nat.
Proof.
  split; [reflexivity|].
  destruct (getDiagnostics sampleStubFile warningConfig None) as [l|] eqn:Hl;
    [|vm_compute in Hl; discriminate Hl].
  exists l. split; [reflexivity|].
  destruct (proj2 (typeshed_stub_filter sampleStubFile warningConfig None
                     eq_refl) eq_refl l Hl) as [Hall Hsame].
  split; [exact Hall|].
  rewrite <- (length_map message), (proj1 (Hsame eq_refl)). reflexivity.
Defined.

(** X19. When no configured ignore path is the empty string and the call
    is not cut short (the previous version differs, and the file is not a
    typeshed stub under the mode 'none'), [getDiagnostics] returns the empty
    list, not undefined, if some ignore path is a prefix of the file path;
    and for a file that is no typeshed stub and has no such prefix it
    returns the unfiltered list. *)
Theorem ignore_list_filter (s : SourceFile) (options : ConfigOptions)
  (prev : option Z) :
  Forall (fun ignorePath => ignorePath <> ""%string) (ignore options) ->
  prev <> Some (getDiagnosticVersion s) ->
  (existsb (fun ignorePath => startsWith (getFilePath s) ignorePath)
     (ignore options) = true ->
   _isTypeshedStubFile s = false \/ reportTypeshedErrors options <> level_none ->
   getDiagnostics s options prev = Some []) /\
  (existsb (fun ignorePath => startsWith (getFilePath s) ignorePath)
     (ignore options) = false ->
   _isTypeshedStubFile s = false ->
   getDiagnostics s options prev = Some (reportedDiagnostics s options)).
Proof.
  unfold getDiagnosticVersion, getFilePath. intros Hnonempty Hprev.
  rewrite <- (inIgnoreList_nonempty s options Hnonempty).
  rewrite (getDiagnostics_steps s options prev Hprev).
  split.
  - intros -> [-> | Hmode]; [reflexivity|].
    destruct (_isTypeshedStubFile s), (reportTypeshedErrors options);
      try reflexivity. contradiction.
  - intros -> ->. reflexivity.
Qed.

Lemma ignore_list_filter_witness :
  getDiagnostics sampleFinalizedFile sampleConfig None
    = Some [sampleTypeDiagnostic] /\
  getDiagnostics sampleFinalizedFile ignoreSrcConfig None = Some [] /\
  getDiagnostics sampleFinalizedFile ignoreSrcConfig (Some 3) = None.
Proof.
  split; [reflexivity|]. split; [|reflexivity].
  refine (proj1 (ignore_list_filter sampleFinalizedFile ignoreSrcConfig None
                   _ _) eq_refl (or_introl eq_refl)).
  - repeat constructor; discriminate.
  - discriminate.
Defined.

(** X20. In a reachable state [getDiagnostics] never returns more than
    four diagnostics beyond the parse, semantic and finalized buckets, and
    none beyond them when cycle reporting is off. *)
Theorem getDiagnostics_length (s : SourceFile) (options : ConfigOptions)
  (prev : option Z) (l : list Diagnostic) :
  reachable s ->
  getDiagnostics s options prev = Some l ->
  (List.length l
   <= List.length (parseDiagnostics (_analysisJob s))
      + List.length (semanticAnalysisDiagnostics (_analysisJob s))
      + List.length (typeAnalysisFinalDiagnostics (_analysisJob s)) + 4)%nat /\
  (reportImportCycles options = level_none ->
   (List.length l
    <= List.length (parseDiagnostics (_analysisJob s))
       + List.length (semanticAnalysisDiagnostics (_analysisJob s))
       + List.length (typeAnalysisFinalDiagnostics (_analysisJob s)))%nat).
Proof.
  intros Hreach Hl.
  pose proof (inv_cap s (reachable_invariant s Hreach)) as Hcap.
  unfold MaxImportCyclesPerFile in Hcap.
  assert (Hprev : prev <> Some (_diagnosticVersion s)).
  { intros ->. rewrite getDiagnostics_unchanged in Hl. discriminate. }
  rewrite (getDiagnostics_steps s options prev Hprev) in Hl.
  assert (Hlen :
    (List.length (reportedDiagnostics s options)
     = List.length (parseDiagnostics (_analysisJob s))
       + List.length (semanticAnalysisDiagnostics (_analysisJob s))
       + List.length (typeAnalysisFinalDiagnostics (_analysisJob s))
       + match reportImportCycles options with
         | level_none => 0
         | _ => List.length (circularDependencies (_analysisJob s))
         end)%nat).
  { unfold reportedDiagnostics. rewrite !length_app.
    destruct (reportImportCycles options); rewrite ?length_map; simpl; lia. }
  assert (Hcases : l = [] \/
                   List.length l = List.length (reportedDiagnostics s options)).
  { destruct (_isTypeshedStubFile s && _); [discriminate|].
    destruct (inIgnoreList s options); [injection Hl as <-; now left|].
    destruct (_isTypeshedStubFile s && _); injection Hl as <-; right;
      [apply length_map | reflexivity]. }
  destruct Hcases as [-> | Hsame].
  - split; [simpl; lia|intros _; simpl; lia].
  - rewrite Hsame, Hlen. split.
    + destruct (reportImportCycles options); lia.
    + intros ->. lia.
Qed.

Lemma getDiagnostics_length_witness :
  exists l,
    getDiagnostics
      (addCircularDependencies sampleFinalizedFile
         [sampleCycle 1; sampleCycle 2; sampleCycle 3; sampleCycle 4;
          sampleCycle 5; sampleCycle 6]) sampleConfig None = Some l /\
    (List.length l <= 5)%nat.
Proof.
  assert (Hreach : reachable
            (addCircularDependencies sampleFinalizedFile
               [sampleCycle 1; sampleCycle 2; sampleCycle 3; sampleCycle 4;
                sampleCycle 5; sampleCycle 6])).
  { apply (run_reachable
             [OpFinalizeAnalysis;
              OpAddCircularDependency (sampleCycle 1);
              OpAddCircularDependency (sampleCycle 2);
              OpAddCircularDependency (sampleCycle 3);
              OpAddCircularDependency (sampleCycle 4);
              OpAddCircularDependency (sampleCycle 5);
              OpAddCircularDependency (sampleCycle 6)]
             sampleConvergedFile _ sampleConvergedFile_reachable).
    reflexivity. }
  destruct (getDiagnostics _ sampleConfig None) as [l|] eqn:Hl;
    [|vm_compute in Hl; discriminate Hl].
  exists l. split; [reflexivity|].
  exact (proj1 (getDiagnostics_length _ sampleConfig None l Hreach Hl)).
Defined.

(** ** More on circular dependencies *)

(** X21. [addCircularDependency] never removes or reorders a recorded
    cycle: after any sequence of calls the stored list is the previous list
    followed by cycles taken from the reported ones; and as long as the
    final list holds fewer than 4 entries, every reported cycle is in
    it. *)
Theorem addCircularDependencies_appends (cycles : list CircularDependency)
  (s : SourceFile) :
  exists added,
    circularDependencies (_analysisJob (addCircularDependencies s cycles))
    = circularDependencies (_analysisJob s) ++ added /\
    incl added cycles /\
    ((List.length
        (circularDependencies (_analysisJob (addCircularDependencies s cycles)))
      < 4)%nat ->
     forall d,
       In d cycles ->
       In d (circularDependencies
               (_analysisJob (addCircularDependencies s cycles)))).
Proof.
  revert s. induction cycles as [|d cycles IH]; intros s.
  - exists []. simpl. rewrite app_nil_r. split; [reflexivity|].
    split; [intros x Hx; exact Hx|]. intros _ x [].
  - change (addCircularDependencies s (d :: cycles))
      with (addCircularDependencies (addCircularDependency s d) cycles).
    destruct (IH (addCircularDependency s d)) as (added & Heq & Hincl & Hall).
    destruct (addCircularDependency_cases s d)
      as [[He Hwhy] | (He & Hlen & Hnew)]; rewrite He in *.
    + exists added. split; [exact Heq|].
      split; [intros x Hx; right; apply Hincl, Hx|].
      intros Hsmall x [<- | Hx]; [|apply Hall; assumption].
      destruct Hwhy as [Hfull | Hdup].
      * rewrite Heq, length_app in Hsmall.
        unfold MaxImportCyclesPerFile in Hfull. lia.
      * apply existsb_exists in Hdup as (e & Hin & Hequal).
        apply isEqual_true in Hequal as ->.
        rewrite Heq. apply in_or_app. now left.
    + cbn in Heq. exists (d :: added). split.
      * rewrite Heq, <- app_assoc. reflexivity.
      * split.
        -- intros x [<- | Hx]; [now left | right; apply Hincl, Hx].
        -- intros Hsmall x [<- | Hx]; [|apply Hall; assumption].
           rewrite Heq. apply in_or_app. left. apply in_or_app. right.
           now left.
Qed.

Lemma addCircularDependencies_appends_witness :
  circularDependencies
    (_analysisJob
       (addCircularDependencies
          (addCircularDependency sampleAnalyzedFile (sampleCycle 2))
          [sampleCycle 1; sampleCycle 2; sampleCycle 3]))
  = [sampleCycle 2; sampleCycle 1; sampleCycle 3] /\
  In (sampleCycle 3)
    (circularDependencies
       (_analysisJob
          (addCircularDependencies
             (addCircularDependency sampleAnalyzedFile (sampleCycle 2))
             [sampleCycle 1; sampleCycle 2; sampleCycle 3]))).
Proof.
  split; [reflexivity|].
  destruct (addCircularDependencies_appends
              [sampleCycle 1; sampleCycle 2; sampleCycle 3]
              (addCircularDependency sampleAnalyzedFile (sampleCycle 2)))
    as (added & _ & _ & Hall).
  apply Hall; [vm_compute; lia | right; right; now left].
Defined.

(** ** Look-ups *)

(** X22. The look-up methods answer from the stored tree, stale or not:
    on a new file all three return undefined; [markDirty] and
    [markReanalysisRequired] do not change the answers of the definition
    and hover look-ups; completions are undefined whenever no buffer is
    held, in particular after [setClientVersion] with a null version; and
    in a reachable state whose parse is up to date the three look-ups are
    the providers' answers on the tree [getParseResults] returns (for
    completions, on that tree and the buffer held). *)
Theorem lookups_use_stored_tree (p : Providers) (s : SourceFile)
  (position : DiagnosticTextPosition) :
  (forall filePath isTypeshedStubFile,
      getDefinitionForPosition p (newSourceFile filePath isTypeshedStubFile)
        position = None /\
      getHoverForPosition p (newSourceFile filePath isTypeshedStubFile)
        position = None /\
      getCompletionsForPosition p (newSourceFile filePath isTypeshedStubFile)
        position = None) /\
  (getDefinitionForPosition p (markDirty s) position
     = getDefinitionForPosition p s position /\
   getHoverForPosition p (markDirty s) position
     = getHoverForPosition p s position /\
   getDefinitionForPosition p (markReanalysisRequired s) position
     = getDefinitionForPosition p s position /\
   getHoverForPosition p (markReanalysisRequired s) position
     = getHoverForPosition p s position) /\
  (_fileContents s = None -> getCompletionsForPosition p s position = None) /\
  (forall contents,
      getCompletionsForPosition p (setClientVersion s None contents) position
      = None) /\
  (reachable s -> isParseRequired s = false ->
   exists results,
     getParseResults s = Some results /\
     getDefinitionForPosition p s position
       = definitionProvider p results position /\
     getHoverForPosition p s position = hoverProvider p results position /\
     forall contents,
       _fileContents s = Some contents ->
       getCompletionsForPosition p s position
       = completionProvider p results contents position).
Proof.
  split; [intros; repeat split|]. split; [repeat split|]. split; [|split].
  - intros Hnone. unfold getCompletionsForPosition. rewrite Hnone.
    destruct (parseResults (_analysisJob s)); reflexivity.
  - intros contents. unfold getCompletionsForPosition. cbn.
    destruct (parseResults (_analysisJob s)); reflexivity.
  - intros Hreach Hparse.
    destruct (reachable_parsed s Hreach Hparse) as [results Hres].
    exists results.
    unfold getParseResults, getDefinitionForPosition, getHoverForPosition,
      getCompletionsForPosition.
    rewrite Hparse, Hres. repeat (split; [reflexivity|]).
    intros contents ->. reflexivity.
Qed.

Lemma lookups_use_stored_tree_witness :
  getHoverForPosition sampleProviders sampleFinalizedFile (mkPosition 0 0)
    = Some "x: int"%string /\
  getHoverForPosition sampleProviders (markDirty sampleFinalizedFile)
    (mkPosition 0 0) = Some "x: int"%string /\
  getCompletionsForPosition sampleProviders sampleFinalizedFile (mkPosition 0 0)
    = None.
Proof.
  destruct (lookups_use_stored_tree sampleProviders sampleFinalizedFile
              (mkPosition 0 0)) as (_ & (_ & Hhover & _) & Hnone & _).
  split; [reflexivity|]. split; [rewrite Hhover; reflexivity|].
  exact (Hnone eq_refl).
Defined.

(** ** Writers of the buckets *)

(** X23. Each diagnostic bucket has its own writers: a method call,
    returning or throwing, changes the parse bucket only if it is [parse], the semantic bucket only if it
    is [doSemanticAnalysis], the last-pass bucket only if it is
    [doTypeAnalysis] or [finalizeAnalysis], and the finalized bucket only
    if it is [finalizeAnalysis]; so the finalized type diagnostics stay
    reported across edits and re-analysis until the next finalization. *)
Theorem bucket_writers (s s' : SourceFile) (op : Operation) :
  step s op = Some s' ->
  match op with
  | OpParse _ _ => True
  | _ => parseDiagnostics (_analysisJob s') = parseDiagnostics (_analysisJob s)
  end /\
  match op with
  | OpDoSemanticAnalysis _ _ _ => True
  | _ => semanticAnalysisDiagnostics (_analysisJob s')
         = semanticAnalysisDiagnostics (_analysisJob s)
  end /\
  match op with
  | OpDoTypeAnalysis _ _ _ | OpFinalizeAnalysis => True
  | _ => typeAnalysisLastPassDiagnostics (_analysisJob s')
         = typeAnalysisLastPassDiagnostics (_analysisJob s)
  end /\
  match op with
  | OpFinalizeAnalysis => True
  | _ => typeAnalysisFinalDiagnostics (_analysisJob s')
         = typeAnalysisFinalDiagnostics (_analysisJob s)
  end.
Proof.
  intros Hstep. destruct op; simpl in Hstep.
  - injection Hstep as <-. repeat split.
  - injection Hstep as <-. repeat split.
  - injection Hstep as <-. unfold setClientVersion.
    destruct version as [v|]; [|repeat split].
    cbn [set_clientVersion _fileContents].
    destruct (_fileContents s) as [old|]; [|repeat split].
    destruct (negb (old =? contents)%string); repeat split.
  - injection Hstep as <-. repeat split.
  - injection Hstep as <-.
    destruct (addCircularDependency_cases s circDependency)
      as [[-> _] | (-> & _)]; repeat split.
  - injection Hstep as <-.
    pose proof (parseBody_frame c s configOptions) as Hframe.
    cbv zeta in Hframe.
    destruct Hframe as (_ & _ & _ & Hsem & Hlast & Hfinal & _).
    destruct (parse_cases c s configOptions)
      as [[_ ->] | [(_ & _ & ->) | (e & _ & _ & ->)]]; cbn;
      rewrite ?Hsem, ?Hlast, ?Hfinal; repeat split.
  - injection Hstep as <-.
    destruct (doSemanticAnalysis c s configOptions builtinsScope)
      as [s1 [[]|e]] eqn:Hrun; cbn [fst].
    + apply doSemanticAnalysis_shape in Hrun as (cl & d & ->). repeat split.
    + apply doSemanticAnalysis_thrown in Hrun as (cl & ->). repeat split.
  - injection Hstep as <-.
    destruct (doTypeAnalysis c s configOptions importMap) as [s1 r] eqn:Hrun.
    apply doTypeAnalysis_shape in Hrun as (n & nd & d & _ & ->). repeat split.
  - apply finalizeAnalysis_shape in Hstep as [_ ->]. repeat split.
Qed.

Lemma bucket_writers_witness :
  typeAnalysisFinalDiagnostics
    (_analysisJob
       (fst (parse faultyCollaborators (markDirty sampleFinalizedFile)
               sampleConfig)))
  = [sampleTypeDiagnostic].
Proof.
  pose proof (bucket_writers sampleFinalizedFile _ OpMarkDirty eq_refl)
    as (_ & _ & _ & Hdirty).
  pose proof (bucket_writers (markDirty sampleFinalizedFile) _
                (OpParse faultyCollaborators sampleConfig) eq_refl)
    as (_ & _ & _ & Hparse).
  cbn [step] in Hparse. rewrite Hparse, Hdirty. reflexivity.
Defined.
